(** * Realtime load predictions: feature engineers, feature reconciler and
      recursive forecaster

    A shallow embedding of the prediction scripts

      - [src/ml_engine/prediction/rf_predict.py]        (modules [RfPredict]
        and [RfLoad])
      - [src/ml_engine/v2/prediction/future_predict.py] (module [FuturePredict])
      - [src/ml_engine/v2/prediction/predict.py]        (modules [Predict]
        and [PredictFeatures])

    Numbers are exact rationals ([Q]): rounding, overflow and the arithmetic
    of infinities are outside the embedding.  A missing value (NaN, None,
    NaT) is the cell [NaN].  Timestamps are seconds since the epoch.
    Printing is left out, as are values the scripts compute only to print
    them or never use.  Functions of numpy, pandas and scikit-learn whose result is not
    fixed by the scripts (square root, sine, cosine, the string parsers, the
    Gaussian generator, the fitted scaler and the regressor) are fields of the
    class [Lib] or arguments. *)

From Stdlib Require Import String Ascii DecimalString.
From Stdlib Require Import QArith ZArith Qround Bool Lia Lqa List.
From Stdlib Require Import Permutation DecimalNat.
Import ListNotations.

Local Open Scope string_scope.
Local Open Scope list_scope.
Local Open Scope Q_scope.
Set Warnings "-register-all".

(** ** Python: exceptions, built-in [min] and [max], negative indices *)

Module Py.

Inductive exn : Type :=
| KeyError (key : string)
| IndexError
| ValueError
| TypeError
| Unmodelled.  (* the input leaves the domain of the embedding *)

Inductive res (A : Type) : Type :=
| Ok (a : A)
| Raise (e : exn).

Arguments Ok {A} a.
Arguments Raise {A} e.

Definition bind {A B : Type} (c : res A) (k : A -> res B) : res B :=
  match c with
  | Ok a => k a
  | Raise e => Raise e
  end.

Definition is_ok {A : Type} (c : res A) : bool :=
  match c with Ok _ => true | Raise _ => false end.

(** [min(a, b)] keeps [a] unless [b < a]; [max(a, b)] keeps [a] unless
    [b > a]. *)
Definition min (a b : Q) : Q := if Qlt_le_dec b a then b else a.
Definition max (a b : Q) : Q := if Qlt_le_dec a b then b else a.

(** [l[-k]] for [k >= 1]. *)
Definition index_neg {A : Type} (l : list A) (k : nat) : res A :=
  match k with
  | O => Raise Unmodelled
  | S _ =>
      if (k <=? length l)%nat
      then match nth_error l (length l - k) with
           | Some a => Ok a
           | None => Raise IndexError
           end
      else Raise IndexError
  end.

(** [l[0]]. *)
Definition first {A : Type} (l : list A) : res A :=
  match l with
  | a :: _ => Ok a
  | [] => Raise IndexError
  end.

(** [str(n)] for a natural number. *)
Definition str (n : nat) : string := NilEmpty.string_of_uint (Nat.to_uint n).

Fixpoint mapM {A B : Type} (f : A -> res B) (l : list A) : res (list B) :=
  match l with
  | [] => Ok []
  | a :: r =>
      bind (f a) (fun b => bind (mapM f r) (fun bs => Ok (b :: bs)))
  end.

Fixpoint foldM {A S : Type} (f : S -> A -> res S) (l : list A) (s : S)
  : res S :=
  match l with
  | [] => Ok s
  | a :: r => bind (f s a) (foldM f r)
  end.

End Py.

Import Py.

Declare Scope res_scope.
Delimit Scope res_scope with res.
Notation "x <- c ;; k" := (bind c (fun x => k))
  (at level 61, c at next level, right associativity) : res_scope.
Notation "' p <- c ;; k" := (bind c (fun x => let p := x in k))
  (at level 61, p pattern, c at next level, right associativity) : res_scope.
Local Open Scope res_scope.

Infix "+++" := String.append (at level 60, right associativity).

(** ** The library functions the scripts call but do not fix *)

Class Lib : Type := {
  np_sqrt : Q -> Q;
  np_sin : Q -> Q;
  np_cos : Q -> Q;
  np_pi : Q;
  (** the number a numeric-like string denotes, for [pd.to_numeric] and
      [float] *)
  parse_number : string -> option Q;
  (** the timestamp a string denotes, for [pd.to_datetime] *)
  parse_datetime : string -> option Q;
  (** the state of numpy's global random generator *)
  rng : Type;
  (** [np.random.normal(loc, scale)] *)
  random_normal : Q -> Q -> rng -> Q * rng
}.

(** ** pandas: cells, columns and frames *)

Module Pandas.

Inductive cell : Type :=
| Num (q : Q)           (* a number; bool True and False are 1 and 0 *)
| NaN                   (* missing *)
| Str (s : string)
| Time (t : Q)          (* Timestamp, seconds since the epoch *)
| Seq (l : list cell).  (* list, tuple, ndarray or Series *)

Definition column : Type := list cell.

(** Columns in frame order, each holding [nrows] cells. *)
Record frame : Type := Frame {
  nrows : nat;
  cols : list (string * column)
}.

Definition columns (df : frame) : list string := map fst (cols df).

Definition mem (c : string) (l : list string) : bool :=
  existsb (String.eqb c) l.

(** [c in df.columns] *)
Definition has_col (c : string) (df : frame) : bool := mem c (columns df).

Fixpoint lookup (c : string) (l : list (string * column)) : option column :=
  match l with
  | [] => None
  | (k, v) :: r => if String.eqb k c then Some v else lookup c r
  end.

(** [df[c]] read *)
Definition get_col (c : string) (df : frame) : res column :=
  match lookup c (cols df) with
  | Some v => Ok v
  | None => Raise (KeyError c)
  end.

Fixpoint assign (c : string) (v : column) (l : list (string * column))
  : list (string * column) :=
  match l with
  | [] => [(c, v)]
  | (k, w) :: r =>
      if String.eqb k c then (k, v) :: r else (k, w) :: assign c v r
  end.

(** [df[c] = v] for a Series [v] on the frame's index: the column is
    replaced where it stands, or appended. *)
Definition set_col (c : string) (v : column) (df : frame) : frame :=
  Frame (nrows df) (assign c v (cols df)).

(** [df[c] = x] for a scalar [x] *)
Definition set_scalar (c : string) (x : cell) (df : frame) : frame :=
  set_col c (repeat x (nrows df)) df.

(** [df[c] = v] for a list [v], whose length must be the frame's *)
Definition set_list (c : string) (v : column) (df : frame) : res frame :=
  if (length v =? nrows df)%nat then Ok (set_col c v df)
  else Raise ValueError.

Fixpoint select_cols (names : list string) (l : list (string * column))
  : res (list (string * column)) :=
  match names with
  | [] => Ok []
  | n :: r =>
      match lookup n l with
      | Some v => rest <- select_cols r l ;; Ok ((n, v) :: rest)
      | None => Raise (KeyError n)
      end
  end.

(** [df[names]] *)
Definition select (names : list string) (df : frame) : res frame :=
  cs <- select_cols names (cols df) ;; Ok (Frame (nrows df) cs).

(** [df.drop(columns=names)], for names taken from the frame *)
Definition drop (names : list string) (df : frame) : frame :=
  Frame (nrows df) (filter (fun kv => negb (mem (fst kv) names)) (cols df)).

Definition fillna_cell (x : Q) (c : cell) : cell :=
  match c with NaN => Num x | _ => c end.

(** [df.fillna(x)] *)
Definition fillna (x : Q) (df : frame) : frame :=
  Frame (nrows df)
        (map (fun kv => (fst kv, map (fillna_cell x) (snd kv))) (cols df)).

(** [df.iloc[-1:]] *)
Definition last_row (df : frame) : frame :=
  Frame (Nat.min 1 (nrows df))
        (map (fun kv => (fst kv, skipn (length (snd kv) - 1) (snd kv)))
             (cols df)).

(** [s.iloc[i]] *)
Definition iloc (v : column) (i : nat) : res cell :=
  match nth_error v i with
  | Some c => Ok c
  | None => Raise IndexError
  end.

(** *** Cell equality, rows, duplicates *)

Fixpoint cell_eqb (a b : cell) : bool :=
  match a, b with
  | Num p, Num q => Qeq_bool p q
  | NaN, NaN => true
  | Str s, Str t => String.eqb s t
  | Time s, Time t => Qeq_bool s t
  | Seq l, Seq m =>
      (fix go (l m : list cell) : bool :=
         match l, m with
         | [], [] => true
         | x :: l', y :: m' => cell_eqb x y && go l' m'
         | _, _ => false
         end) l m
  | _, _ => false
  end.

Definition is_seq (c : cell) : bool :=
  match c with Seq _ => true | _ => false end.

Definition row_at (df : frame) (i : nat) : list cell :=
  map (fun kv => nth i (snd kv) NaN) (cols df).

Fixpoint row_eqb (r s : list cell) : bool :=
  match r, s with
  | [], [] => true
  | x :: r', y :: s' => cell_eqb x y && row_eqb r' s'
  | _, _ => false
  end.

(** [df.duplicated()]: a row is a duplicate when an earlier row equals it
    (missing values compare equal); a sequence-typed cell cannot be hashed. *)
Definition duplicated (df : frame) : res (list bool) :=
  if existsb (fun kv => existsb is_seq (snd kv)) (cols df)
  then Raise TypeError
  else Ok (map (fun i => existsb (fun j => row_eqb (row_at df j) (row_at df i))
                                 (seq 0 i))
               (seq 0 (nrows df))).

Fixpoint keep_where {A : Type} (mask : list bool) (l : list A) : list A :=
  match mask, l with
  | b :: m, x :: r => if b then x :: keep_where m r else keep_where m r
  | _, _ => []
  end.

(** [df.drop_duplicates().reset_index(drop=True)] *)
Definition drop_duplicates (df : frame) : res frame :=
  dup <- duplicated df ;;
  let keep := map negb dup in
  Ok (Frame (length (filter (fun b => b) keep))
            (map (fun kv => (fst kv, keep_where keep (snd kv))) (cols df))).

(** *** Sorting by a datetime column *)

(** Order of the sort keys: timestamps ascending, missing values last. *)
Definition key_le (a b : cell) : bool :=
  match a, b with
  | Time s, Time t => Qle_bool s t
  | Time _, _ => true
  | _, Time _ => false
  | _, _ => true
  end.

Fixpoint insert_key (x : cell * nat) (l : list (cell * nat))
  : list (cell * nat) :=
  match l with
  | [] => [x]
  | y :: r => if key_le (fst x) (fst y) then x :: y :: r
              else y :: insert_key x r
  end.

(** The permutation that sorts the keys; ties keep their order (the script
    does not fix the order pandas leaves ties in). *)
Definition argsort (keys : column) : list nat :=
  map snd (fold_right insert_key [] (combine keys (seq 0 (length keys)))).

Definition take (perm : list nat) (v : column) : column :=
  map (fun i => nth i v NaN) perm.

(** [df.sort_values(c).reset_index(drop=True)] *)
Definition sort_values (c : string) (df : frame) : res frame :=
  keys <- get_col c df ;;
  let perm := argsort keys in
  Ok (Frame (nrows df) (map (fun kv => (fst kv, take perm (snd kv))) (cols df))).

(** *** Setting with enlargement *)

(** [df.loc[len(df), c] = x]: a new last row, missing everywhere but in
    column [c]. *)
Definition append_row (c : string) (x : cell) (df : frame) : frame :=
  Frame (S (nrows df))
        (map (fun kv => (fst kv, snd kv ++ [if String.eqb (fst kv) c
                                            then x else NaN]))
             (cols df)).

Fixpoint set_nth (i : nat) (x : cell) (v : column) : column :=
  match i, v with
  | O, _ :: r => x :: r
  | S j, y :: r => y :: set_nth j x r
  | _, [] => []
  end.

(** [df.loc[i, c] = x] for a row [i] and a column [c] of the frame *)
Definition set_cell (i : nat) (c : string) (x : cell) (df : frame) : frame :=
  Frame (nrows df)
        (map (fun kv => (fst kv, if String.eqb (fst kv) c
                                 then set_nth i x (snd kv) else snd kv))
             (cols df)).

(** *** Numeric series *)

Definition sum (l : list Q) : Q := fold_right Qplus 0 l.

Definition of_nat (n : nat) : Q := inject_Z (Z.of_nat n).

Definition mean (l : list Q) : Q := sum l / of_nat (length l).

(** Sum of squared deviations from the mean, over [n - ddof]. *)
Definition variance (ddof : nat) (l : list Q) : Q :=
  sum (map (fun x => (x - mean l) * (x - mean l)) l)
  / of_nat (length l - ddof).

(** The least and the greatest value ([s.min()], [np.min], [s.max()],
    [np.max]) of a list that holds a value. *)
Definition minimum (l : list Q) : Q :=
  match l with
  | [] => 0
  | x :: r => fold_left (fun m y => if Qlt_le_dec y m then y else m) r x
  end.

Definition maximum (l : list Q) : Q :=
  match l with
  | [] => 0
  | x :: r => fold_left (fun m y => if Qlt_le_dec m y then y else m) r x
  end.

(** A float column read as numbers; [None] is a missing value.  Other
    cells are not numeric data. *)
Definition as_num (c : cell) : res (option Q) :=
  match c with
  | Num q => Ok (Some q)
  | NaN => Ok None
  | _ => Raise TypeError
  end.

Definition numeric (v : column) : res (list (option Q)) := mapM as_num v.

(** [s.dropna()] *)
Definition dropna (v : list (option Q)) : list Q :=
  flat_map (fun o => match o with Some q => [q] | None => [] end) v.

(** [s.diff()]: missing in the first row and next to a missing value *)
Fixpoint diff_from (prev : option Q) (v : list (option Q))
  : list (option Q) :=
  match v with
  | [] => []
  | x :: r =>
      match prev, x with
      | Some a, Some b => Some (b - a)
      | _, _ => None
      end :: diff_from x r
  end.

Definition diff (v : list (option Q)) : list (option Q) := diff_from None v.

(** [s.shift(k)] *)
Definition shift (k : nat) (v : column) : column :=
  firstn (length v) (repeat NaN k ++ v).

(** The rows a trailing window of size [w] holds at row [i]. *)
Definition window_at {A : Type} (w i : nat) (v : list A) : list A :=
  skipn (S i - w) (firstn (S i) v).

Definition stat_mean (obs : list Q) : cell :=
  match obs with [] => NaN | _ => Num (mean obs) end.

Definition stat_min (obs : list Q) : cell :=
  match obs with [] => NaN | _ => Num (minimum obs) end.

Definition stat_max (obs : list Q) : cell :=
  match obs with [] => NaN | _ => Num (maximum obs) end.

Section WithLib.

Context {L : Lib}.

(** The sample standard deviation (pandas divides by [n - 1]) has no value
    on fewer than two observations. *)
Definition stat_std (obs : list Q) : cell :=
  if (length obs <? 2)%nat then NaN else Num (np_sqrt (variance 1 obs)).

(** [s.rolling(window=w, min_periods=m).stat()]: at each row the statistic
    of the observed values in the window, missing when fewer than [m] are
    observed. *)
Definition rolling (w m : nat) (stat : list Q -> cell) (v : column)
  : res column :=
  xs <- numeric v ;;
  Ok (map (fun i => let obs := dropna (window_at w i xs) in
                    if (m <=? length obs)%nat then stat obs else NaN)
          (seq 0 (length xs))).

(** [pd.to_datetime]; a number counts nanoseconds since the epoch. *)
Definition to_datetime_cell (c : cell) : res cell :=
  match c with
  | Time t => Ok (Time t)
  | NaN => Ok NaN
  | Num q => Ok (Time (q / 1000000000))
  | Str s => match parse_datetime s with
             | Some t => Ok (Time t)
             | None => Raise ValueError
             end
  | Seq _ => Raise TypeError
  end.

Definition to_datetime (v : column) : res column := mapM to_datetime_cell v.

End WithLib.

(** A datetime column read as timestamps; [None] is NaT. *)
Definition timestamps (v : column) : list (option Q) :=
  map (fun c => match c with Time t => Some t | _ => None end) v.

(** *** The [.dt] accessor *)

Definition dt_hour (t : Q) : Z := ((Qfloor t / 3600) mod 24)%Z.

Definition dt_days (t : Q) : Z := (Qfloor t / 86400)%Z.

(** Monday is 0; the epoch was a Thursday. *)
Definition dt_dayofweek (t : Q) : Z := ((dt_days t + 3) mod 7)%Z.

(** Year, month and day of the proleptic Gregorian calendar from the day
    count since the epoch. *)
Definition civil_from_days (z : Z) : Z * Z * Z :=
  (let z := z + 719468 in
   let era := z / 146097 in
   let doe := z - era * 146097 in
   let yoe := (doe - doe / 1460 + doe / 36524 - doe / 146096) / 365 in
   let doy := doe - (365 * yoe + yoe / 4 - yoe / 100) in
   let mp := (5 * doy + 2) / 153 in
   let d := doy - (153 * mp + 2) / 5 + 1 in
   let m := if mp <? 10 then mp + 3 else mp - 9 in
   (yoe + era * 400 + (if m <=? 2 then 1 else 0), m, d))%Z.

Definition dt_month (t : Q) : Z := snd (fst (civil_from_days (dt_days t))).

Definition dt_day (t : Q) : Z := snd (civil_from_days (dt_days t)).

Definition dt (f : Q -> Z) (c : cell) : cell :=
  match c with
  | Time t => Num (inject_Z (f t))
  | _ => NaN
  end.

End Pandas.

(** ** scikit-learn: the fitted scaler and the regressor, both opaque *)

Module Sklearn.

Import Pandas.

(** What [transform] is called on: a frame or a bare array. *)
Inductive input : Type :=
| OfFrame (df : frame)
| OfArray (rows : list (list cell)).

Record scaler : Type := {
  (** [None] when the attribute does not exist *)
  feature_names_in_ : option (list string);
  transform : input -> res (list (list Q))
}.

Record model : Type := {
  predict : list (list Q) -> res (list Q)
}.

End Sklearn.

(** ** The feature engineers and the reconciler shared by the scripts *)

Module Features.

Import Pandas.

Definition ltb (a b : Q) : bool := negb (Qle_bool b a).

(** [get_day_part(hour)] *)
Definition get_day_part (hour : Q) : string :=
  if Qle_bool 5 hour && ltb hour 12 then "morning"
  else if Qle_bool 12 hour && ltb hour 17 then "afternoon"
  else if Qle_bool 17 hour && ltb hour 22 then "evening"
  else "night".

(** [.apply(get_day_part)]: every comparison with a missing hour is false. *)
Definition apply_get_day_part (c : cell) : res cell :=
  match c with
  | Num h => Ok (Str (get_day_part h))
  | NaN => Ok (Str "night")
  | _ => Raise TypeError
  end.

(** [.apply(lambda x: 1 if x >= 5 else 0)] *)
Definition is_weekend (c : cell) : res cell :=
  match c with
  | Num x => Ok (Num (if Qle_bool 5 x then 1 else 0))
  | NaN => Ok (Num 0)
  | _ => Raise TypeError
  end.

(** [s.dt.field]; only a datetime column has the accessor. *)
Definition dt_field (f : Q -> Z) (c : cell) : res cell :=
  match c with
  | Time _ | NaN => Ok (dt f c)
  | _ => Raise TypeError
  end.

(** [df[dst] = f(df[src])], cell by cell *)
Definition derive (src dst : string) (f : cell -> res cell) (df : frame)
  : res frame :=
  v <- get_col src df ;;
  w <- mapM f v ;;
  Ok (set_col dst w df).

Definition day_parts : list string :=
  ["morning"; "afternoon"; "evening"; "night"].

(** [(s == part).astype(int)] *)
Definition indicator (part : string) (c : cell) : res cell :=
  Ok (Num (if cell_eqb c (Str part) then 1 else 0)).

Definition default_lags : list nat := [1; 3; 6; 12; 24]%nat.
Definition default_windows : list nat := [3; 6; 12; 24]%nat.

(** The argument [target_cols]: one name or a list of names. *)
Inductive target_cols : Type :=
| One (target : string)
| Many (targets : list string).

Definition as_list (t : target_cols) : list string :=
  match t with One s => [s] | Many l => l end.

(** [create_lag_features] of [rf_predict.py] and [future_predict.py] *)
Definition create_lag_features (df : frame) (targets : target_cols)
  (lag_periods : list nat) : res frame :=
  foldM (fun df target =>
    foldM (fun df lag =>
      v <- get_col target df ;;
      Ok (set_col (target +++ "_lag_" +++ str lag) (shift lag v) df))
      lag_periods df)
    (as_list targets) df.

Section WithLib.

Context {L : Lib}.

(** The steps [create_time_features] shares between the scripts: the
    datetime fields, the weekend flag and the day-part category. *)
Definition time_fields (df : frame) (time_col : string) : res frame :=
  tc <- get_col time_col df ;;
  times <- to_datetime tc ;;
  let df := set_col time_col times df in
  df <- derive time_col "hour_of_day" (dt_field dt_hour) df ;;
  df <- derive time_col "day_of_week" (dt_field dt_dayofweek) df ;;
  df <- derive time_col "day_of_month" (dt_field dt_day) df ;;
  df <- derive time_col "month" (dt_field dt_month) df ;;
  df <- derive "day_of_week" "is_weekend" is_weekend df ;;
  derive "hour_of_day" "day_part" apply_get_day_part df.

(** [np.f(2 * np.pi * x / n)] *)
Definition cyclic (f : Q -> Q) (n : Q) (c : cell) : res cell :=
  match c with
  | Num x => Ok (Num (f (2 * np_pi * x / n)))
  | NaN => Ok NaN
  | _ => Raise TypeError
  end.

Definition cyclical_features (df : frame) : res frame :=
  df <- derive "hour_of_day" "hour_sin" (cyclic np_sin 24) df ;;
  df <- derive "hour_of_day" "hour_cos" (cyclic np_cos 24) df ;;
  df <- derive "day_of_week" "day_sin" (cyclic np_sin 7) df ;;
  derive "day_of_week" "day_cos" (cyclic np_cos 7) df.

(** [create_rolling_features] of [rf_predict.py] and [future_predict.py] *)
Definition create_rolling_features (df : frame) (targets : target_cols)
  (windows : list nat) : res frame :=
  foldM (fun df target =>
    foldM (fun df window =>
      let w := str window in
      s <- get_col target df ;;
      v <- rolling window 1 stat_mean s ;;
      let df := set_col (target +++ "_rolling_mean_" +++ w) v df in
      s <- get_col target df ;;
      v <- rolling window 1 stat_std s ;;
      let df := set_col (target +++ "_rolling_std_" +++ w) v df in
      s <- get_col target df ;;
      v <- rolling window 1 stat_min s ;;
      let df := set_col (target +++ "_rolling_min_" +++ w) v df in
      s <- get_col target df ;;
      v <- rolling window 1 stat_max s ;;
      Ok (set_col (target +++ "_rolling_max_" +++ w) v df))
      windows df)
    (as_list targets) df.

(** *** Coercion of the non-numeric columns of a feature matrix
        ([rf_predict.py], in [make_predictions] and in
        [predict_future_values]) *)

Inductive dtype : Type := Number | Datetime | Object.

Definition is_float (c : cell) : bool :=
  match c with Num _ | NaN => true | _ => false end.

Definition is_time (c : cell) : bool :=
  match c with Time _ => true | _ => false end.

Definition is_float_or_str (c : cell) : bool :=
  match c with Num _ | NaN | Str _ => true | _ => false end.

(** The dtype pandas gives a column: a float column, a datetime column
    without NaT, or an object column of numbers and strings.  Other mixtures
    are outside the embedding. *)
Definition dtype_of (v : column) : res dtype :=
  if forallb is_float v then Ok Number
  else if forallb is_time v then Ok Datetime
  else if forallb is_float_or_str v then Ok Object
  else Raise Unmodelled.

(** [pd.to_numeric(s, errors='coerce')] on an object column *)
Definition to_numeric_cell (c : cell) : cell :=
  match c with
  | Str s => match parse_number s with Some q => Num q | None => NaN end
  | _ => c
  end.

(** [s.astype(np.int64) / 10**9] on a datetime column: seconds since the
    epoch *)
Definition epoch_seconds (c : cell) : cell :=
  match c with Time t => Num t | _ => c end.

(** One column of the loop over [non_numeric_cols].  pandas does not raise
    on the columns of the embedding, so the [except] branches, which drop
    the column, are not taken. *)
Definition coerce_column (v : column) : res column :=
  d <- dtype_of v ;;
  match d with
  | Number => Ok v
  | Datetime => Ok (map epoch_seconds v)
  | Object => Ok (map (fillna_cell 0) (map to_numeric_cell v))
  end.

Definition coerce_non_numeric (X : frame) : res frame :=
  cs <- mapM (fun kv => v <- coerce_column (snd kv) ;; Ok (fst kv, v))
             (cols X) ;;
  Ok (Frame (nrows X) cs).

End WithLib.

End Features.

(** ** [src/ml_engine/prediction/rf_predict.py] *)

Module RfPredict.

Import Pandas Sklearn Features.

Section WithLib.

Context {L : Lib}.

(** One pass of [for part in day_parts]. *)
Definition one_hot (df : frame) (part : string) : res frame :=
  derive "day_part" ("day_part_" +++ part) (indicator part) df.

(** [create_time_features(df, time_col)] *)
Definition create_time_features (df : frame) (time_col : string)
  : res frame :=
  if negb (has_col time_col df) then Ok df
  else
    df_new <- time_fields df time_col ;;
    df_new <- foldM one_hot day_parts df_new ;;
    let df_new := drop ["day_part"] df_new in
    cyclical_features df_new.

(** [col.startswith(p)] *)
Definition startswith (p col : string) : bool := String.prefix p col.

(** Lines 71-105 of [make_predictions], for a scaler that has
    [feature_names_in_]: the missing features are added as missing values,
    the expected features are selected in their order, and the missing
    values are filled with 0. *)
Definition reconcile (expected_features : list string) (df_copy : frame)
  : res frame :=
  let missing_features :=
    filter (fun feat => negb (has_col feat df_copy)) expected_features in
  let df_copy :=
    fold_left (fun d feat => set_scalar feat NaN d) missing_features df_copy in
  X <- select expected_features df_copy ;;
  Ok (fillna 0 X).

(** The feature matrix [make_predictions] hands to the scaler. *)
Definition feature_matrix (sc : scaler) (df_copy : frame)
  (target_vars : list string) : res frame :=
  X <- match feature_names_in_ sc with
       | Some expected_features => reconcile expected_features df_copy
       | None =>
           Ok (drop (filter (fun col => mem col target_vars
                                        || startswith "time_" col)
                            (columns df_copy))
                    df_copy)
       end ;;
  coerce_non_numeric X.

Definition default_target_vars : list string :=
  ["average_usage_cpu"; "average_usage_memory"].

(** [make_predictions(model, scaler, df, target_var, target_vars)] *)
Definition make_predictions (m : model) (sc : scaler) (df : frame)
  (target_var : string) (target_vars : option (list string))
  : res (frame * list Q) :=
  let target_vars :=
    match target_vars with Some l => l | None => default_target_vars end in
  let df_copy := df in
  df_copy <- (if has_col "time_dt" df_copy
              then create_time_features df_copy "time_dt"
              else Ok df_copy) ;;
  df_copy <- create_lag_features df_copy (One target_var) default_lags ;;
  df_copy <- create_rolling_features df_copy (One target_var)
                                     default_windows ;;
  X <- feature_matrix sc df_copy target_vars ;;
  X_scaled <- transform sc (OfFrame X) ;;
  predictions <- predict m X_scaled ;;
  let df_with_preds := df in
  df_with_preds <- set_list (target_var +++ "_predicted")
                            (map Num predictions) df_with_preds ;;
  Ok (df_with_preds, predictions).

(** [s.max()] of a datetime column, NaT when nothing is observed *)
Definition last_observed (ts : list (option Q)) : option Q :=
  match dropna ts with
  | [] => None
  | obs => Some (maximum obs)
  end.

(** [s.mean()] of a timedelta column *)
Definition mean_observed (ds : list (option Q)) : option Q :=
  match dropna ds with
  | [] => None
  | obs => Some (mean obs)
  end.

(** [last_time + (i+1) * avg_interval] *)
Definition future_time (last_time avg_interval : option Q) (i : nat) : cell :=
  match last_time, avg_interval with
  | Some l, Some a => Time (l + of_nat (i + 1) * a)
  | _, _ => NaN
  end.

(** [create_future_timepoints(df, future_periods, time_col)]; the result
    [None] is Python's.  The function also leaves the converted time column
    in [df], where its callers had already put it. *)
Definition create_future_timepoints (df : frame) (future_periods : nat)
  (time_col : string) : res (option frame) :=
  if negb (has_col time_col df) || (nrows df <=? 1)%nat then Ok None
  else
    tc <- get_col time_col df ;;
    times <- to_datetime tc ;;
    let time_diffs := diff (timestamps times) in
    let avg_interval := mean_observed time_diffs in
    let last_time := last_observed (timestamps times) in
    let future_times :=
      map (future_time last_time avg_interval) (seq 0 future_periods) in
    Ok (Some (Frame future_periods [(time_col, future_times)])).

(** *** The recursive forecaster *)

(** The target column as numbers.  A missing or non-numeric target value is
    outside the embedding, which does not compute with NaN. *)
Definition finite_cell (c : cell) : res Q :=
  match c with Num q => Ok q | _ => Raise Unmodelled end.

Definition target_values (df : frame) (target_var : string) : res (list Q) :=
  v <- get_col target_var df ;; mapM finite_cell v.

(** A pattern table: the group keys with the value of each. *)
Definition pattern : Type := list (Q * Q).

Definition group_key (c : cell) : res (option Q) :=
  match c with
  | Num q => Ok (Some q)
  | NaN => Ok None
  | _ => Raise Unmodelled
  end.

Fixpoint distinct (l : list Q) : list Q :=
  match l with
  | [] => []
  | x :: r => x :: filter (fun y => negb (Qeq_bool x y)) (distinct r)
  end.

Definition group_of (keys : list (option Q)) (vals : list Q) (k : Q)
  : list Q :=
  map snd (filter (fun kv => match fst kv with
                             | Some k' => Qeq_bool k k'
                             | None => false
                             end)
                  (combine keys vals)).

(** [vals.groupby(keys).mean()]; rows with a missing key belong to no
    group.  The groups stand in the order of their first row, which neither
    the mean of the table nor a lookup depends on. *)
Definition groupby_mean (keys : list (option Q)) (vals : list Q) : pattern :=
  map (fun k => (k, mean (group_of keys vals k))) (distinct (dropna keys)).

(** [pattern / pattern.mean()] *)
Definition normalise (p : pattern) : pattern :=
  let m := mean (map snd p) in
  map (fun kv => (fst kv, snd kv / m)) p.

(** [pattern.get(key, default)] *)
Definition pattern_get (p : pattern) (key : cell) (default : Q) : Q :=
  match key with
  | Num h => match find (fun kv => Qeq_bool (fst kv) h) p with
             | Some kv => snd kv
             | None => default
             end
  | _ => default
  end.

Definition pattern_of (working_df : frame) (key_col : string)
  (hist : list Q) : res pattern :=
  kc <- get_col key_col working_df ;;
  keys <- mapM group_key kc ;;
  Ok (normalise (groupby_mean keys hist)).

(** What the forecaster learns from the history before it steps. *)
Record analysis : Type := {
  avg_diff : Q;
  std_diff : Q;
  daily_pattern_norm : option pattern;
  weekly_pattern_norm : option pattern
}.

(** Lines 347-372 *)
Definition analyse (working_df : frame) (hist : list Q) : res analysis :=
  if (24 <? nrows working_df)%nat then
    let d := dropna (diff (map Some hist)) in
    daily <- (if (24 <=? nrows working_df)%nat
              then p <- pattern_of working_df "hour_of_day" hist ;;
                   Ok (Some p)
              else Ok None) ;;
    weekly <- (if (24 * 7 <=? nrows working_df)%nat
               then p <- pattern_of working_df "day_of_week" hist ;;
                    Ok (Some p)
               else Ok None) ;;
    Ok {| avg_diff := mean d;
          std_diff := np_sqrt (variance 1 d);
          daily_pattern_norm := daily;
          weekly_pattern_norm := weekly |}
  else
    Ok {| avg_diff := 0;
          std_diff := 0.01;
          daily_pattern_norm := None;
          weekly_pattern_norm := None |}.

(** The value of [lag_col] at step [i] (lines 405-422) *)
Definition lag_feature (sd : Q) (hist preds : list Q) (i lag : nat)
  (g : rng) : res (Q * rng) :=
  if (length preds <? lag)%nat then
    if (lag =? 1)%nat && (0 <? i)%nat then
      let '(variation, g) := random_normal 0 (sd * 0.5) g in
      p <- index_neg preds 1 ;;
      Ok (p + variation, g)
    else
      value <- (if (i <? lag)%nat then index_neg hist (lag - i)
                else first preds) ;;
      let '(variation, g) := random_normal 0 (sd * 0.3) g in
      Ok (value + variation, g)
  else
    let '(variation, g) := random_normal 0 (sd * 0.3) g in
    p <- index_neg preds lag ;;
    Ok (p + variation, g).

Definition update_lag (sd : Q) (hist preds : list Q) (i : nat)
  (target_var : string) (st : frame * rng) (lag : nat) : res (frame * rng) :=
  let '(future_data, g) := st in
  '(v, g) <- lag_feature sd hist preds i lag g ;;
  Ok (set_scalar (target_var +++ "_lag_" +++ str lag) (Num v) future_data, g).

(** One element of [values_to_avg] (lines 431-440); [n] is
    [len(working_df)]. *)
Definition value_to_avg (n : nat) (hist preds : list Q) (j : nat) : res Q :=
  if (j <? length preds)%nat then index_neg preds (j + 1)
  else
    let k := (j + 1 - length preds)%nat in
    if (0 <? k)%nat && (k <? n)%nat then index_neg hist k
    else match preds with
         | p :: _ => Ok p
         | [] => index_neg hist 1
         end.

(** One pass of [for window in [3, 6, 12, 24]] (lines 425-454) *)
Definition update_rolling (sd : Q) (n : nat) (hist preds : list Q)
  (target_var : string) (st : frame * rng) (window : nat)
  : res (frame * rng) :=
  let '(future_data, g) := st in
  let w := str window in
  values_to_avg <- mapM (value_to_avg n hist preds) (seq 0 window) ;;
  let '(noise, g) := random_normal 0 (sd * 0.2) g in
  let future_data :=
    set_scalar (target_var +++ "_rolling_mean_" +++ w)
               (Num (mean values_to_avg + noise)) future_data in
  let spread := if (1 <? length values_to_avg)%nat
                then np_sqrt (variance 0 values_to_avg) else sd in
  let future_data :=
    set_scalar (target_var +++ "_rolling_std_" +++ w)
               (Num (Py.max spread 0.00001)) future_data in
  let '(v, g) := random_normal 0 (sd * 0.1) g in
  let future_data :=
    set_scalar (target_var +++ "_rolling_min_" +++ w)
               (Num (minimum values_to_avg - v)) future_data in
  let '(v, g) := random_normal 0 (sd * 0.1) g in
  let future_data :=
    set_scalar (target_var +++ "_rolling_max_" +++ w)
               (Num (maximum values_to_avg + v)) future_data in
  Ok (future_data, g).

(** Lines 456-468: the features of the step, with [future_data] as the
    missing expected features leave it. *)
Definition step_features (expected_features : option (list string))
  (target_var : string) (future_data : frame) : res (frame * frame) :=
  match expected_features with
  | Some (_ :: _ as ef) =>
      let future_data :=
        fold_left (fun d feat => if has_col feat d then d
                                 else set_scalar feat (Num 0) d)
                  ef future_data in
      X <- select ef future_data ;;
      Ok (future_data, X)
  | _ =>
      Ok (future_data,
          drop (filter (fun col => startswith "time_" col
                                   || String.eqb col target_var)
                       (columns future_data))
               future_data)
  end.

(** Lines 501-512: one pattern adjustment *)
Definition adjust (p : option pattern) (key_col : string) (weight : Q)
  (future_data : frame) (pred : Q) : res Q :=
  match p with
  | Some table =>
      if has_col key_col future_data then
        kc <- get_col key_col future_data ;;
        key <- iloc kc 0 ;;
        Ok (pred * (1 + (pattern_get table key 1 - 1) * weight))
      else Ok pred
  | None => Ok pred
  end.

(** What one step computed, kept for the statements about the steps. *)
Record step_trace : Type := {
  raw : Q;               (* [model.predict(X_scaled)[0]] *)
  patterned : Q;         (* after the pattern adjustments *)
  trend_adjustment : Q;
  variation : Q;
  prediction : Q         (* after the clamp *)
}.

Record loop_state : Type := {
  future_data : frame;
  all_predictions : list Q;
  gen : rng;
  trace : list step_trace
}.

(** The body of [for i, future_time in enumerate(future_df[time_col])] *)
Definition step (m : model) (sc : scaler) (working_df : frame)
  (hist : list Q) (a : analysis) (target_var time_col : string)
  (st : loop_state) (it : nat * cell) : res loop_state :=
  let '(i, future_time) := it in
  let preds := all_predictions st in
  let future_data := set_scalar time_col future_time (future_data st) in
  future_data <- create_time_features future_data time_col ;;
  '(future_data, g) <- foldM (update_lag (std_diff a) hist preds i target_var)
                             (seq 1 24) (future_data, gen st) ;;
  '(future_data, g) <- foldM (update_rolling (std_diff a) (nrows working_df)
                                             hist preds target_var)
                             [3; 6; 12; 24]%nat (future_data, g) ;;
  '(future_data, X) <- step_features (feature_names_in_ sc) target_var
                                     future_data ;;
  X <- coerce_non_numeric X ;;
  X_scaled <- transform sc (OfFrame X) ;;
  ps <- predict m X_scaled ;;
  pred0 <- first ps ;;
  pred <- adjust (daily_pattern_norm a) "hour_of_day" 0.4 future_data pred0 ;;
  pred1 <- adjust (weekly_pattern_norm a) "day_of_week" 0.3 future_data pred ;;
  let trend := of_nat i * avg_diff a * 0.3 in
  let pred := pred1 + trend in
  let '(noise, g) := random_normal 0 (std_diff a * 0.7) g in
  let pred := pred + noise in
  let min_val := minimum hist * 0.8 in
  let max_val := maximum hist * 1.2 in
  let pred := Py.max min_val (Py.min max_val pred) in
  Ok {| future_data := set_scalar target_var (Num pred) future_data;
        all_predictions := preds ++ [pred];
        gen := g;
        trace := trace st ++ [{| raw := pred0;
                                 patterned := pred1;
                                 trend_adjustment := trend;
                                 variation := noise;
                                 prediction := pred |}] |}.

(** The frame the forecaster works on: the time column converted, the rows
    sorted by time (lines 324-334). *)
Definition working_frame (historical_df : frame) (time_col : string)
  : res frame :=
  working_df <- (if has_col time_col historical_df
                 then tc <- get_col time_col historical_df ;;
                      times <- to_datetime tc ;;
                      Ok (set_col time_col times historical_df)
                 else Ok historical_df) ;;
  if has_col time_col working_df then sort_values time_col working_df
  else Ok working_df.

(** [predict_future_values] with the model and the scaler loaded, from the
    generator state [g]: the frame of predictions and the final state of the
    loop, or [None] where the script returns [None, None]. *)
Definition forecast (m : model) (sc : scaler) (historical_df : frame)
  (future_periods : nat) (target_var : string) (g : rng)
  : res (option (frame * loop_state)) :=
  let time_col := "time_dt" in
  working_df <- working_frame historical_df time_col ;;
  created <- create_future_timepoints working_df future_periods time_col ;;
  match created with
  | None => Ok None
  | Some future_df =>
      future_df <- create_time_features future_df time_col ;;
      let last_data := last_row working_df in
      hist <- target_values working_df target_var ;;
      a <- analyse working_df hist ;;
      times <- get_col time_col future_df ;;
      st <- foldM (step m sc working_df hist a target_var time_col)
                  (combine (seq 0 (length times)) times)
                  {| future_data := last_data;
                     all_predictions := [];
                     gen := g;
                     trace := [] |} ;;
      predictions_df <- set_list target_var (map Num (all_predictions st))
                                 future_df ;;
      Ok (Some (predictions_df, st))
  end.

(** [predict_future_values(model, scaler, historical_df, future_periods,
    target_var)]; [None] stands for a model or scaler that is [None], and
    the result [None] for the script's [None, None]. *)
Definition predict_future_values (m : option model) (sc : option scaler)
  (historical_df : frame) (future_periods : nat) (target_var : string)
  (g : rng) : res (option (frame * list Q)) :=
  match m, sc with
  | Some m, Some sc =>
      r <- forecast m sc historical_df future_periods target_var g ;;
      Ok (option_map (fun ps => (fst ps, all_predictions (snd ps))) r)
  | _, _ => Ok None
  end.

End WithLib.

End RfPredict.

(** ** [src/ml_engine/v2/prediction/future_predict.py] *)

Module FuturePredict.

Import Pandas Sklearn Features.

Section WithLib.

Context {L : Lib}.

(** [pd.get_dummies(df, columns=['day_part'], prefix='day_part')] on the
    categories [get_day_part] returns: the column is removed and one
    indicator column is appended for each category that occurs in it, in
    sorted order. *)
Definition get_dummies_day_part (df : frame) : res frame :=
  dp <- get_col "day_part" df ;;
  let occurs cat := existsb (fun c => cell_eqb c (Str cat)) dp in
  let dummy cat :=
    ("day_part_" +++ cat,
     map (fun c => Num (if cell_eqb c (Str cat) then 1 else 0)) dp) in
  let levels := filter occurs ["afternoon"; "evening"; "morning"; "night"] in
  Ok (Frame (nrows df) (cols (drop ["day_part"] df) ++ map dummy levels)).

(** [create_time_features(df, time_col)] *)
Definition create_time_features (df : frame) (time_col : string)
  : res frame :=
  if negb (has_col time_col df) then Ok df
  else
    df_new <- time_fields df time_col ;;
    df_new <- get_dummies_day_part df_new ;;
    cyclical_features df_new.

(** The function has the text of the one in [rf_predict.py]. *)
Definition create_future_timepoints :=
  RfPredict.create_future_timepoints.

(** [col.endswith(suffix)] *)
Definition endswith (suffix col : string) : bool :=
  (String.length suffix <=? String.length col)%nat
  && String.eqb suffix
       (String.substring (String.length col - String.length suffix)
                         (String.length suffix) col).

(** [float(value)] *)
Definition float (c : cell) : res cell :=
  match c with
  | Num q => Ok (Num q)
  | NaN => Ok NaN
  | Str s => match parse_number s with
             | Some q => Ok (Num q)
             | None => Raise ValueError
             end
  | Time _ | Seq _ => Raise TypeError
  end.

(** Lines 276-292: the number a value of the current row stands for *)
Definition convert_value (value : cell) : res cell :=
  match value with
  | Seq l => match l with
             | x :: _ => float x
             | [] => Ok (Num 0)
             end
  | Str _ => Ok (Num 0)
  | NaN => Ok (Num 0)
  | _ => float value
  end.

(** Lines 273-300: one entry of [feature_array]; an exception or a missing
    feature leaves 0. *)
Definition feature_entry (current_row : frame) (feature : string) : cell :=
  if has_col feature current_row then
    match (v <- get_col feature current_row ;;
           value <- iloc v 0 ;;
           convert_value value) with
    | Ok x => x
    | Raise _ => Num 0
    end
  else Num 0.

Record loop_state : Type := {
  working_df : frame;
  future_predictions : list Q
}.

(** Lines 257-260: the time features of the new row go into the columns the
    working frame already has. *)
Definition copy_new_row (idx : nat) (time_col : string) (new_row : frame)
  (working_df : frame) : res frame :=
  foldM (fun w col =>
           if has_col col w && negb (String.eqb col time_col) then
             v <- get_col col new_row ;;
             x <- iloc v 0 ;;
             Ok (set_cell idx col x w)
           else Ok w)
        (columns new_row) working_df.

(** The body of [for i, future_time in enumerate(future_df[time_col])] *)
Definition step (m : model) (sc : scaler) (expected_features : list string)
  (target_var time_col : string) (st : loop_state) (future_time : cell)
  : res loop_state :=
  let new_row := Frame 1 [(time_col, [future_time])] in
  new_row <- create_time_features new_row time_col ;;
  let idx := nrows (working_df st) in
  let w := append_row time_col future_time (working_df st) in
  w <- copy_new_row idx time_col new_row w ;;
  w <- create_lag_features w (One target_var) default_lags ;;
  w <- create_rolling_features w (One target_var) default_windows ;;
  let current_row := last_row w in
  let feature_array := [map (feature_entry current_row) expected_features] in
  X_scaled <- transform sc (OfArray feature_array) ;;
  ps <- predict m X_scaled ;;
  pred <- first ps ;;
  Ok {| working_df := set_cell idx target_var (Num pred) w;
        future_predictions := future_predictions st ++ [pred] |}.

(** [predict_future_values(historical_df, future_df, target_var)]; the
    global [xgb_model] and [scaler] are arguments, [None] when not loaded,
    and the result [None] is Python's. *)
Definition predict_future_values (xgb_model : option model)
  (sc : option scaler) (historical_df future_df : frame)
  (target_var : string) : res (option frame) :=
  match xgb_model, sc with
  | Some m, Some sc =>
      let time_col := "time_dt" in
      tc <- get_col time_col historical_df ;;
      times <- to_datetime tc ;;
      let w := set_col time_col times historical_df in
      fc <- get_col time_col future_df ;;
      ftimes <- to_datetime fc ;;
      let future_df := set_col time_col ftimes future_df in
      dup <- duplicated w ;;
      w <- (if existsb (fun b => b) dup then drop_duplicates w else Ok w) ;;
      w <- sort_values time_col w ;;
      w <- create_time_features w time_col ;;
      w <- create_lag_features w (One target_var) default_lags ;;
      w <- create_rolling_features w (One target_var) default_windows ;;
      let expected_features :=
        match feature_names_in_ sc with
        | Some names => names
        | None => filter (fun col => negb (String.eqb col time_col)
                                     && negb (String.eqb col target_var)
                                     && negb (endswith "_predicted" col))
                         (columns w)
        end in
      st <- foldM (step m sc expected_features target_var time_col) ftimes
                  {| working_df := w; future_predictions := [] |} ;;
      result_df <- set_list target_var (map Num (future_predictions st))
                            future_df ;;
      Ok (Some result_df)
  | _, _ => Ok None
  end.

(** Lines 416-435 of [main]: the future time points, then the forecast. *)
Definition forecast_run (xgb_model : option model) (sc : option scaler)
  (historical_df : frame) (future_periods : nat) (target_var : string)
  : res (option frame) :=
  created <- create_future_timepoints historical_df future_periods "time_dt" ;;
  match created with
  | None => Ok None
  | Some future_df =>
      predict_future_values xgb_model sc historical_df future_df target_var
  end.

End WithLib.

End FuturePredict.

(** ** [src/ml_engine/v2/prediction/predict.py] *)

Module Predict.

Import Pandas Sklearn Features.

(** Lines 368-384 of [predict_with_xgb]: the extra columns are removed, the
    missing ones are added with 0, and the expected ones are selected in
    their order. *)
Definition reconcile (expected_features : list string) (X : frame)
  : res frame :=
  let extra_cols :=
    filter (fun col => negb (mem col expected_features)) (columns X) in
  let X_subset := drop extra_cols X in
  let missing_cols :=
    filter (fun col => negb (has_col col X_subset)) expected_features in
  let X_subset :=
    fold_left (fun d col => set_scalar col (Num 0) d) missing_cols X_subset in
  select expected_features X_subset.

(** [predict_with_xgb(df, feature_cols)]: any exception is caught and
    [None] returned. *)
Definition predict_with_xgb (xgb_model : option model) (sc : option scaler)
  (df : frame) (feature_cols : target_cols) : option (list Q) :=
  match xgb_model, sc with
  | Some m, Some sc =>
      let feature_cols := as_list feature_cols in
      match (X <- select feature_cols df ;;
             let expected_features :=
               match feature_names_in_ sc with
               | Some names => names
               | None => feature_cols
               end in
             X_subset <- reconcile expected_features X ;;
             X_scaled <- transform sc (OfFrame X_subset) ;;
             predict m X_scaled) with
      | Ok y_pred => Some y_pred
      | Raise _ => None
      end
  | _, _ => None
  end.

End Predict.

(** ** Stub collaborators and sample frames, for the concrete runs *)

Module Samples.

Import Pandas Sklearn Features.

(** A library whose generator always draws 0, whose square root, sine and
    cosine are stubs, and whose parser knows the string 3.5. *)
Definition stub_lib : Lib := {|
  np_sqrt := fun x => x;
  np_sin := fun _ => 0;
  np_cos := fun _ => 1;
  np_pi := 3;
  parse_number := fun s => if String.eqb s "3.5" then Some 3.5 else None;
  parse_datetime := fun _ => None;
  rng := unit;
  random_normal := fun _ _ g => (0, g)
|}.

(** A scaler that expects [names] and maps every matrix to one row. *)
Definition stub_scaler (names : list string) : scaler := {|
  feature_names_in_ := Some names;
  transform := fun _ => Ok [[0]]
|}.

(** A regressor that predicts the constant [c], once. *)
Definition constant_model (c : Q) : model := {|
  predict := fun _ => Ok [c]
|}.

(** [n] rows, one every [step] seconds from the epoch, with target [f i]
    in column cpu and the hour of the day. *)
Definition series (n : nat) (step : Z) (f : nat -> Q) : frame :=
  Frame n
    [("time_dt",
      map (fun i => Time (inject_Z (Z.of_nat i * step))) (seq 0 n));
     ("cpu", map (fun i => Num (f i)) (seq 0 n));
     ("hour_of_day",
      map (fun i => Num (inject_Z (dt_hour (inject_Z (Z.of_nat i * step)))))
          (seq 0 n))].

Definition ramp (i : nat) : Q := inject_Z (Z.of_nat i).

(** One day of hourly records with a rising target, and one with a
    constant negative target. *)
Definition day : frame := series 24 3600 ramp.
Definition negative_day : frame := series 24 3600 (fun _ => -10).

Definition run_of (r : res (option (frame * list Q))) : frame * list Q :=
  match r with
  | Ok (Some p) => p
  | _ => (Frame 0 [], [])
  end.

(** Two steps of the forecaster of [rf_predict.py] after [day]. *)
Definition day_run : frame * list Q :=
  Eval vm_compute in
    run_of (RfPredict.predict_future_values (L := stub_lib)
              (Some (constant_model 5)) (Some (stub_scaler ["cpu_lag_1"]))
              day 2 "cpu" tt).

Definition day_hist : list Q := Eval vm_compute in map ramp (seq 0 24).

(** Twenty-five hourly records, enough for the forecaster to analyse the
    history, and two steps after them. *)
Definition long_day : frame := series 25 3600 ramp.

Definition long_day_run : frame * RfPredict.loop_state (L := stub_lib) :=
  Eval vm_compute in
    match RfPredict.forecast (L := stub_lib) (constant_model 5)
            (stub_scaler ["cpu_lag_1"]) long_day 2 "cpu" tt with
    | Ok (Some p) => p
    | _ => (Frame 0 [],
            @RfPredict.Build_loop_state stub_lib (Frame 0 []) [] tt [])
    end.

Definition long_day_hist : list Q := Eval vm_compute in map ramp (seq 0 25).



Definition plain_frame : frame := Frame 1 [("cpu", [Num 3])].

Definition plain_frame_scored : frame :=
  Frame 1 [("cpu", [Num 3]); ("cpu_predicted", [Num 5])].

(** A frame that already holds a column of predictions. *)
Definition scored_frame : frame :=
  Frame 1 [("cpu", [Num 3]); ("cpu_predicted", [Num 7])].




End Samples.

(** ** Vocabulary of the statements *)

(** [df'] is [df] with the column [pc] set to the predictions: the rows and
    every other column are those of [df], and [pc] is one new last column
    when [df] had no column of that name. *)
Definition frame_effect (df df' : Pandas.frame) (pc : string)
  (preds : list Q) : Prop :=
  Pandas.nrows df' = Pandas.nrows df
  /\ length preds = Pandas.nrows df
  /\ (forall c, c <> pc ->
        Pandas.lookup c (Pandas.cols df') = Pandas.lookup c (Pandas.cols df))
  /\ Pandas.lookup pc (Pandas.cols df') = Some (map Pandas.Num preds)
  /\ (Pandas.has_col pc df = false ->
      Pandas.cols df'
      = Pandas.cols df ++ [(pc, map Pandas.Num preds)]).

(** The coercion of a non-numeric value in the words of the specification:
    a datetime gives its seconds since the epoch, a numeric-like string the
    number it denotes, anything else 0. *)
Definition spec_coerce `{L : Lib} (c : Pandas.cell) : Pandas.cell :=
  match c with
  | Pandas.Num q => Pandas.Num q
  | Pandas.Time t => Pandas.Num t
  | Pandas.Str s => match parse_number s with
                    | Some q => Pandas.Num q
                    | None => Pandas.Num 0
                    end
  | _ => Pandas.Num 0
  end.

(** The reconciled feature matrix in the words of the specification: the
    expected names in their order, each with the column the frame has under
    that name, or a column of zeros when it has none. *)
Definition spec_reconcile (expected : list string) (X : Pandas.frame)
  : Pandas.frame :=
  Pandas.Frame (Pandas.nrows X)
    (map (fun f => (f, match Pandas.lookup f (Pandas.cols X) with
                       | Some v => v
                       | None => repeat (Pandas.Num 0) (Pandas.nrows X)
                       end))
         expected).

(** A cell that holds a number. *)
Definition is_number (c : Pandas.cell) : Prop :=
  match c with Pandas.Num _ => True | _ => False end.

(** The differences of consecutive values, in the words of the
    specification. *)
Fixpoint consecutive_diffs (l : list Q) : list Q :=
  match l with
  | a :: (b :: _) as r => (b - a) :: consecutive_diffs r
  | _ => []
  end.

(** What step [i] of the forecaster does after the pattern adjustments:
    the trend term is [i] times the average difference [avg] times 0.3, and
    the prediction is the adjusted value plus the trend term plus the noise,
    clamped between 0.8 times the minimum and 1.2 times the maximum of the
    history. *)
Definition step_law (hist : list Q) (avg : Q) (i : nat)
  (t : RfPredict.step_trace) : Prop :=
  RfPredict.trend_adjustment t = Pandas.of_nat i * avg * 0.3
  /\ RfPredict.prediction t
     = Py.max (Pandas.minimum hist * 0.8)
         (Py.min (Pandas.maximum hist * 1.2)
            (RfPredict.patterned t + RfPredict.trend_adjustment t
             + RfPredict.variation t)).


(** The column under a name that is known to be there. *)
Definition force (o : option Pandas.column) : Pandas.column :=
  match o with Some v => v | None => [] end.

(** The day part of an hour cell; every comparison with a missing hour is
    false, which leaves the night. *)
Definition day_part_of (hour : Pandas.cell) : string :=
  match hour with
  | Pandas.Num h => Features.get_day_part h
  | _ => "night"
  end.

(** The indicator column of a day part over a column of hours. *)
Definition indicators (part : string) (hours : Pandas.column)
  : Pandas.column :=
  map (fun h => Pandas.Num (if String.eqb (day_part_of h) part then 1 else 0))
      hours.

(** Every column of the frame holds one cell per row. *)
Definition well_formed (df : Pandas.frame) : Prop :=
  Forall (fun kv => length (snd kv) = Pandas.nrows df) (Pandas.cols df).

(** ** More of [src/ml_engine/prediction/rf_predict.py]: [load_model] *)

Module RfLoad.

Import Sklearn.

(** [s.lower()] on ASCII letters; other characters stay. *)
Definition lower_ascii (c : ascii) : ascii :=
  let n := nat_of_ascii c in
  if (65 <=? n)%nat && (n <=? 90)%nat then ascii_of_nat (n + 32) else c.

Fixpoint lower (s : string) : string :=
  match s with
  | EmptyString => EmptyString
  | String c r => String (lower_ascii c) (lower r)
  end.

(** [sub in s] *)
Fixpoint contains (sub s : string) : bool :=
  String.prefix sub s
  || match s with
     | EmptyString => false
     | String _ r => contains sub r
     end.

(** [os.path.join(model_dir, name)] for a relative file name *)
Definition path_join (model_dir name : string) : string :=
  if String.eqb model_dir "" || FuturePredict.endswith "/" model_dir
  then model_dir +++ name
  else model_dir +++ "/" +++ name.

Section Loader.

(** [joblib.load] on the path of a model and on the path of a scaler *)
Variable load_model_file : string -> res model.
Variable load_scaler_file : string -> res scaler.

(** [load_model(target_var, model_dir)]; any exception of a load leaves
    [None, None]. *)
Definition load_model (target_var model_dir : string)
  : option model * option scaler :=
  let paths :=
    if contains "memory" (lower target_var) then
      Some (path_join model_dir "rf_memory_model.pkl",
            path_join model_dir "rf_memory_scaler.pkl")
    else if contains "cpu" (lower target_var) then
      Some (path_join model_dir "rf_cpu_model.pkl",
            path_join model_dir "rf_cpu_scaler.pkl")
    else None in
  match paths with
  | None => (None, None)
  | Some (model_path, scaler_path) =>
      match (m <- load_model_file model_path ;;
             sc <- load_scaler_file scaler_path ;;
             Ok (m, sc)) with
      | Ok (m, sc) => (Some m, Some sc)
      | Raise _ => (None, None)
      end
  end.

End Loader.

End RfLoad.

(** ** More of [src/ml_engine/v2/prediction/predict.py] *)

Module PredictFeatures.

Import Pandas Sklearn Features.

(** The values of a float Series while the script works on it: a quotient
    by zero or beyond the range of a double is infinite until [replace]
    removes it. *)
Inductive float64 : Type :=
| Finite (q : Q)
| PosInf
| NegInf
| Missing.

(** The least magnitude that rounds to an infinity: halfway between the
    largest double, [2^1024 - 2^971], and [2^1024]. *)
Definition overflow_bound : Q := inject_Z (2 ^ 1024 - 2 ^ 970).

Definition overflows (q : Q) : bool :=
  Qle_bool overflow_bound q || Qle_bool q (- overflow_bound).

(** [a / b] on floats: a quotient by zero is infinite, or missing for
    [0 / 0], and so is a quotient too large for a double; the rounding of
    the other quotients is outside the embedding. *)
Definition divide (a b : option Q) : float64 :=
  match a, b with
  | Some x, Some y =>
      if Qeq_bool y 0 then
        if Qeq_bool x 0 then Missing
        else if Qle_bool 0 x then PosInf else NegInf
      else if overflows (x / y) then
        if Qle_bool 0 (x / y) then PosInf else NegInf
      else Finite (x / y)
  | _, _ => Missing
  end.

(** [df[a] / df[b]], row by row *)
Definition series_div (a b : column) : res (list float64) :=
  xs <- numeric a ;;
  ys <- numeric b ;;
  Ok (map (fun p => divide (fst p) (snd p)) (combine xs ys)).

(** [.replace([np.inf, -np.inf], np.nan)] *)
Definition replace_inf (x : float64) : cell :=
  match x with
  | Finite q => Num q
  | PosInf | NegInf | Missing => NaN
  end.

(** [.clip(upper=u)] *)
Definition clip_upper (u : Q) (c : cell) : cell :=
  match c with
  | Num x => Num (if Qle_bool x u then x else u)
  | _ => c
  end.

(** One of the two blocks of lines 193-209, which differ in their names
    only: the ratio of usage to request, without infinities, capped at 1.
    The column that holds the infinities for one statement is not a frame
    of the embedding; the next statement replaces it. *)
Definition utilization_ratio (usage request ratio : string) (df : frame)
  : res frame :=
  if has_col request df && has_col usage df then
    u <- get_col usage df ;;
    r <- get_col request df ;;
    q <- series_div u r ;;
    let df := set_col ratio (map replace_inf q) df in
    c <- get_col ratio df ;;
    Ok (set_col ratio (map (clip_upper 1) c) df)
  else Ok df.

(** [create_utilization_features(df)] *)
Definition create_utilization_features (df : frame) : res frame :=
  df <- utilization_ratio "average_usage_cpu" "resource_request_cpu"
                          "cpu_utilization_ratio" df ;;
  df <- utilization_ratio "average_usage_memory" "resource_request_memory"
                          "memory_utilization_ratio" df ;;
  if has_col "cpu_utilization_ratio" df
     && has_col "memory_utilization_ratio" df
  then
    a <- get_col "cpu_utilization_ratio" df ;;
    b <- get_col "memory_utilization_ratio" df ;;
    q <- series_div a b ;;
    Ok (set_col "resource_balance_ratio" (map replace_inf q) df)
  else Ok df.

(** The names [for target in target_cols] goes through: the elements of a
    list, the characters of a string. *)
Definition iterate (t : target_cols) : list string :=
  match t with
  | One s => map (fun c => String c EmptyString) (list_ascii_of_string s)
  | Many l => l
  end.

(** [create_lag_features(df, target_cols, lag_periods)] of [predict.py],
    which does not wrap a single name in a list. *)
Definition create_lag_features (df : frame) (targets : target_cols)
  (lag_periods : list nat) : res frame :=
  foldM (fun df target =>
    foldM (fun df lag =>
      v <- get_col target df ;;
      Ok (set_col (target +++ "_lag_" +++ str lag) (shift lag v) df))
      lag_periods df)
    (iterate targets) df.

End PredictFeatures.

(** ** More stub collaborators and sample frames *)

Module Cases.

Import Pandas Sklearn Features.

(** A scaler without [feature_names_in_]. *)
Definition unnamed_scaler : scaler := {|
  feature_names_in_ := None;
  transform := fun _ => Ok [[0]]
|}.

(** One record with a timestamp, a target and one more measurement. *)
Definition record : frame :=
  Frame 1 [("time_dt", [Time 0]); ("cpu", [Num 3]); ("load", [Num 1])].

(** The two hours after [Samples.day], and the forecast of
    [future_predict.py] for them. *)
Definition next_hours : frame :=
  Frame 2 [("time_dt", [Time 86400; Time 90000])].

Definition v2_day_run : frame :=
  Eval vm_compute in
    match FuturePredict.predict_future_values (L := Samples.stub_lib)
            (Some (Samples.constant_model 5))
            (Some (Samples.stub_scaler ["cpu_lag_1"]))
            Samples.day next_hours "cpu" with
    | Ok (Some out) => out
    | _ => Frame 0 []
    end.

(** The loop of [future_predict.py] started on [record], after one step and
    after two. *)
Definition start : FuturePredict.loop_state := {|
  FuturePredict.working_df := record;
  FuturePredict.future_predictions := []
|}.

Definition after_one : FuturePredict.loop_state :=
  Eval vm_compute in
    match FuturePredict.step (L := Samples.stub_lib)
            (Samples.constant_model 5) (Samples.stub_scaler ["cpu_lag_1"])
            ["cpu_lag_1"] "cpu" "time_dt" start (Time 3600) with
    | Ok st => st
    | Raise _ => start
    end.

Definition after_two : FuturePredict.loop_state :=
  Eval vm_compute in
    match FuturePredict.step (L := Samples.stub_lib)
            (Samples.constant_model 5) (Samples.stub_scaler ["cpu_lag_1"])
            ["cpu_lag_1"] "cpu" "time_dt" after_one (Time 7200) with
    | Ok st => st
    | Raise _ => start
    end.

(** One record at nine o'clock, and the calendar features
    [future_predict.py] gives it. *)
Definition nine : frame := Frame 1 [("time_dt", [Time (inject_Z (9 * 3600))])].

Definition nine_features : frame :=
  Eval vm_compute in
    match FuturePredict.create_time_features (L := Samples.stub_lib)
            nine "time_dt" with
    | Ok out => out
    | Raise _ => nine
    end.

(** The calendar features [rf_predict.py] gives [record]. *)
Definition record_features : frame :=
  Eval vm_compute in
    match RfPredict.create_time_features (L := Samples.stub_lib)
            record "time_dt" with
    | Ok out => out
    | Raise _ => record
    end.

(** Three hourly timestamps, latest first, and a frame that holds them. *)
Definition latest_first : list Q := [7200; 3600; 0].

Definition latest_first_frame : frame :=
  Frame 3 [("time_dt", map Time latest_first)].

(** Five records of CPU usage and request, the last with a request so
    small that the quotient leaves the range of a double, and the
    utilization features [predict.py] gives them. *)
Definition usage : column := [Num 1; Num 3; Num 2; NaN; Num 1].

Definition request : column :=
  [Num 2; Num 2; Num 0; Num 1; Num (/ (10 ^ 310))].

Definition usage_frame : frame :=
  Frame 5 [("average_usage_cpu", usage); ("resource_request_cpu", request)].

Definition usage_features : frame :=
  Eval vm_compute in
    match PredictFeatures.create_utilization_features usage_frame with
    | Ok out => out
    | Raise _ => usage_frame
    end.

(** A model store that holds the memory model and any scaler. *)
Definition memory_store (path : string) : res model :=
  if String.eqb path "../models/rf_memory_model.pkl"
  then Ok (Samples.constant_model 5)
  else Raise ValueError.

Definition scaler_store (path : string) : res scaler :=
  Ok (Samples.stub_scaler ["cpu_lag_1"]).

(** Three historical values and two predictions made after them. *)
Definition history : list Q := [10; 20; 30].
Definition made : list Q := [40; 50].

End Cases.

(** ** More vocabulary *)

(** The columns [create_time_features] of [rf_predict.py] derives from the
    time column, in the order it sets them. *)
Definition calendar_names : list string :=
  ["hour_of_day"; "day_of_week"; "day_of_month"; "month"; "is_weekend";
   "day_part_morning"; "day_part_afternoon"; "day_part_evening";
   "day_part_night"; "hour_sin"; "hour_cos"; "day_sin"; "day_cos"].

(** The column names after [df[c] = v]: the name is appended when it is
    new. *)
Definition assign_name (names : list string) (c : string) : list string :=
  if Pandas.mem c names then names else names ++ [c].

(** The column names [create_time_features] of [rf_predict.py] leaves on a
    frame with the column names [names]: the assignments in their order,
    with the drop of [day_part] before the cyclical features. *)
Definition calendar_columns (names : list string) : list string :=
  fold_left assign_name ["hour_sin"; "hour_cos"; "day_sin"; "day_cos"]
    (filter (fun x => negb (Pandas.mem x ["day_part"]))
       (fold_left assign_name
          ["time_dt"; "hour_of_day"; "day_of_week"; "day_of_month"; "month";
           "is_weekend"; "day_part"; "day_part_morning";
           "day_part_afternoon"; "day_part_evening"; "day_part_night"]
          names)).

(** * Properties *)

Import Pandas Sklearn Features.

(** ** Inversion of the exception monad *)

Lemma bind_Ok {A B : Type} (c : res A) (k : A -> res B) (b : B) :
  bind c k = Ok b -> exists a, c = Ok a /\ k a = Ok b.
Proof.
  destruct c as [a|e]; simpl; intros H; [eauto | discriminate].
Qed.

Ltac inv_bind H :=
  let a := fresh "x" in
  let Ha := fresh "E" in
  apply bind_Ok in H; destruct H as (a & Ha & H).

Ltac inv_ok H := injection H as H; subst.

Lemma mapM_length {A B : Type} (f : A -> res B) (l : list A) (r : list B) :
  mapM f l = Ok r -> length r = length l.
Proof.
  revert r; induction l as [|a l IH]; simpl; intros r H.
  - inv_ok H. reflexivity.
  - inv_bind H. inv_bind H. inv_ok H. simpl. f_equal. eauto.
Qed.

Lemma mapM_total {A B : Type} (f : A -> res B) (g : A -> B) (l : list A) :
  (forall a, In a l -> f a = Ok (g a)) -> mapM f l = Ok (map g l).
Proof.
  induction l as [|a l IH]; simpl; intros H; [reflexivity|].
  rewrite (H a) by auto. simpl. rewrite IH by auto. reflexivity.
Qed.

(** ** Columns of a frame *)

Lemma lookup_assign_same (c : string) (v : column) l :
  lookup c (assign c v l) = Some v.
Proof.
  induction l as [|[k w] l IH]; simpl.
  - now rewrite String.eqb_refl.
  - destruct (String.eqb k c) eqn:E; simpl; rewrite E; auto.
Qed.

Lemma lookup_assign_other (c d : string) (v : column) l :
  c <> d -> lookup c (assign d v l) = lookup c l.
Proof.
  intros Hcd. induction l as [|[k w] l IH]; simpl.
  - destruct (String.eqb d c) eqn:E; [|reflexivity].
    apply String.eqb_eq in E. congruence.
  - destruct (String.eqb k d) eqn:E; simpl.
    + apply String.eqb_eq in E. subst k.
      destruct (String.eqb d c) eqn:E'; [|reflexivity].
      apply String.eqb_eq in E'. congruence.
    + destruct (String.eqb k c); auto.
Qed.

Lemma mem_In (c : string) (l : list string) : mem c l = true <-> In c l.
Proof.
  unfold mem. rewrite existsb_exists. split.
  - intros (x & Hx & E). apply String.eqb_eq in E. now subst.
  - intros H. exists c. split; [assumption | apply String.eqb_refl].
Qed.

Lemma lookup_None (c : string) l :
  mem c (map fst l) = false -> lookup c l = None.
Proof.
  induction l as [|[k w] l IH]; simpl; [reflexivity|].
  rewrite (String.eqb_sym c k).
  destruct (String.eqb k c); simpl; [discriminate | exact IH].
Qed.

Lemma assign_fresh (c : string) (v : column) l :
  mem c (map fst l) = false -> assign c v l = l ++ [(c, v)].
Proof.
  induction l as [|[k w] l IH]; simpl; [reflexivity|].
  rewrite (String.eqb_sym c k).
  destruct (String.eqb k c); simpl; [discriminate|].
  intros H. now rewrite IH.
Qed.

Lemma get_col_set_col_same c v df : get_col c (set_col c v df) = Ok v.
Proof. unfold get_col, set_col; simpl. now rewrite lookup_assign_same. Qed.

Lemma has_col_false_get_col c df :
  has_col c df = false -> get_col c df = Raise (KeyError c).
Proof.
  unfold has_col, get_col, columns. intros H. now rewrite lookup_None.
Qed.

(** ** One-shot prediction leaves the input frame intact (C10) *)

(** C10, as amended: when [make_predictions] succeeds, the returned frame has
    the rows of the input, every column of the input other than
    '<target>_predicted' is unchanged, the column '<target>_predicted' holds
    the predictions, one per row, and it is one new last column provided the
    input had no column of that name. *)
Theorem make_predictions_frame_effect `{L : Lib} (m : model) (sc : scaler)
  (df : frame) (target_var : string) (target_vars : option (list string))
  (df' : frame) (preds : list Q) :
  RfPredict.make_predictions m sc df target_var target_vars = Ok (df', preds) ->
  frame_effect df df' (target_var +++ "_predicted") preds.
Proof.
  unfold RfPredict.make_predictions, frame_effect. intros H.
  repeat inv_bind H. injection H as <- <-. unfold set_list in E5.
  destruct (Nat.eqb_spec (length (map Num x4)) (nrows df)) as [Hlen|];
    [|discriminate].
  injection E5 as <-. rewrite length_map in Hlen. simpl.
  repeat split; auto.
  - intros c Hc. now apply lookup_assign_other.
  - apply lookup_assign_same.
  - apply assign_fresh.
Qed.

Lemma make_predictions_frame_effect_witness :
  RfPredict.make_predictions (L := Samples.stub_lib)
    (Samples.constant_model 5) (Samples.stub_scaler ["cpu_lag_1"])
    Samples.plain_frame "cpu" None
  = Ok (Samples.plain_frame_scored, [5])
  /\ frame_effect Samples.plain_frame Samples.plain_frame_scored
                  "cpu_predicted" [5].
Proof.
  split; [vm_compute; reflexivity|].
  apply (make_predictions_frame_effect (L := Samples.stub_lib)
           (Samples.constant_model 5) (Samples.stub_scaler ["cpu_lag_1"])
           Samples.plain_frame "cpu" None Samples.plain_frame_scored [5]).
  vm_compute; reflexivity.
Defined.

(** C10 as stated fails on a frame that already has the column: the call
    succeeds, adds no column, and replaces the values the column held. *)
Lemma make_predictions_overwrites_column :
  exists df',
    RfPredict.make_predictions (L := Samples.stub_lib)
      (Samples.constant_model 5) (Samples.stub_scaler ["cpu_lag_1"])
      Samples.scored_frame "cpu" None = Ok (df', [5])
    /\ columns df' = columns Samples.scored_frame
    /\ get_col "cpu_predicted" Samples.scored_frame = Ok [Num 7]
    /\ get_col "cpu_predicted" df' = Ok [Num 5].
Proof.
  eexists. split; [vm_compute; reflexivity|].
  repeat split.
Qed.

(** ** The engineers on a frame without their source column (C4) *)

(** C4, as amended: on a frame without the named column the calendar
    engineer (of either script) returns the frame as it is, while the lag
    and the rolling engineer raise KeyError for the missing target. *)
Theorem engineers_on_absent_column `{L : Lib} (df : frame) (c : string) :
  has_col c df = false ->
  RfPredict.create_time_features df c = Ok df
  /\ FuturePredict.create_time_features df c = Ok df
  /\ create_lag_features df (One c) default_lags = Raise (KeyError c)
  /\ create_rolling_features df (One c) default_windows = Raise (KeyError c).
Proof.
  intros H. pose proof (has_col_false_get_col c df H) as G.
  unfold RfPredict.create_time_features, FuturePredict.create_time_features.
  rewrite H. repeat split.
  - unfold create_lag_features, default_lags, as_list, foldM.
    now rewrite G.
  - unfold create_rolling_features, default_windows, as_list, foldM.
    now rewrite G.
Qed.

Lemma engineers_on_absent_column_witness :
  has_col "cpu" (Frame 1 [("load", [Num 1])]) = false
  /\ RfPredict.create_time_features (L := Samples.stub_lib)
       (Frame 1 [("load", [Num 1])]) "cpu" = Ok (Frame 1 [("load", [Num 1])])
  /\ FuturePredict.create_time_features (L := Samples.stub_lib)
       (Frame 1 [("load", [Num 1])]) "cpu" = Ok (Frame 1 [("load", [Num 1])])
  /\ create_lag_features (Frame 1 [("load", [Num 1])]) (One "cpu")
       default_lags = Raise (KeyError "cpu")
  /\ create_rolling_features (L := Samples.stub_lib)
       (Frame 1 [("load", [Num 1])]) (One "cpu") default_windows
     = Raise (KeyError "cpu").
Proof.
  split; [reflexivity|].
  apply (engineers_on_absent_column (L := Samples.stub_lib)
           (Frame 1 [("load", [Num 1])]) "cpu").
  reflexivity.
Defined.

(** C4 as stated fails for the lag and the rolling engineer: without the
    target column neither returns the input frame. *)
Lemma lag_and_rolling_do_not_pass_through :
  has_col "cpu" (Frame 1 [("load", [Num 1])]) = false
  /\ create_lag_features (Frame 1 [("load", [Num 1])]) (One "cpu")
       default_lags <> Ok (Frame 1 [("load", [Num 1])])
  /\ create_rolling_features (L := Samples.stub_lib)
       (Frame 1 [("load", [Num 1])]) (One "cpu") default_windows
     <> Ok (Frame 1 [("load", [Num 1])]).
Proof.
  repeat split; discriminate.
Qed.

(** ** Rolling statistics with a minimum of one period (C6) *)

Lemma numeric_Num (xs : list Q) : numeric (map Num xs) = Ok (map Some xs).
Proof.
  unfold numeric. rewrite (mapM_total as_num (fun c => match c with
                                                       | Num q => Some q
                                                       | _ => None
                                                       end)).
  - now rewrite map_map.
  - intros a Ha. apply in_map_iff in Ha as (q & <- & _). reflexivity.
Qed.

Lemma dropna_Some (l : list Q) : dropna (map Some l) = l.
Proof. induction l; simpl; congruence. Qed.

Lemma window_at_map {A B : Type} (f : A -> B) (w i : nat) (l : list A) :
  window_at w i (map f l) = map f (window_at w i l).
Proof. unfold window_at. now rewrite firstn_map, skipn_map. Qed.

Lemma window_at_length {A : Type} (w i : nat) (l : list A) :
  (i < length l)%nat -> length (window_at w i l) = Nat.min w (i + 1).
Proof.
  intros H. unfold window_at. rewrite length_skipn, length_firstn. lia.
Qed.

Lemma rolling_Num (w : nat) (stat : list Q -> cell) (xs : list Q) :
  (1 <= w)%nat ->
  rolling w 1 stat (map Num xs)
  = Ok (map (fun i => stat (window_at w i xs)) (seq 0 (length xs))).
Proof.
  intros Hw. unfold rolling. rewrite numeric_Num. simpl.
  rewrite length_map. f_equal. apply map_ext_in. intros i Hi.
  apply in_seq in Hi. rewrite window_at_map, dropna_Some.
  pose proof (window_at_length w i xs) as Hlen.
  destruct (window_at w i xs) as [|x r]; [simpl in Hlen; lia | reflexivity].
Qed.

Lemma append_cancel (s a b : string) : s +++ a = s +++ b -> a = b.
Proof.
  induction s as [|c s IH]; simpl; [auto|]. intros H. apply IH. congruence.
Qed.

Lemma append_neutral (s a : string) : s = s +++ a -> a = "".
Proof.
  induction s as [|c s IH]; simpl; [auto|]. intros H. apply IH. congruence.
Qed.

(** Two column names built on the same target differ when their suffixes
    do. *)
Ltac name_neq :=
  let E := fresh "E" in
  intros E;
  first [ apply append_cancel in E
        | apply append_neutral in E
        | symmetry in E; apply append_neutral in E ];
  cbn [String.append] in E; discriminate E.

(** The rolling engineer on one window: the four columns it sets hold the
    rolling statistics of the target column. *)
Lemma create_rolling_features_columns `{L : Lib} (df : frame)
  (target : string) (xs : list Q) (w : nat) :
  lookup target (cols df) = Some (map Num xs) -> (1 <= w)%nat ->
  exists df',
    create_rolling_features df (One target) [w] = Ok df'
    /\ rolling w 1 stat_mean (map Num xs)
       = Ok (force (lookup (target +++ "_rolling_mean_" +++ str w)
                      (cols df')))
    /\ rolling w 1 stat_std (map Num xs)
       = Ok (force (lookup (target +++ "_rolling_std_" +++ str w)
                      (cols df')))
    /\ rolling w 1 stat_min (map Num xs)
       = Ok (force (lookup (target +++ "_rolling_min_" +++ str w)
                      (cols df')))
    /\ rolling w 1 stat_max (map Num xs)
       = Ok (force (lookup (target +++ "_rolling_max_" +++ str w)
                      (cols df'))).
Proof.
  intros Hcol Hw.
  set (n_mean := target +++ "_rolling_mean_" +++ str w).
  set (n_std := target +++ "_rolling_std_" +++ str w).
  set (n_min := target +++ "_rolling_min_" +++ str w).
  set (n_max := target +++ "_rolling_max_" +++ str w).
  assert (T1 : target <> n_mean) by name_neq.
  assert (T2 : target <> n_std) by name_neq.
  assert (T3 : target <> n_min) by name_neq.
  assert (N1 : n_mean <> n_std) by name_neq.
  assert (N2 : n_mean <> n_min) by name_neq.
  assert (N3 : n_mean <> n_max) by name_neq.
  assert (N4 : n_std <> n_min) by name_neq.
  assert (N5 : n_std <> n_max) by name_neq.
  assert (N6 : n_min <> n_max) by name_neq.
  unfold create_rolling_features, as_list, foldM, get_col.
  fold n_mean n_std n_min n_max.
  unfold set_col. cbn [cols].
  repeat (first [ rewrite Hcol
                | rewrite rolling_Num by assumption
                | rewrite lookup_assign_other by assumption ];
          cbn [bind cols]).
  eexists. split; [reflexivity|]. cbn [cols].
  repeat split;
    repeat first [ rewrite lookup_assign_same
                 | rewrite lookup_assign_other by assumption ];
    reflexivity.
Qed.

(** C6, as amended: over a sequence of numbers and a window [w >= 1], row
    [i] of every rolling statistic is computed from the [min(w, i+1)] values
    that end at row [i]; the mean, the minimum and the maximum have a value
    at every row, and the standard deviation has one exactly where that
    window holds two values or more, so it is missing at row 0.  The
    rolling engineer stores these statistics of the target column in its
    four columns.  For window 3 over 10, 20, 30, 40 the means are 10, 15,
    20, 30. *)
Theorem rolling_min_periods `{L : Lib} (xs : list Q) (w : nat) :
  (1 <= w)%nat ->
  (forall i, (i < length xs)%nat ->
             length (window_at w i xs) = Nat.min w (i + 1))
  /\ rolling w 1 stat_mean (map Num xs)
     = Ok (map (fun i => Num (mean (window_at w i xs))) (seq 0 (length xs)))
  /\ rolling w 1 stat_min (map Num xs)
     = Ok (map (fun i => Num (minimum (window_at w i xs)))
               (seq 0 (length xs)))
  /\ rolling w 1 stat_max (map Num xs)
     = Ok (map (fun i => Num (maximum (window_at w i xs)))
               (seq 0 (length xs)))
  /\ rolling w 1 stat_std (map Num xs)
     = Ok (map (fun i => if (Nat.min w (i + 1) <? 2)%nat then NaN
                         else Num (np_sqrt (variance 1 (window_at w i xs))))
               (seq 0 (length xs)))
  /\ (forall df target,
        lookup target (cols df) = Some (map Num xs) ->
        exists df',
          create_rolling_features df (One target) [w] = Ok df'
          /\ rolling w 1 stat_mean (map Num xs)
             = Ok (force (lookup (target +++ "_rolling_mean_" +++ str w)
                            (cols df')))
          /\ rolling w 1 stat_std (map Num xs)
             = Ok (force (lookup (target +++ "_rolling_std_" +++ str w)
                            (cols df')))
          /\ rolling w 1 stat_min (map Num xs)
             = Ok (force (lookup (target +++ "_rolling_min_" +++ str w)
                            (cols df')))
          /\ rolling w 1 stat_max (map Num xs)
             = Ok (force (lookup (target +++ "_rolling_max_" +++ str w)
                            (cols df'))))
  /\ exists a b c d,
       rolling 3 1 stat_mean (map Num [10; 20; 30; 40])
       = Ok [Num a; Num b; Num c; Num d]
       /\ a == 10 /\ b == 15 /\ c == 20 /\ d == 30.
Proof.
  intros Hw.
  assert (Hne : forall i, In i (seq 0 (length xs)) ->
                          window_at w i xs <> []).
  { intros i Hi E. apply in_seq in Hi.
    pose proof (window_at_length w i xs) as Hlen. rewrite E in Hlen.
    simpl in Hlen. lia. }
  split; [intros i Hi; now apply window_at_length|].
  assert (Hcols := fun df target =>
                     create_rolling_features_columns df target xs w).
  rewrite !rolling_Num by assumption.
  split; [|split; [|split; [|split; [|split]]]].
  - f_equal. apply map_ext_in. intros i Hi. specialize (Hne i Hi).
    unfold stat_mean. destruct (window_at w i xs); congruence.
  - f_equal. apply map_ext_in. intros i Hi. specialize (Hne i Hi).
    unfold stat_min. destruct (window_at w i xs); congruence.
  - f_equal. apply map_ext_in. intros i Hi. specialize (Hne i Hi).
    unfold stat_max. destruct (window_at w i xs); congruence.
  - f_equal. apply map_ext_in. intros i Hi. apply in_seq in Hi.
    unfold stat_std. rewrite window_at_length by lia. reflexivity.
  - intros df target Hcol. destruct (Hcols df target Hcol Hw) as (df' & H).
    rewrite !rolling_Num in H by assumption. eauto.
  - do 4 eexists. split; [vm_compute; reflexivity|].
    repeat split; reflexivity.
Qed.

Lemma rolling_min_periods_witness :
  (1 <= 3)%nat
  /\ rolling 3 1 (stat_std (L := Samples.stub_lib)) (map Num [10; 20; 30; 40])
     = Ok (map (fun i => if (Nat.min 3 (i + 1) <? 2)%nat then NaN
                         else Num (@np_sqrt Samples.stub_lib
                                     (variance 1
                                        (window_at 3 i [10; 20; 30; 40]))))
               (seq 0 (length [10; 20; 30; 40]))).
Proof.
  split; [lia|].
  apply (rolling_min_periods (L := Samples.stub_lib) [10; 20; 30; 40] 3).
  lia.
Defined.

(** C6 as stated fails for the standard deviation: over 10, 20, 30, 40 with
    window 3 its first row is missing. *)
Lemma rolling_std_missing_at_first_row :
  exists rest,
    rolling 3 1 (stat_std (L := Samples.stub_lib)) (map Num [10; 20; 30; 40])
    = Ok (NaN :: rest).
Proof.
  eexists. vm_compute. reflexivity.
Qed.

(** ** Coercion of the non-numeric values (C8) *)

Lemma lookup_Some_mem (c : string) (v : column) l :
  lookup c l = Some v -> mem c (map fst l) = true.
Proof.
  induction l as [|[k w] l IH]; simpl; [discriminate|].
  rewrite (String.eqb_sym c k).
  destruct (String.eqb k c); simpl; auto.
Qed.

Lemma coerce_datetime_column `{L : Lib} (v : column) :
  dtype_of v = Ok Datetime -> coerce_column v = Ok (map spec_coerce v).
Proof.
  unfold coerce_column. intros H. rewrite H. simpl. f_equal.
  unfold dtype_of in H.
  destruct (forallb is_float v); [discriminate|].
  destruct (forallb is_time v) eqn:T;
    [|destruct (forallb is_float_or_str v); discriminate].
  rewrite forallb_forall in T. apply map_ext_in. intros c Hc.
  specialize (T c Hc). destruct c; try discriminate. reflexivity.
Qed.

Lemma coerce_object_column `{L : Lib} (v : column) :
  dtype_of v = Ok Object -> coerce_column v = Ok (map spec_coerce v).
Proof.
  unfold coerce_column. intros H. rewrite H. simpl. f_equal.
  unfold dtype_of in H.
  destruct (forallb is_float v); [discriminate|].
  destruct (forallb is_time v); [discriminate|].
  destruct (forallb is_float_or_str v) eqn:T; [|discriminate].
  rewrite forallb_forall in T. rewrite map_map. apply map_ext_in.
  intros c Hc. specialize (T c Hc). destruct c; try discriminate;
    simpl; try reflexivity.
  now destruct (parse_number s).
Qed.

(** C8, as amended: in [rf_predict.py] every value of a datetime column or
    of an object column of the feature matrix is coerced as the
    specification says (a datetime to its seconds since the epoch, a
    numeric-like string to its number, anything else to 0); in
    [future_predict.py] a number stays, a sequence gives the number its first
    element converts to, and every other value, so every string and every
    datetime, gives 0. *)
Theorem coercion_of_non_numeric_values `{L : Lib} (v : column) (row : frame)
  (feature : string) (value : cell) (rest : column) :
  dtype_of v = Ok Datetime \/ dtype_of v = Ok Object ->
  lookup feature (cols row) = Some (value :: rest) ->
  coerce_column v = Ok (map spec_coerce v)
  /\ FuturePredict.feature_entry row feature
     = match value with
       | Num q => Num q
       | Seq (x :: _) => match FuturePredict.float x with
                         | Ok y => y
                         | Raise _ => Num 0
                         end
       | _ => Num 0
       end.
Proof.
  intros Hv Hrow. split.
  - destruct Hv; [now apply coerce_datetime_column
                 | now apply coerce_object_column].
  - unfold FuturePredict.feature_entry, has_col, columns, get_col.
    rewrite (lookup_Some_mem _ _ _ Hrow), Hrow. simpl.
    destruct value as [q| |s|t|[|x l]]; reflexivity.
Qed.

Lemma coercion_of_non_numeric_values_witness :
  (dtype_of [Str "3.5"; Str "idle"] = Ok Datetime
   \/ dtype_of [Str "3.5"; Str "idle"] = Ok Object)
  /\ lookup "state" (cols (Frame 1 [("state", [Str "3.5"])]))
     = Some [Str "3.5"]
  /\ coerce_column (L := Samples.stub_lib) [Str "3.5"; Str "idle"]
     = Ok [Num 3.5; Num 0]
  /\ FuturePredict.feature_entry (L := Samples.stub_lib)
       (Frame 1 [("state", [Str "3.5"])]) "state" = Num 0.
Proof.
  split; [right; reflexivity|]. split; [reflexivity|].
  apply (coercion_of_non_numeric_values (L := Samples.stub_lib)
           [Str "3.5"; Str "idle"] (Frame 1 [("state", [Str "3.5"])])
           "state" (Str "3.5") []).
  - right; reflexivity.
  - reflexivity.
Defined.

(** C8 as stated fails in [future_predict.py]: the numeric-like string 3.5
    and the datetime one minute after the epoch both give 0, where the
    specified coercion gives 3.5 and 60. *)
Lemma future_predict_zeroes_strings_and_datetimes :
  FuturePredict.feature_entry (L := Samples.stub_lib)
    (Frame 1 [("state", [Str "3.5"]); ("seen", [Time 60])]) "state" = Num 0
  /\ spec_coerce (L := Samples.stub_lib) (Str "3.5") = Num 3.5
  /\ FuturePredict.feature_entry (L := Samples.stub_lib)
       (Frame 1 [("state", [Str "3.5"]); ("seen", [Time 60])]) "seen" = Num 0
  /\ spec_coerce (L := Samples.stub_lib) (Time 60) = Num 60.
Proof.
  repeat split.
Qed.

(** ** The feature reconciler (C3) *)

Lemma mem_lookup (c : string) l :
  mem c (map fst l) = false <-> lookup c l = None.
Proof.
  split; [apply lookup_None|].
  intros H. destruct (mem c (map fst l)) eqn:E; [|reflexivity].
  exfalso. revert H E. induction l as [|[k w] l IH]; simpl; [discriminate|].
  rewrite (String.eqb_sym c k).
  destruct (String.eqb k c); simpl; [discriminate | exact IH].
Qed.

Lemma lookup_filter (c : string) (p : string * column -> bool) l :
  (forall v, p (c, v) = true) -> lookup c (filter p l) = lookup c l.
Proof.
  intros Hp. induction l as [|[k w] l IH]; simpl; [reflexivity|].
  destruct (String.eqb k c) eqn:E.
  - apply String.eqb_eq in E. subst k. rewrite Hp. simpl.
    now rewrite String.eqb_refl.
  - destruct (p (k, w)); simpl; [now rewrite E | exact IH].
Qed.

(** The frame after [for feat in names: df[feat] = x]. *)
Lemma fold_set_scalar (x : cell) (names : list string) (df : frame) :
  nrows (fold_left (fun d feat => set_scalar feat x d) names df) = nrows df
  /\ forall c,
       lookup c (cols (fold_left (fun d feat => set_scalar feat x d) names df))
       = if mem c names then Some (repeat x (nrows df))
         else lookup c (cols df).
Proof.
  revert df. induction names as [|n names IH]; intros df; cbn [fold_left].
  - split; reflexivity.
  - destruct (IH (set_scalar n x df)) as [Hn Hl].
    split; [exact Hn|]. intros c. rewrite Hl.
    unfold mem. cbn [existsb]. fold (mem c names).
    change (nrows (set_scalar n x df)) with (nrows df).
    destruct (mem c names); [now rewrite orb_true_r|].
    rewrite orb_false_r. unfold set_scalar, set_col. cbn [cols].
    destruct (String.eqb c n) eqn:E.
    + apply String.eqb_eq in E. subst. apply lookup_assign_same.
    + apply lookup_assign_other. now apply String.eqb_neq.
Qed.

Lemma select_cols_present (names : list string) l :
  (forall f, In f names -> lookup f l <> None) ->
  select_cols names l = Ok (map (fun f => (f, force (lookup f l))) names).
Proof.
  induction names as [|n names IH]; intros H; simpl; [reflexivity|].
  destruct (lookup n l) eqn:E; [|exfalso; apply (H n); [now left | exact E]].
  rewrite IH by (intros f Hf; apply H; now right). reflexivity.
Qed.

(** The reconciler of [predict.py] computes the specified matrix. *)
Lemma predict_reconcile_spec (expected : list string) (X : frame) :
  Predict.reconcile expected X = Ok (spec_reconcile expected X).
Proof.
  unfold Predict.reconcile.
  set (extra := filter (fun col => negb (mem col expected)) (columns X)).
  set (Xs := drop extra X).
  assert (HXs : forall f, In f expected ->
                          lookup f (cols Xs) = lookup f (cols X)).
  { intros f Hf. unfold Xs, drop. simpl. apply lookup_filter.
    intros v. simpl. destruct (mem f extra) eqn:E; [|reflexivity].
    apply mem_In, filter_In in E as [_ E].
    apply mem_In in Hf. now rewrite Hf in E. }
  set (missing := filter (fun col => negb (has_col col Xs)) expected).
  destruct (fold_set_scalar (Num 0) missing Xs) as [Hn Hl].
  unfold select.
  set (X2 := fold_left (fun d col => set_scalar col (Num 0) d) missing Xs)
    in *.
  assert (Hval : forall f, In f expected ->
            lookup f (cols X2)
            = Some match lookup f (cols X) with
                   | Some v => v
                   | None => repeat (Num 0) (nrows X)
                   end).
  { intros f Hf. rewrite Hl. destruct (mem f missing) eqn:E.
    - apply mem_In, filter_In in E as [_ E].
      apply negb_true_iff, mem_lookup in E.
      now rewrite <- (HXs f Hf), E.
    - rewrite (HXs f Hf).
      destruct (lookup f (cols X)) eqn:G; [reflexivity|].
      assert (In f missing) as Hin.
      { apply filter_In. split; [assumption|].
        apply negb_true_iff, mem_lookup. now rewrite HXs. }
      apply mem_In in Hin. congruence. }
  rewrite select_cols_present.
  - simpl. unfold spec_reconcile. rewrite Hn. f_equal. f_equal.
    apply map_ext_in. intros f Hf. now rewrite (Hval f Hf).
  - intros f Hf. now rewrite (Hval f Hf).
Qed.

Lemma rf_reconcile_value (expected : list string) (df : frame) :
  RfPredict.reconcile expected df
  = Ok (Frame (nrows df)
          (map (fun f => (f, map (fillna_cell 0)
                               match lookup f (cols df) with
                               | Some v => v
                               | None => repeat NaN (nrows df)
                               end))
               expected)).
Proof.
  unfold RfPredict.reconcile.
  set (missing := filter (fun feat => negb (has_col feat df)) expected).
  destruct (fold_set_scalar NaN missing df) as [Hn Hl]. unfold select.
  set (df1 := fold_left (fun d feat => set_scalar feat NaN d) missing df)
    in *.
  assert (Hval : forall f, In f expected ->
            lookup f (cols df1)
            = Some match lookup f (cols df) with
                   | Some v => v
                   | None => repeat NaN (nrows df)
                   end).
  { intros f Hf. rewrite Hl. destruct (mem f missing) eqn:E.
    - apply mem_In, filter_In in E as [_ E].
      apply negb_true_iff, mem_lookup in E. now rewrite E.
    - destruct (lookup f (cols df)) eqn:G; [reflexivity|].
      assert (In f missing) as Hin.
      { apply filter_In. split; [assumption|].
        now apply negb_true_iff, mem_lookup. }
      apply mem_In in Hin. congruence. }
  rewrite select_cols_present.
  - simpl. unfold fillna. simpl. rewrite Hn. f_equal. f_equal.
    rewrite map_map. apply map_ext_in. intros f Hf. simpl.
    now rewrite (Hval f Hf).
  - intros f Hf. now rewrite (Hval f Hf).
Qed.

Lemma coerce_columns_inv `{L : Lib} (g : string -> column)
  (names : list string) cs :
  mapM (fun kv => v <- coerce_column (snd kv) ;; Ok (fst kv, v))
       (map (fun f => (f, g f)) names) = Ok cs ->
  map fst cs = names
  /\ forall f, In f names ->
       exists v, lookup f cs = Some v /\ coerce_column (g f) = Ok v.
Proof.
  revert cs. induction names as [|n names IH]; intros cs H; simpl in H.
  - inv_ok H. split; [reflexivity | intros f []].
  - inv_bind H. inv_bind E. inv_ok E. inv_bind H. inv_ok H.
    destruct (IH _ E) as [Hfst Hlook]. split; [simpl; now f_equal|].
    intros f Hf. simpl. destruct (String.eqb n f) eqn:En.
    + apply String.eqb_eq in En. subst f. eauto.
    + apply Hlook. destruct Hf; [|assumption].
      apply String.eqb_neq in En. congruence.
Qed.

Lemma coerce_float_column `{L : Lib} (v : column) :
  forallb is_float v = true -> coerce_column v = Ok v.
Proof. unfold coerce_column, dtype_of. now intros ->. Qed.

Lemma fillna_numbers (v : column) :
  Forall is_number v -> map (fillna_cell 0) v = v.
Proof.
  induction 1 as [|c v Hc _ IH]; simpl; [reflexivity|].
  rewrite IH. destruct c; simpl in *; tauto || reflexivity.
Qed.

Lemma numbers_are_float (v : column) :
  Forall is_number v -> forallb is_float v = true.
Proof.
  induction 1 as [|c v Hc _ IH]; simpl; [reflexivity|].
  rewrite IH. destruct c; simpl in *; tauto || reflexivity.
Qed.

(** C3, as amended: for every expected-feature list, the reconciler of
    [predict.py] yields exactly the expected columns in their order, zeros
    for the names the input lacks and the input's values for the others;
    the feature matrix of [make_predictions] in [rf_predict.py] has exactly
    the expected columns in their order, zeros for the names the input
    lacks, and for a name the input has the input's column with its missing
    values filled with 0 and then coerced, which for a column of numbers is
    the column itself. *)
Theorem reconciled_feature_matrix `{L : Lib} (sc : scaler)
  (expected : list string) (df : frame) (target_vars : list string)
  (X : frame) :
  feature_names_in_ sc = Some expected ->
  RfPredict.feature_matrix sc df target_vars = Ok X ->
  Predict.reconcile expected df = Ok (spec_reconcile expected df)
  /\ columns X = expected
  /\ nrows X = nrows df
  /\ forall f, In f expected ->
       match lookup f (cols df) with
       | None => lookup f (cols X) = Some (repeat (Num 0) (nrows df))
       | Some v =>
           (exists v', lookup f (cols X) = Some v'
                       /\ coerce_column (map (fillna_cell 0) v) = Ok v')
           /\ (Forall is_number v -> lookup f (cols X) = Some v)
       end.
Proof.
  intros Hsc H. split; [apply predict_reconcile_spec|].
  unfold RfPredict.feature_matrix in H. rewrite Hsc in H.
  rewrite rf_reconcile_value in H. simpl in H.
  unfold coerce_non_numeric in H. simpl in H. inv_bind H. inv_ok H.
  apply coerce_columns_inv in E as [Hfst Hlook]. simpl.
  repeat split; [exact Hfst|].
  intros f Hf. destruct (Hlook f Hf) as (v' & Hv' & Hc).
  destruct (lookup f (cols df)) as [v|] eqn:G.
  - split; [eauto|]. intros Hnum.
    rewrite fillna_numbers in Hc by assumption.
    rewrite coerce_float_column in Hc by now apply numbers_are_float.
    injection Hc as <-. exact Hv'.
  - rewrite map_repeat in Hc. simpl in Hc.
    rewrite coerce_float_column in Hc.
    + injection Hc as <-. exact Hv'.
    + clear. induction (nrows df); simpl; auto.
Qed.

Lemma reconciled_feature_matrix_witness :
  feature_names_in_ (Samples.stub_scaler ["load"; "cpu_lag_1"])
  = Some ["load"; "cpu_lag_1"]
  /\ RfPredict.feature_matrix (L := Samples.stub_lib)
       (Samples.stub_scaler ["load"; "cpu_lag_1"])
       (Frame 2 [("cpu", [Num 1; Num 2]); ("load", [Num 3; Num 4])]) []
     = Ok (Frame 2 [("load", [Num 3; Num 4]); ("cpu_lag_1", [Num 0; Num 0])])
  /\ Predict.reconcile ["load"; "cpu_lag_1"]
       (Frame 2 [("cpu", [Num 1; Num 2]); ("load", [Num 3; Num 4])])
     = Ok (spec_reconcile ["load"; "cpu_lag_1"]
             (Frame 2 [("cpu", [Num 1; Num 2]); ("load", [Num 3; Num 4])])).
Proof.
  split; [reflexivity|]. split; [vm_compute; reflexivity|].
  apply (reconciled_feature_matrix (L := Samples.stub_lib)
           (Samples.stub_scaler ["load"; "cpu_lag_1"]) ["load"; "cpu_lag_1"]
           (Frame 2 [("cpu", [Num 1; Num 2]); ("load", [Num 3; Num 4])]) []
           (Frame 2 [("load", [Num 3; Num 4]);
                     ("cpu_lag_1", [Num 0; Num 0])])).
  - reflexivity.
  - vm_compute; reflexivity.
Defined.

(** C3 as stated fails in [rf_predict.py]: a frame with exactly the expected
    column, holding a missing value and a string, reconciles to other
    values. *)
Lemma rf_reconcile_changes_values :
  columns (Frame 2 [("load", [NaN; Str "idle"])]) = ["load"]
  /\ RfPredict.feature_matrix (L := Samples.stub_lib)
       (Samples.stub_scaler ["load"])
       (Frame 2 [("load", [NaN; Str "idle"])]) []
     = Ok (Frame 2 [("load", [Num 0; Num 0])]).
Proof.
  split; [reflexivity | vm_compute; reflexivity].
Qed.

(** ** The recursive forecaster of [rf_predict.py] *)

Lemma derive_inv (src dst : string) (f : cell -> res cell) (df df' : frame) :
  derive src dst f df = Ok df' ->
  nrows df' = nrows df
  /\ forall c, c <> dst -> lookup c (cols df') = lookup c (cols df).
Proof.
  unfold derive. intros H. inv_bind H. inv_bind H. inv_ok H.
  split; [reflexivity|]. intros c Hc. now apply lookup_assign_other.
Qed.

Ltac derive_step H c :=
  let Hn := fresh "Hn" in
  let Hl := fresh "Hl" in
  apply derive_inv in H; destruct H as [Hn Hl];
  specialize (Hl c ltac:(discriminate)).

Lemma time_fields_time_col `{L : Lib} (df df' : frame) :
  time_fields df "time_dt" = Ok df' ->
  exists tc times,
    get_col "time_dt" df = Ok tc /\ to_datetime tc = Ok times
    /\ lookup "time_dt" (cols df') = Some times
    /\ nrows df' = nrows df.
Proof.
  unfold time_fields. intros H. inv_bind H. inv_bind H.
  do 5 inv_bind H.
  derive_step E1 "time_dt". derive_step E2 "time_dt".
  derive_step E3 "time_dt". derive_step E4 "time_dt".
  derive_step E5 "time_dt". derive_step H "time_dt".
  exists x, x0. repeat split; try assumption.
  - rewrite Hl4, Hl3, Hl2, Hl1, Hl0, Hl. simpl. apply lookup_assign_same.
  - simpl in Hn. congruence.
Qed.

Lemma cyclical_features_time_col `{L : Lib} (df df' : frame) :
  cyclical_features df = Ok df' ->
  lookup "time_dt" (cols df') = lookup "time_dt" (cols df)
  /\ nrows df' = nrows df.
Proof.
  unfold cyclical_features. intros H. do 3 inv_bind H.
  derive_step E "time_dt". derive_step E0 "time_dt".
  derive_step E1 "time_dt". derive_step H "time_dt".
  split; congruence.
Qed.

(** The calendar engineer leaves the converted time column and the rows. *)
Lemma rf_create_time_features_time_col `{L : Lib} (df df' : frame) :
  has_col "time_dt" df = true ->
  RfPredict.create_time_features df "time_dt" = Ok df' ->
  exists tc times,
    get_col "time_dt" df = Ok tc /\ to_datetime tc = Ok times
    /\ lookup "time_dt" (cols df') = Some times
    /\ nrows df' = nrows df.
Proof.
  unfold RfPredict.create_time_features. intros Hc H. rewrite Hc in H.
  simpl in H. inv_bind H. inv_bind H.
  apply time_fields_time_col in E as (tc & times & Htc & Ht & Hl & Hn).
  apply cyclical_features_time_col in H as [Hl' Hn'].
  unfold day_parts, foldM, RfPredict.one_hot in E0. do 4 inv_bind E0.
  inv_ok E0.
  derive_step E "time_dt". derive_step E1 "time_dt".
  derive_step E2 "time_dt". derive_step E3 "time_dt".
  exists tc, times. repeat split; try assumption.
  - rewrite Hl'. unfold drop. simpl.
    rewrite lookup_filter by reflexivity. congruence.
  - rewrite Hn'. simpl. congruence.
Qed.

Lemma step_inv `{L : Lib} (m : model) (sc : scaler) (w : frame)
  (hist : list Q) (a : RfPredict.analysis) (target_var time_col : string)
  (st st' : RfPredict.loop_state) (i : nat) (ft : cell) :
  RfPredict.step m sc w hist a target_var time_col st (i, ft) = Ok st' ->
  exists t,
    RfPredict.trace st' = RfPredict.trace st ++ [t]
    /\ RfPredict.all_predictions st'
       = RfPredict.all_predictions st ++ [RfPredict.prediction t]
    /\ step_law hist (RfPredict.avg_diff a) i t.
Proof.
  unfold RfPredict.step. intros H.
  inv_bind H. inv_bind H. destruct x0 as [fd g].
  inv_bind H. destruct x0 as [fd' g'].
  inv_bind H. destruct x0 as [fd'' X].
  do 6 inv_bind H.
  destruct (random_normal 0 (RfPredict.std_diff a * 0.7) g') as [noise g''].
  inv_ok H. eexists. simpl. split; [reflexivity|].
  split; [reflexivity|]. split; reflexivity.
Qed.

(** The loop runs the steps in order, step [i] on the [i]-th future time. *)
Lemma loop_inv `{L : Lib} (m : model) (sc : scaler) (w : frame)
  (hist : list Q) (a : RfPredict.analysis) (target_var time_col : string)
  (times : list cell) (s : nat) (st st' : RfPredict.loop_state) :
  foldM (RfPredict.step m sc w hist a target_var time_col)
        (combine (seq s (length times)) times) st = Ok st' ->
  exists ts,
    RfPredict.trace st' = RfPredict.trace st ++ ts
    /\ RfPredict.all_predictions st'
       = RfPredict.all_predictions st ++ map RfPredict.prediction ts
    /\ length ts = length times
    /\ forall k t, nth_error ts k = Some t ->
                   step_law hist (RfPredict.avg_diff a) (s + k) t.
Proof.
  revert s st. induction times as [|ft times IH]; intros s st H; simpl in H.
  - inv_ok H. exists []. rewrite !app_nil_r.
    split; [|split; [|split]]; try reflexivity.
    intros [|k] t'; discriminate.
  - inv_bind H. apply step_inv in E as (t & Ht & Hp & Hlaw).
    apply IH in H as (ts & Hts & Hps & Hlen & Hk).
    exists (t :: ts). rewrite Hts, Hps, Ht, Hp, <- !app_assoc. simpl.
    split; [|split; [|split]]; try reflexivity; [now rewrite Hlen|].
    intros [|k] t' Hnth; simpl in Hnth.
    + inv_ok Hnth. now rewrite Nat.add_0_r.
    + rewrite Nat.add_succ_r. now apply (Hk k).
Qed.

Lemma to_datetime_future_times `{L : Lib} (l a : option Q) (n : nat) :
  to_datetime (map (RfPredict.future_time l a) (seq 0 n))
  = Ok (map (RfPredict.future_time l a) (seq 0 n)).
Proof.
  unfold to_datetime.
  rewrite (mapM_total to_datetime_cell (fun c => c)).
  - now rewrite map_id.
  - intros c Hc. apply in_map_iff in Hc as (i & <- & _).
    unfold RfPredict.future_time. now destruct l, a.
Qed.

Lemma create_future_timepoints_inv `{L : Lib} (df : frame) (n : nat)
  (future_df : frame) :
  RfPredict.create_future_timepoints df n "time_dt" = Ok (Some future_df) ->
  has_col "time_dt" df = true /\ (1 < nrows df)%nat
  /\ exists tc times,
       get_col "time_dt" df = Ok tc /\ to_datetime tc = Ok times
       /\ future_df
          = Frame n [("time_dt",
                      map (RfPredict.future_time
                             (RfPredict.last_observed (timestamps times))
                             (RfPredict.mean_observed
                                (diff (timestamps times))))
                          (seq 0 n))].
Proof.
  unfold RfPredict.create_future_timepoints. intros H.
  destruct (has_col "time_dt" df); [|discriminate]. simpl in H.
  destruct (Nat.leb_spec (nrows df) 1); [discriminate|].
  inv_bind H. inv_bind H. inv_ok H. repeat split; [assumption|].
  eauto.
Qed.

(** What a completed run of the forecaster went through. *)
Lemma forecast_inv `{L : Lib} (m : model) (sc : scaler) (df : frame)
  (n : nat) (target_var : string) (g : rng) (out : frame)
  (st : RfPredict.loop_state) :
  RfPredict.forecast m sc df n target_var g = Ok (Some (out, st)) ->
  exists w tc times hist a,
    RfPredict.working_frame df "time_dt" = Ok w
    /\ get_col "time_dt" w = Ok tc /\ to_datetime tc = Ok times
    /\ RfPredict.target_values w target_var = Ok hist
    /\ RfPredict.analyse w hist = Ok a
    /\ length (RfPredict.trace st) = n
    /\ RfPredict.all_predictions st
       = map RfPredict.prediction (RfPredict.trace st)
    /\ (forall k t, nth_error (RfPredict.trace st) k = Some t ->
                    step_law hist (RfPredict.avg_diff a) k t)
    /\ nrows out = n
    /\ lookup target_var (cols out)
       = Some (map Num (RfPredict.all_predictions st))
    /\ (target_var <> "time_dt" ->
        lookup "time_dt" (cols out)
        = Some (map (RfPredict.future_time
                       (RfPredict.last_observed (timestamps times))
                       (RfPredict.mean_observed (diff (timestamps times))))
                    (seq 0 n))).
Proof.
  unfold RfPredict.forecast. intros H. inv_bind H. inv_bind H.
  destruct x0 as [future_df|]; [|discriminate].
  do 5 inv_bind H. inv_bind H. inv_ok H.
  apply create_future_timepoints_inv in E0
    as (Hc & Hrows & tc & times & Htc & Ht & ->).
  apply rf_create_time_features_time_col in E1
    as (tc' & times' & Htc' & Ht' & Hl & Hn); [|reflexivity].
  inv_ok Htc'. rewrite to_datetime_future_times in Ht'. inv_ok Ht'.
  unfold get_col in E4. rewrite Hl in E4. inv_ok E4.
  apply loop_inv in E5 as (ts & Hts & Hps & Hlen & Hk). simpl in Hts, Hps.
  unfold set_list in E6.
  destruct (length (map Num (RfPredict.all_predictions st)) =? nrows x0)%nat;
    [|discriminate].
  inv_ok E6. exists x, tc, times, x1, x2.
  repeat match goal with |- _ /\ _ => split end; try assumption.
  - rewrite Hlen, length_map. apply length_seq.
  - simpl. apply lookup_assign_same.
  - intros Hneq. simpl. rewrite lookup_assign_other by congruence.
    exact Hl.
Qed.

(** *** The trend term (C7) *)

Lemma diff_from_Some (a : Q) (r : list Q) :
  dropna (diff_from (Some a) (map Some r)) = consecutive_diffs (a :: r).
Proof.
  revert a. induction r as [|b r IH]; intros a; [reflexivity|].
  cbn [map diff_from dropna flat_map app consecutive_diffs].
  f_equal. apply IH.
Qed.

(** The differences pandas computes are the consecutive differences. *)
Lemma diff_consecutive (l : list Q) :
  dropna (diff (map Some l)) = consecutive_diffs l.
Proof.
  destruct l as [|a r]; [reflexivity|].
  unfold diff. cbn [map diff_from dropna flat_map app].
  apply diff_from_Some.
Qed.

Lemma analyse_avg_diff `{L : Lib} (w : frame) (hist : list Q)
  (a : RfPredict.analysis) :
  RfPredict.analyse w hist = Ok a ->
  RfPredict.avg_diff a
  = if (24 <? nrows w)%nat then mean (consecutive_diffs hist) else 0.
Proof.
  unfold RfPredict.analyse. intros H.
  destruct (24 <? nrows w)%nat.
  - do 2 inv_bind H. inv_ok H. simpl. now rewrite diff_consecutive.
  - now inv_ok H.
Qed.

(** C7, as amended: a completed run makes one step per future time; the
    trend term of the step with enumerate index [i] (the [i+1]-th future
    time, so [i] runs from 0) is [i] times the average difference times 0.3,
    where the average difference is the mean of the consecutive differences
    of the historical target when the history has more than 24 rows and 0
    otherwise; the step emits the pattern-adjusted prediction plus that
    term plus the noise, clamped.  [forecast] is [predict_future_values]
    with the record of its steps. *)
Theorem trend_term `{L : Lib} (m : model) (sc : scaler) (df : frame)
  (n : nat) (target_var : string) (g : rng) (w : frame) (hist : list Q)
  (out : frame) (st : RfPredict.loop_state) :
  RfPredict.forecast m sc df n target_var g = Ok (Some (out, st)) ->
  RfPredict.working_frame df "time_dt" = Ok w ->
  RfPredict.target_values w target_var = Ok hist ->
  RfPredict.predict_future_values (Some m) (Some sc) df n target_var g
  = Ok (Some (out, map RfPredict.prediction (RfPredict.trace st)))
  /\ length (RfPredict.trace st) = n
  /\ forall i t,
       nth_error (RfPredict.trace st) i = Some t ->
       step_law hist
                (if (24 <? nrows w)%nat then mean (consecutive_diffs hist)
                 else 0)
                i t.
Proof.
  intros H Hw Hh.
  assert (Hrun : RfPredict.predict_future_values (Some m) (Some sc) df n
                   target_var g
                 = Ok (Some (out, RfPredict.all_predictions st)))
    by (unfold RfPredict.predict_future_values; now rewrite H).
  apply forecast_inv in H
    as (w' & tc & times & hist' & a & Hw' & _ & _ & Hh' & Ha & Hlen & Hp & Hk
        & _).
  rewrite Hw in Hw'. inv_ok Hw'. rewrite Hh in Hh'. inv_ok Hh'.
  rewrite <- (analyse_avg_diff _ _ _ Ha), <- Hp. auto.
Qed.

Lemma trend_term_witness :
  RfPredict.forecast (L := Samples.stub_lib) (Samples.constant_model 5)
    (Samples.stub_scaler ["cpu_lag_1"]) Samples.long_day 2 "cpu" tt
  = Ok (Some (fst Samples.long_day_run, snd Samples.long_day_run))
  /\ RfPredict.working_frame (L := Samples.stub_lib) Samples.long_day
       "time_dt" = Ok Samples.long_day
  /\ RfPredict.target_values Samples.long_day "cpu"
     = Ok Samples.long_day_hist
  /\ RfPredict.predict_future_values (L := Samples.stub_lib)
       (Some (Samples.constant_model 5))
       (Some (Samples.stub_scaler ["cpu_lag_1"])) Samples.long_day 2 "cpu" tt
     = Ok (Some (fst Samples.long_day_run,
                 map RfPredict.prediction
                     (RfPredict.trace (snd Samples.long_day_run))))
  /\ length (RfPredict.trace (snd Samples.long_day_run)) = 2%nat
  /\ forall i t,
       nth_error (RfPredict.trace (snd Samples.long_day_run)) i = Some t ->
       step_law Samples.long_day_hist
         (if (24 <? nrows Samples.long_day)%nat
          then mean (consecutive_diffs Samples.long_day_hist) else 0)
         i t.
Proof.
  split; [vm_compute; reflexivity|].
  split; [vm_compute; reflexivity|].
  split; [vm_compute; reflexivity|].
  apply (trend_term (L := Samples.stub_lib) (Samples.constant_model 5)
           (Samples.stub_scaler ["cpu_lag_1"]) Samples.long_day 2 "cpu" tt
           Samples.long_day Samples.long_day_hist
           (fst Samples.long_day_run) (snd Samples.long_day_run));
    vm_compute; reflexivity.
Defined.

(** C7 as stated fails at the first iteration: over twenty-five hourly
    records whose target rises by 1 per record, the first step adds the
    trend term 0, not 1 times the mean difference times 0.3. *)
Lemma first_step_has_no_trend :
  RfPredict.forecast (L := Samples.stub_lib) (Samples.constant_model 5)
    (Samples.stub_scaler ["cpu_lag_1"]) Samples.long_day 2 "cpu" tt
  = Ok (Some Samples.long_day_run)
  /\ RfPredict.target_values Samples.long_day "cpu"
     = Ok Samples.long_day_hist
  /\ mean (consecutive_diffs Samples.long_day_hist) == 1
  /\ exists t,
       nth_error (RfPredict.trace (snd Samples.long_day_run)) 0 = Some t
       /\ RfPredict.trend_adjustment t == 0
       /\ ~ RfPredict.trend_adjustment t
            == 1 * mean (consecutive_diffs Samples.long_day_hist) * 0.3.
Proof.
  split; [vm_compute; reflexivity|].
  split; [vm_compute; reflexivity|].
  split; [vm_compute; reflexivity|].
  eexists. split; [vm_compute; reflexivity|].
  split; [vm_compute; reflexivity|].
  vm_compute. discriminate.
Qed.

(** *** The future time points (C2) *)


Lemma to_datetime_Time `{L : Lib} (ts : list Q) :
  to_datetime (map Time ts) = Ok (map Time ts).
Proof.
  unfold to_datetime.
  rewrite (mapM_total to_datetime_cell (fun c => c)).
  - now rewrite map_id.
  - intros c Hc. apply in_map_iff in Hc as (t & <- & _). reflexivity.
Qed.

Lemma timestamps_Time (ts : list Q) : timestamps (map Time ts) = map Some ts.
Proof. unfold timestamps. rewrite map_map. reflexivity. Qed.

Lemma last_observed_Some (ts : list Q) :
  ts <> [] ->
  RfPredict.last_observed (map Some ts) = Some (maximum ts).
Proof.
  intros H. unfold RfPredict.last_observed. rewrite dropna_Some.
  destruct ts; [contradiction | reflexivity].
Qed.

Lemma mean_observed_diff (ts : list Q) :
  (2 <= length ts)%nat ->
  RfPredict.mean_observed (diff (map Some ts))
  = Some (mean (consecutive_diffs ts)).
Proof.
  intros H. unfold RfPredict.mean_observed. rewrite diff_consecutive.
  destruct ts as [|a [|b r]]; simpl in H; try lia. reflexivity.
Qed.


(** The consecutive differences sum to the last value minus the first, so
    their mean is positive as soon as the first value is below the last. *)
Lemma sum_consecutive_diffs (a : Q) (r : list Q) :
  sum (consecutive_diffs (a :: r)) == last (a :: r) 0 - a.
Proof.
  revert a. induction r as [|b r IH]; intros a.
  - simpl. lra.
  - change (consecutive_diffs (a :: b :: r))
      with ((b - a) :: consecutive_diffs (b :: r)).
    change (last (a :: b :: r) 0) with (last (b :: r) 0).
    cbn [sum fold_right]. fold (sum (consecutive_diffs (b :: r))).
    rewrite IH. lra.
Qed.

Lemma length_consecutive_diffs (a : Q) (r : list Q) :
  length (consecutive_diffs (a :: r)) = length r.
Proof.
  revert a. induction r as [|b r IH]; intros a; [reflexivity|].
  change (consecutive_diffs (a :: b :: r))
    with ((b - a) :: consecutive_diffs (b :: r)).
  cbn [length]. f_equal. apply IH.
Qed.

Lemma of_nat_pos (k : nat) : (0 < k)%nat -> 0 < of_nat k.
Proof.
  intros H. unfold of_nat. change 0 with (inject_Z 0).
  rewrite <- Zlt_Qlt. lia.
Qed.








(** ** Insufficient history (C9) *)

Lemma create_future_timepoints_None `{L : Lib} (df : frame) (n : nat)
  (time_col : string) :
  RfPredict.create_future_timepoints df n time_col = Ok None
  <-> has_col time_col df = false \/ (nrows df <= 1)%nat.
Proof.
  unfold RfPredict.create_future_timepoints.
  destruct (has_col time_col df); simpl.
  - destruct (Nat.leb_spec (nrows df) 1).
    + split; auto.
    + split.
      * intros G. inv_bind G. inv_bind G. discriminate.
      * intros [G|G]; [discriminate | lia].
  - split; auto.
Qed.

Lemma working_frame_shape `{L : Lib} (df w : frame) (time_col : string) :
  RfPredict.working_frame df time_col = Ok w ->
  nrows w = nrows df /\ has_col time_col w = has_col time_col df.
Proof.
  unfold RfPredict.working_frame. intros H. inv_bind H.
  assert (Hx : nrows x = nrows df
               /\ has_col time_col x = has_col time_col df).
  { destruct (has_col time_col df) eqn:Hc.
    - inv_bind E. inv_bind E. inv_ok E. split; [reflexivity|].
      unfold has_col, columns. simpl.
      apply (lookup_Some_mem _ x1). apply lookup_assign_same.
    - inv_ok E. auto. }
  destruct Hx as [Hn Hc]. rewrite <- Hn, <- Hc.
  destruct (has_col time_col x) eqn:Hcx.
  - unfold sort_values in H. inv_bind H. inv_ok H. simpl.
    split; [reflexivity|]. unfold has_col, columns in *. simpl.
    now rewrite map_map.
  - inv_ok H. auto.
Qed.

(** C9, as amended: creating the future time points returns [None] exactly
    when the time column is absent or the frame has fewer than 2 rows, and
    on such a history neither forecaster returns a forecast, partial or not.
    A run also ends without a forecast, on any history, when the model or
    the scaler is not loaded: [predict_future_values] of either script then
    returns its failure value. *)
Theorem insufficient_history `{L : Lib} (df : frame) (n : nat)
  (time_col target_var : string) (m : option model) (sc : option scaler)
  (g : rng) :
  (RfPredict.create_future_timepoints df n time_col = Ok None
   <-> has_col time_col df = false \/ (nrows df <= 1)%nat)
  /\ (has_col "time_dt" df = false \/ (nrows df <= 1)%nat ->
      (forall r, RfPredict.predict_future_values m sc df n target_var g
                 <> Ok (Some r))
      /\ (forall out, FuturePredict.forecast_run m sc df n target_var
                      <> Ok (Some out)))
  /\ (m = None \/ sc = None ->
      RfPredict.predict_future_values m sc df n target_var g = Ok None
      /\ (forall future_df,
            FuturePredict.predict_future_values m sc df future_df target_var
            = Ok None)
      /\ (forall out, FuturePredict.forecast_run m sc df n target_var
                      <> Ok (Some out))).
Proof.
  split; [apply create_future_timepoints_None|]. split.
  - intros Hc. split.
    + intros r H. unfold RfPredict.predict_future_values in H.
      destruct m as [m|]; [|discriminate].
      destruct sc as [sc|]; [|discriminate].
      inv_bind H. unfold RfPredict.forecast in E. inv_bind E.
      apply working_frame_shape in E0 as [Hn Hh].
      rewrite <- Hn, <- Hh in Hc.
      apply create_future_timepoints_None with (n := n) in Hc.
      rewrite Hc in E. simpl in E. inv_ok E. discriminate.
    + intros out H. unfold FuturePredict.forecast_run in H.
      unfold FuturePredict.create_future_timepoints in H.
      apply create_future_timepoints_None with (n := n) in Hc.
      rewrite Hc in H. discriminate.
  - intros Hnone.
    assert (forall future_df,
              FuturePredict.predict_future_values m sc df future_df
                target_var = Ok None) as Hv2.
    { intros future_df. unfold FuturePredict.predict_future_values.
      destruct Hnone as [-> | ->]; [reflexivity|].
      now destruct m. }
    split; [|split; [exact Hv2|]].
    + unfold RfPredict.predict_future_values.
      destruct Hnone as [-> | ->]; [reflexivity|]. now destruct m.
    + intros out H. unfold FuturePredict.forecast_run in H.
      inv_bind H. destruct x as [future_df|]; [|discriminate].
      rewrite Hv2 in H. discriminate.
Qed.

Lemma insufficient_history_witness :
  (has_col "time_dt" (Samples.series 1 3600 Samples.ramp) = false
   \/ (nrows (Samples.series 1 3600 Samples.ramp) <= 1)%nat)
  /\ (forall r,
        RfPredict.predict_future_values (L := Samples.stub_lib)
          (Some (Samples.constant_model 5))
          (Some (Samples.stub_scaler ["cpu_lag_1"]))
          (Samples.series 1 3600 Samples.ramp) 2 "cpu" tt
        <> Ok (Some r))
  /\ (@None model = None \/ Some (Samples.stub_scaler ["cpu_lag_1"]) = None)
  /\ RfPredict.predict_future_values (L := Samples.stub_lib) None
       (Some (Samples.stub_scaler ["cpu_lag_1"])) Samples.day 2 "cpu" tt
     = Ok None.
Proof.
  split; [right; simpl; lia|]. split.
  - apply (insufficient_history (L := Samples.stub_lib)
             (Samples.series 1 3600 Samples.ramp) 2 "time_dt" "cpu"
             (Some (Samples.constant_model 5))
             (Some (Samples.stub_scaler ["cpu_lag_1"])) tt).
    right; simpl; lia.
  - split; [left; reflexivity|].
    apply (insufficient_history (L := Samples.stub_lib) Samples.day 2
             "time_dt" "cpu" None
             (Some (Samples.stub_scaler ["cpu_lag_1"])) tt).
    left; reflexivity.
Defined.

(** C9 as stated fails in the other direction: on a history of twenty-four
    rows with its time column, for which the future time points are
    created, a run without a loaded model ends with the failure value and
    no forecast. *)
Lemma run_fails_on_sufficient_history :
  has_col "time_dt" Samples.day = true
  /\ nrows Samples.day = 24%nat
  /\ (exists future_df,
        RfPredict.create_future_timepoints (L := Samples.stub_lib)
          Samples.day 2 "time_dt" = Ok (Some future_df))
  /\ RfPredict.predict_future_values (L := Samples.stub_lib) None
       (Some (Samples.stub_scaler ["cpu_lag_1"])) Samples.day 2 "cpu" tt
     = Ok None
  /\ FuturePredict.forecast_run (L := Samples.stub_lib) None
       (Some (Samples.stub_scaler ["cpu_lag_1"])) Samples.day 2 "cpu"
     = Ok None.
Proof.
  split; [reflexivity|]. split; [reflexivity|].
  split; [eexists; vm_compute; reflexivity|].
  split; vm_compute; reflexivity.
Qed.

(** ** The day-part indicators (C5) *)

(** The hours of each day part, as the specification lists them, and the
    one indicator that is 1. *)
Lemma get_day_part_hours (h : Z) :
  (0 <= h <= 23)%Z ->
  get_day_part (inject_Z h)
  = (if (5 <=? h)%Z && (h <=? 11)%Z then "morning"
     else if (12 <=? h)%Z && (h <=? 16)%Z then "afternoon"
     else if (17 <=? h)%Z && (h <=? 21)%Z then "evening"
     else "night")
  /\ exists part, In part day_parts
       /\ forall p, In p day_parts ->
            indicator p (Str (get_day_part (inject_Z h)))
            = Ok (Num (if String.eqb p part then 1 else 0)).
Proof.
  intros Hh. replace h with (Z.of_nat (Z.to_nat h)) by lia.
  assert (Hk : (Z.to_nat h < 24)%nat) by lia.
  set (k := Z.to_nat h) in *. clearbody k. clear Hh.
  do 24 (destruct k as [|k];
         [split; [reflexivity|];
          match goal with
          | |- context [get_day_part ?x] => exists (get_day_part x)
          end;
          split;
          [vm_compute; tauto
          |intros p [<-|[<-|[<-|[<-|[]]]]]; vm_compute; reflexivity]|]).
  lia.
Qed.

Lemma derive_full (src dst : string) (f : cell -> res cell) (df df' : frame) :
  derive src dst f df = Ok df' ->
  exists v w, lookup src (cols df) = Some v /\ mapM f v = Ok w
              /\ df' = set_col dst w df.
Proof.
  unfold derive, get_col. intros H. inv_bind H. inv_bind H. inv_ok H.
  destruct (lookup src (cols df)); [|discriminate]. inv_ok E. eauto.
Qed.

Lemma apply_get_day_part_inv (hours dps : column) :
  mapM apply_get_day_part hours = Ok dps ->
  dps = map (fun h => Str (day_part_of h)) hours.
Proof.
  revert dps. induction hours as [|h hours IH]; intros dps H; simpl in H.
  - now inv_ok H.
  - inv_bind H. inv_bind H. inv_ok H. simpl. f_equal; [|now apply IH].
    destruct h; simpl in E; try discriminate; now inv_ok E.
Qed.

Lemma indicator_column (part : string) (hours : column) :
  mapM (indicator part) (map (fun h => Str (day_part_of h)) hours)
  = Ok (indicators part hours).
Proof.
  unfold indicators.
  rewrite (mapM_total (indicator part)
             (fun c => Num (if cell_eqb c (Str part) then 1 else 0)))
    by reflexivity.
  now rewrite map_map.
Qed.

Ltac derive_all :=
  repeat match goal with
         | H : derive _ _ _ _ = Ok _ |- _ =>
             apply derive_full in H; destruct H as (? & ? & ? & ? & ->)
         end.

Ltac lookup_norm_in H :=
  repeat first [ rewrite lookup_assign_same in H
               | rewrite lookup_assign_other in H by discriminate ].

Ltac lookup_norm :=
  repeat first [ rewrite lookup_assign_same
               | rewrite lookup_assign_other by discriminate ].

(** In [rf_predict.py] the calendar engineer emits the four indicator
    columns whatever the batch holds, each the indicator of its day part over
    the hour column. *)
Lemma rf_day_part_columns `{L : Lib} (df df' : frame) :
  has_col "time_dt" df = true ->
  RfPredict.create_time_features df "time_dt" = Ok df' ->
  exists hours,
    lookup "hour_of_day" (cols df') = Some hours
    /\ forall part, In part day_parts ->
         lookup ("day_part_" +++ part) (cols df')
         = Some (indicators part hours).
Proof.
  unfold RfPredict.create_time_features. intros Hc H. rewrite Hc in H.
  simpl in H. inv_bind H. inv_bind H.
  unfold time_fields in E. do 7 inv_bind E.
  unfold day_parts, foldM, RfPredict.one_hot in E0. do 4 inv_bind E0.
  inv_ok E0.
  unfold cyclical_features in H. do 3 inv_bind H.
  derive_all. cbn [String.append] in *. unfold set_col, drop in *.
  cbn [cols nrows] in *.
  repeat match goal with
         | H : lookup _ (filter _ _) = _ |- _ =>
             rewrite lookup_filter in H by reflexivity
         | H : lookup _ (assign _ _ _) = _ |- _ => progress lookup_norm_in H
         end.
  repeat match goal with
         | H : Some _ = Some _ |- _ => injection H as <-
         end.
  repeat match goal with
         | H : mapM apply_get_day_part _ = Ok _ |- _ =>
             apply apply_get_day_part_inv in H; subst
         end.
  repeat match goal with
         | H : mapM (indicator _) _ = Ok _ |- _ =>
             rewrite indicator_column in H; injection H as <-
         end.
  eexists. split.
  - lookup_norm. rewrite lookup_filter by reflexivity. lookup_norm.
    reflexivity.
  - intros part [<-|[<-|[<-|[<-|[]]]]]; cbn [String.append]; lookup_norm;
      rewrite lookup_filter by reflexivity; lookup_norm; reflexivity.
Qed.

(** In every row exactly one of the four indicators is 1. *)
Lemma one_indicator_per_row (h : cell) :
  exists part, In part day_parts
    /\ forall p, In p day_parts ->
         (if String.eqb (day_part_of h) p then 1 else 0)
         = (if String.eqb part p then 1 else 0).
Proof.
  exists (day_part_of h). split; [|reflexivity].
  unfold day_part_of, get_day_part, day_parts.
  destruct h; simpl; try tauto.
  destruct (Qle_bool 5 q && ltb q 12); [tauto|].
  destruct (Qle_bool 12 q && ltb q 17); [tauto|].
  destruct (Qle_bool 17 q && ltb q 22); tauto.
Qed.

(** C5 holds in [rf_predict.py] but not in [future_predict.py], whose
    calendar engineer encodes the day part with [get_dummies]: on a batch of
    one record at nine o'clock it emits the morning indicator and none of
    the other three. *)
Theorem get_dummies_omits_absent_day_parts :
  exists df',
    FuturePredict.create_time_features (L := Samples.stub_lib)
      (Frame 1 [("time_dt", [Time (inject_Z (9 * 3600))])]) "time_dt"
    = Ok df'
    /\ lookup "hour_of_day" (cols df') = Some [Num 9]
    /\ has_col "day_part_morning" df' = true
    /\ has_col "day_part_afternoon" df' = false
    /\ has_col "day_part_evening" df' = false
    /\ has_col "day_part_night" df' = false.
Proof.
  eexists. split; [vm_compute; reflexivity|].
  repeat split.
Qed.

(** *** The clamp (C1) *)

Lemma clamp_lower (lo hi x : Q) : lo <= Py.max lo (Py.min hi x).
Proof.
  unfold Py.max. destruct (Qlt_le_dec lo (Py.min hi x)); lra.
Qed.

Lemma clamp_upper (lo hi x : Q) : lo <= hi -> Py.max lo (Py.min hi x) <= hi.
Proof.
  intros H. unfold Py.max, Py.min.
  destruct (Qlt_le_dec x hi); destruct (Qlt_le_dec lo _); lra.
Qed.

Lemma fold_min_le (r : list Q) (x : Q) :
  fold_left (fun m y => if Qlt_le_dec y m then y else m) r x <= x.
Proof.
  revert x. induction r as [|y r IH]; intros x; simpl; [lra|].
  destruct (Qlt_le_dec y x); [|apply IH].
  specialize (IH y). lra.
Qed.

Lemma fold_max_ge (r : list Q) (x : Q) :
  x <= fold_left (fun m y => if Qlt_le_dec m y then y else m) r x.
Proof.
  revert x. induction r as [|y r IH]; intros x; simpl; [lra|].
  destruct (Qlt_le_dec x y); [|apply IH].
  specialize (IH y). lra.
Qed.

Lemma minimum_le_maximum (l : list Q) : minimum l <= maximum l.
Proof.
  destruct l as [|x r]; simpl; [lra|].
  pose proof (fold_min_le r x). pose proof (fold_max_ge r x). lra.
Qed.

(** With a non-negative maximum the lower bound of the clamp is below the
    upper one. *)
Lemma clamp_bounds_ordered (l : list Q) :
  0 <= maximum l -> minimum l * 0.8 <= maximum l * 1.2.
Proof.
  intros H. pose proof (minimum_le_maximum l).
  destruct (Qlt_le_dec (minimum l) 0); lra.
Qed.

(** The history the forecaster reads and the history it is given. *)

Lemma insert_key_perm (x : cell * nat) (l : list (cell * nat)) :
  Permutation (insert_key x l) (x :: l).
Proof.
  induction l as [|y l IH]; simpl; [reflexivity|].
  destruct (key_le (fst x) (fst y)); [reflexivity|].
  rewrite IH. apply perm_swap.
Qed.

Lemma sorted_keys_perm (l : list (cell * nat)) :
  Permutation (fold_right insert_key [] l) l.
Proof.
  induction l as [|x l IH]; simpl; [reflexivity|].
  rewrite insert_key_perm. now constructor.
Qed.

Lemma map_snd_combine_seq (keys : column) (s : nat) :
  map snd (combine keys (seq s (length keys))) = seq s (length keys).
Proof.
  revert s. induction keys as [|k keys IH]; intros s; simpl; [reflexivity|].
  now rewrite IH.
Qed.

(** Sorting permutes the row numbers. *)
Lemma argsort_perm (keys : column) :
  Permutation (argsort keys) (seq 0 (length keys)).
Proof.
  unfold argsort.
  etransitivity; [apply Permutation_map, sorted_keys_perm|].
  now rewrite map_snd_combine_seq.
Qed.

Lemma nth_seq_map (l : list Q) :
  map (fun i => nth i l 0) (seq 0 (length l)) = l.
Proof.
  induction l as [|x l IH]; simpl; [reflexivity|].
  f_equal. rewrite <- seq_shift, map_map. exact IH.
Qed.

Lemma take_Num (perm : list nat) (raw : list Q) :
  (forall i, In i perm -> (i < length raw)%nat) ->
  take perm (map Num raw) = map Num (map (fun i => nth i raw 0) perm).
Proof.
  intros H. unfold take. rewrite map_map. apply map_ext_in. intros i Hi.
  rewrite (nth_indep _ NaN (Num 0)) by (rewrite length_map; auto).
  apply (map_nth Num).
Qed.

Lemma finite_Num (l : list Q) :
  mapM RfPredict.finite_cell (map Num l) = Ok l.
Proof.
  rewrite (mapM_total RfPredict.finite_cell
             (fun c => match c with Num q => q | _ => 0 end)).
  - rewrite map_map. now rewrite map_id.
  - intros c Hc. apply in_map_iff in Hc as (q & <- & _). reflexivity.
Qed.

Lemma finite_inv (col : column) (l : list Q) :
  mapM RfPredict.finite_cell col = Ok l -> col = map Num l.
Proof.
  revert l. induction col as [|c col IH]; intros l H; simpl in H.
  - now inv_ok H.
  - inv_bind H. inv_bind H. inv_ok H. simpl. f_equal; [|now apply IH].
    destruct c; simpl in E; try discriminate. now inv_ok E.
Qed.

Lemma lookup_map_cols (g : column -> column) (c : string) l :
  lookup c (map (fun kv => (fst kv, g (snd kv))) l)
  = option_map g (lookup c l).
Proof.
  induction l as [|[k v] l IH]; simpl; [reflexivity|].
  now destruct (String.eqb k c).
Qed.

Lemma lookup_In (c : string) (v : column) l :
  lookup c l = Some v -> In (c, v) l.
Proof.
  induction l as [|[k w] l IH]; simpl; [discriminate|].
  destruct (String.eqb k c) eqn:E.
  - intros H. inv_ok H. apply String.eqb_eq in E. subst. now left.
  - intros H. right. now apply IH.
Qed.

(** In a well-formed frame the forecaster's sorted target column is a
    permutation of the target column it was given. *)
Lemma working_frame_target `{L : Lib} (df w : frame) (target_var : string)
  (raw hist : list Q) :
  well_formed df -> target_var <> "time_dt" ->
  RfPredict.working_frame df "time_dt" = Ok w ->
  RfPredict.target_values df target_var = Ok raw ->
  RfPredict.target_values w target_var = Ok hist ->
  Permutation hist raw.
Proof.
  intros Hwf Hneq Hw Hraw Hhist.
  unfold RfPredict.target_values, get_col in Hraw, Hhist.
  destruct (lookup target_var (cols df)) as [col|] eqn:Hcol;
    [|discriminate].
  simpl in Hraw. apply finite_inv in Hraw. subst col.
  assert (Hlen : length raw = nrows df).
  { apply lookup_In in Hcol. unfold well_formed in Hwf.
    rewrite Forall_forall in Hwf. specialize (Hwf _ Hcol). simpl in Hwf.
    now rewrite length_map in Hwf. }
  unfold RfPredict.working_frame in Hw. inv_bind Hw.
  destruct (has_col "time_dt" df) eqn:Hc.
  - inv_bind E. inv_bind E. inv_ok E.
    assert (Htc : length x1 = nrows df).
    { apply mapM_length in E1. rewrite E1. unfold get_col in E0.
      destruct (lookup "time_dt" (cols df)) as [tc|] eqn:Htc;
        [|discriminate].
      inv_ok E0. apply lookup_In in Htc. unfold well_formed in Hwf.
      rewrite Forall_forall in Hwf. exact (Hwf _ Htc). }
    replace (has_col "time_dt" (set_col "time_dt" x1 df)) with true in Hw
      by (symmetry; unfold has_col, columns; simpl;
          apply (lookup_Some_mem _ x1), lookup_assign_same).
    unfold sort_values in Hw. rewrite get_col_set_col_same in Hw.
    simpl in Hw. inv_ok Hw. simpl in Hhist.
    rewrite lookup_map_cols, lookup_assign_other, Hcol in Hhist
      by assumption.
    simpl in Hhist. pose proof (argsort_perm x1) as Hperm.
    rewrite take_Num, finite_Num in Hhist.
    + inv_ok Hhist. rewrite Htc, <- Hlen in Hperm.
      etransitivity; [apply Permutation_map; exact Hperm|].
      now rewrite nth_seq_map.
    + intros i Hi. apply (Permutation_in _ Hperm), in_seq in Hi. lia.
  - inv_ok E. rewrite Hc in Hw. inv_ok Hw. rewrite Hcol in Hhist.
    simpl in Hhist. rewrite finite_Num in Hhist. inv_ok Hhist. reflexivity.
Qed.

Lemma fold_min_In (r : list Q) (x : Q) :
  In (fold_left (fun m y => if Qlt_le_dec y m then y else m) r x) (x :: r).
Proof.
  revert x. induction r as [|y r IH]; intros x; simpl; [now left|].
  destruct (Qlt_le_dec y x); [right; apply IH|].
  destruct (IH x) as [H|H]; [now left | right; now right].
Qed.

Lemma fold_min_lower (r : list Q) (x z : Q) :
  In z (x :: r) ->
  fold_left (fun m y => if Qlt_le_dec y m then y else m) r x <= z.
Proof.
  revert x. induction r as [|y r IH]; intros x [->|H]; simpl.
  - lra.
  - destruct H.
  - destruct (Qlt_le_dec y z); [|apply IH; now left].
    pose proof (fold_min_le r y). lra.
  - destruct (Qlt_le_dec y x).
    + apply IH. destruct H as [->|H]; [now left | now right].
    + destruct H as [->|H]; [|apply IH; now right].
      pose proof (fold_min_le r x). lra.
Qed.

Lemma fold_max_In (r : list Q) (x : Q) :
  In (fold_left (fun m y => if Qlt_le_dec m y then y else m) r x) (x :: r).
Proof.
  revert x. induction r as [|y r IH]; intros x; simpl; [now left|].
  destruct (Qlt_le_dec x y); [right; apply IH|].
  destruct (IH x) as [H|H]; [now left | right; now right].
Qed.

Lemma fold_max_upper (r : list Q) (x z : Q) :
  In z (x :: r) ->
  z <= fold_left (fun m y => if Qlt_le_dec m y then y else m) r x.
Proof.
  revert x. induction r as [|y r IH]; intros x [->|H]; simpl.
  - lra.
  - destruct H.
  - destruct (Qlt_le_dec z y); [|apply IH; now left].
    pose proof (fold_max_ge r y). lra.
  - destruct (Qlt_le_dec x y).
    + apply IH. destruct H as [->|H]; [now left | now right].
    + destruct H as [->|H]; [|apply IH; now right].
      pose proof (fold_max_ge r x). lra.
Qed.

(** The extremes of a list do not depend on the order of its values. *)
Lemma extremes_perm (l l' : list Q) :
  Permutation l l' ->
  minimum l == minimum l' /\ maximum l == maximum l'.
Proof.
  intros H. destruct l as [|x r].
  - apply Permutation_nil in H. subst. split; reflexivity.
  - destruct l' as [|x' r'];
      [apply Permutation_sym, Permutation_nil in H; discriminate|].
    simpl. split; apply Qle_antisym.
    + apply fold_min_lower, (Permutation_in _ (Permutation_sym H)),
        fold_min_In.
    + apply fold_min_lower, (Permutation_in _ H), fold_min_In.
    + apply fold_max_upper, (Permutation_in _ H), fold_max_In.
    + apply fold_max_upper, (Permutation_in _ (Permutation_sym H)),
        fold_max_In.
Qed.


(** C1, as amended: every prediction a completed run of
    [predict_future_values] of [rf_predict.py] emits is at least 0.8 times the
    minimum of the historical target, and at most 1.2 times its maximum
    whenever that lower bound does not exceed that upper bound, which holds
    for every history whose maximum is not negative.  The minimum and the
    maximum are those of the target column the forecaster holds after it
    sorted the history, and of the target column of the frame it was given
    when that frame is well formed. *)
Theorem predictions_within_clamp `{L : Lib} (m : model) (sc : scaler)
  (df : frame) (n : nat) (target_var : string) (g : rng) (w : frame)
  (hist : list Q) (out : frame) (preds : list Q) :
  RfPredict.predict_future_values (Some m) (Some sc) df n target_var g
  = Ok (Some (out, preds)) ->
  RfPredict.working_frame df "time_dt" = Ok w ->
  RfPredict.target_values w target_var = Ok hist ->
  Forall (fun p =>
            minimum hist * 0.8 <= p
            /\ (minimum hist * 0.8 <= maximum hist * 1.2 ->
                p <= maximum hist * 1.2)
            /\ (0 <= maximum hist -> p <= maximum hist * 1.2))
         preds
  /\ forall raw,
       well_formed df -> target_var <> "time_dt" ->
       RfPredict.target_values df target_var = Ok raw ->
       Forall (fun p =>
                 minimum raw * 0.8 <= p
                 /\ (0 <= maximum raw -> p <= maximum raw * 1.2))
              preds.
Proof.
  unfold RfPredict.predict_future_values. intros H Hw Hh.
  inv_bind H. destruct x as [[out' st]|]; [|discriminate].
  simpl in H. inv_ok H.
  apply forecast_inv in E
    as (w' & tc & times & hist' & a & Hw' & _ & _ & Hh' & _ & _ & Hp & Hk
        & _).
  rewrite Hw in Hw'. injection Hw' as <-.
  rewrite Hh in Hh'. injection Hh' as <-.
  assert (Hall : Forall (fun p =>
            minimum hist * 0.8 <= p
            /\ (minimum hist * 0.8 <= maximum hist * 1.2 ->
                p <= maximum hist * 1.2)
            /\ (0 <= maximum hist -> p <= maximum hist * 1.2))
           (RfPredict.all_predictions st)).
  { rewrite Hp. apply Forall_forall. intros p Hin.
    apply in_map_iff in Hin as (t & <- & Hin).
    apply In_nth_error in Hin as (k & Hnth).
    destruct (Hk k t Hnth) as [_ ->].
    split; [apply clamp_lower|].
    split; intros Hb; apply clamp_upper; [assumption|].
    now apply clamp_bounds_ordered. }
  split; [exact Hall|]. intros raw Hwf Hneq Hraw.
  destruct (extremes_perm hist raw
              (working_frame_target df w target_var raw hist Hwf Hneq Hw
                 Hraw Hh)) as [Hmin Hmax].
  eapply Forall_impl; [|exact Hall]. simpl.
  intros p (Hlo & _ & Hhi). rewrite <- Hmin, <- Hmax. split; [exact Hlo|].
  exact Hhi.
Qed.

Lemma predictions_within_clamp_witness :
  RfPredict.predict_future_values (L := Samples.stub_lib)
    (Some (Samples.constant_model 5))
    (Some (Samples.stub_scaler ["cpu_lag_1"])) Samples.day 2 "cpu" tt
  = Ok (Some (fst Samples.day_run, snd Samples.day_run))
  /\ RfPredict.working_frame (L := Samples.stub_lib) Samples.day "time_dt"
     = Ok Samples.day
  /\ RfPredict.target_values Samples.day "cpu" = Ok Samples.day_hist
  /\ Forall (fun p =>
               minimum Samples.day_hist * 0.8 <= p
               /\ (minimum Samples.day_hist * 0.8
                   <= maximum Samples.day_hist * 1.2 ->
                   p <= maximum Samples.day_hist * 1.2)
               /\ (0 <= maximum Samples.day_hist ->
                   p <= maximum Samples.day_hist * 1.2))
            (snd Samples.day_run).
Proof.
  split; [vm_compute; reflexivity|].
  split; [vm_compute; reflexivity|].
  split; [vm_compute; reflexivity|].
  apply (predictions_within_clamp (L := Samples.stub_lib)
           (Samples.constant_model 5) (Samples.stub_scaler ["cpu_lag_1"])
           Samples.day 2 "cpu" tt Samples.day Samples.day_hist
           (fst Samples.day_run) (snd Samples.day_run));
    vm_compute; reflexivity.
Defined.

(** C1 as stated fails.  Over a history that is constantly -10 the
    forecaster of [rf_predict.py] emits -8, above 1.2 times the maximum;
    the forecaster of [future_predict.py] has no clamp and emits what the
    model returns, here 1000 over a history of 0 and 1. *)
Lemma predictions_outside_clamp :
  (exists out p rest,
     RfPredict.predict_future_values (L := Samples.stub_lib)
       (Some (Samples.constant_model 0))
       (Some (Samples.stub_scaler ["cpu_lag_1"]))
       Samples.negative_day 1 "cpu" tt
     = Ok (Some (out, p :: rest))
     /\ RfPredict.target_values Samples.negative_day "cpu"
        = Ok (repeat (-10) 24)
     /\ ~ p <= 1.2 * maximum (repeat (-10) 24))
  /\ (exists out,
        FuturePredict.forecast_run (L := Samples.stub_lib)
          (Some (Samples.constant_model 1000))
          (Some (Samples.stub_scaler ["cpu_lag_1"]))
          (Samples.series 2 3600 Samples.ramp) 1 "cpu"
        = Ok (Some out)
        /\ RfPredict.target_values (Samples.series 2 3600 Samples.ramp) "cpu"
           = Ok [0; 1]
        /\ lookup "cpu" (cols out) = Some [Num 1000]
        /\ ~ 1000 <= 1.2 * maximum [0; 1]).
Proof.
  split.
  - do 3 eexists. split; [vm_compute; reflexivity|].
    split; [vm_compute; reflexivity|].
    apply Qlt_not_le. vm_compute. reflexivity.
  - eexists. split; [vm_compute; reflexivity|].
    split; [vm_compute; reflexivity|].
    split; [vm_compute; reflexivity|].
    apply Qlt_not_le. vm_compute. reflexivity.
Qed.

(** * Further properties of the code *)

(** ** The lag engineer *)

Lemma str_inj (j k : nat) : str j = str k -> j = k.
Proof.
  unfold str. intros H.
  apply (f_equal NilEmpty.uint_of_string) in H.
  rewrite !NilEmpty.usu in H. injection H as H.
  apply (f_equal Nat.of_uint) in H. now rewrite !Unsigned.of_to in H.
Qed.

Lemma lag_name_neq_target (target : string) (k : nat) :
  target <> target +++ "_lag_" +++ str k.
Proof. name_neq. Qed.

Lemma lag_name_inj (target : string) (j k : nat) :
  target +++ "_lag_" +++ str j = target +++ "_lag_" +++ str k -> j = k.
Proof.
  intros E. apply append_cancel in E. cbn [String.append] in E.
  injection E as E. now apply str_inj.
Qed.

Lemma shift_length (k : nat) (v : column) : length (shift k v) = length v.
Proof.
  unfold shift. rewrite length_firstn, length_app. lia.
Qed.

Lemma shift_nth (k i : nat) (v : column) :
  (i < length v)%nat ->
  nth i (shift k v) NaN = if (i <? k)%nat then NaN else nth (i - k) v NaN.
Proof.
  intros Hi. unfold shift.
  rewrite nth_firstn. destruct (Nat.ltb_spec i (length v)); [|lia].
  destruct (Nat.ltb_spec i k).
  - rewrite app_nth1 by (rewrite repeat_length; lia). apply nth_repeat.
  - rewrite app_nth2 by (rewrite repeat_length; lia).
    now rewrite repeat_length.
Qed.

Lemma lag_loop (target : string) (v : column) (lags : list nat) (df : frame) :
  lookup target (cols df) = Some v ->
  exists df',
    foldM (fun df lag =>
             v <- get_col target df ;;
             Ok (set_col (target +++ "_lag_" +++ str lag) (shift lag v) df))
          lags df = Ok df'
    /\ nrows df' = nrows df
    /\ lookup target (cols df') = Some v
    /\ (forall k, In k lags ->
          lookup (target +++ "_lag_" +++ str k) (cols df')
          = Some (shift k v))
    /\ (forall c, (forall k, In k lags -> c <> target +++ "_lag_" +++ str k) ->
          lookup c (cols df') = lookup c (cols df)).
Proof.
  revert df. induction lags as [|lag lags IH]; intros df Hv.
  - exists df. simpl. repeat split; auto. intros k [].
  - cbn [foldM]. unfold get_col at 1. rewrite Hv. cbn [bind].
    destruct (IH (set_col (target +++ "_lag_" +++ str lag) (shift lag v) df))
      as (df' & Hrun & Hn & Ht & Hlag & Hother).
    { unfold set_col. cbn [cols].
      rewrite lookup_assign_other by apply lag_name_neq_target. exact Hv. }
    exists df'. split; [exact Hrun|]. split; [exact Hn|]. split; [exact Ht|].
    split.
    + intros k Hk. destruct (in_dec Nat.eq_dec k lags) as [Hin|Hout].
      * now apply Hlag.
      * destruct Hk as [<-|Hk]; [|contradiction].
        rewrite Hother.
        -- unfold set_col. cbn [cols]. apply lookup_assign_same.
        -- intros j Hj E. apply lag_name_inj in E. congruence.
    + intros c Hc. rewrite Hother by (intros k Hk; apply Hc; now right).
      unfold set_col. cbn [cols]. apply lookup_assign_other.
      apply Hc. now left.
Qed.

(** X1.  [create_lag_features] on a frame that has the target column, for
    any list of lag periods: the run succeeds and keeps the rows, the target
    and every column that is not named like one of the lag columns; the
    column [<target>_lag_<k>] has the length of the target column, is missing
    in its first [k] rows and holds in row [i >= k] the target's value of row
    [i - k]. *)
Theorem lag_columns_shift_the_target (df : frame) (target : string)
  (v : column) (lags : list nat) :
  lookup target (cols df) = Some v ->
  exists df',
    create_lag_features df (One target) lags = Ok df'
    /\ nrows df' = nrows df
    /\ lookup target (cols df') = Some v
    /\ (forall c, (forall k, In k lags -> c <> target +++ "_lag_" +++ str k) ->
          lookup c (cols df') = lookup c (cols df))
    /\ forall k, In k lags ->
         exists lagged,
           lookup (target +++ "_lag_" +++ str k) (cols df') = Some lagged
           /\ length lagged = length v
           /\ forall i, (i < length v)%nat ->
                nth i lagged NaN
                = if (i <? k)%nat then NaN else nth (i - k) v NaN.
Proof.
  intros Hv. destruct (lag_loop target v lags df Hv)
    as (df' & Hrun & Hn & Ht & Hlag & Hother).
  exists df'. unfold create_lag_features. cbn [as_list foldM].
  rewrite Hrun. cbn [bind]. repeat split; auto.
  intros k Hk. exists (shift k v). split; [now apply Hlag|].
  split; [apply shift_length|]. intros i Hi. now apply shift_nth.
Qed.

Lemma lag_columns_shift_the_target_witness :
  lookup "cpu" (cols (Frame 3 [("cpu", [Num 1; Num 2; Num 3])]))
  = Some [Num 1; Num 2; Num 3]
  /\ exists df',
       create_lag_features (Frame 3 [("cpu", [Num 1; Num 2; Num 3])])
                           (One "cpu") [1%nat] = Ok df'
       /\ lookup "cpu_lag_1" (cols df') = Some [NaN; Num 1; Num 2].
Proof.
  split; [reflexivity|].
  destruct (lag_columns_shift_the_target
              (Frame 3 [("cpu", [Num 1; Num 2; Num 3])]) "cpu"
              [Num 1; Num 2; Num 3] [1%nat] eq_refl)
    as (df' & Hrun & _).
  exists df'. split; [exact Hrun|].
  vm_compute in Hrun. injection Hrun as <-. reflexivity.
Defined.

(** ** The coercion of the feature matrix *)

Lemma coerce_column_float `{L : Lib} (v v' : column) :
  coerce_column v = Ok v' ->
  forallb is_float v' = true
  /\ length v' = length v
  /\ (In NaN v' -> v' = v).
Proof.
  unfold coerce_column, dtype_of. intros H.
  destruct (forallb is_float v) eqn:Hf.
  { cbn [bind] in H. inv_ok H. auto. }
  destruct (forallb is_time v) eqn:Ht.
  { cbn [bind] in H. inv_ok H. rewrite length_map.
    rewrite forallb_forall in Ht.
    split; [|split; [reflexivity|]].
    - apply forallb_forall. intros c Hc. apply in_map_iff in Hc
        as (c0 & <- & Hc0). apply Ht in Hc0. now destruct c0.
    - intros Hin. apply in_map_iff in Hin as (c0 & E & Hc0).
      apply Ht in Hc0. now destruct c0. }
  destruct (forallb is_float_or_str v) eqn:Hs; [|discriminate].
  cbn [bind] in H. inv_ok H. rewrite !length_map.
  rewrite forallb_forall in Hs.
  split; [|split; [reflexivity|]].
  - apply forallb_forall. intros c Hc. rewrite map_map in Hc.
    apply in_map_iff in Hc as (c0 & <- & Hc0). apply Hs in Hc0.
    destruct c0; try discriminate; try reflexivity.
    cbn [to_numeric_cell]. now destruct (parse_number s).
  - intros Hin. rewrite map_map in Hin.
    apply in_map_iff in Hin as (c0 & E & Hc0). apply Hs in Hc0.
    destruct c0; try discriminate.
    cbn [to_numeric_cell] in E. now destruct (parse_number s).
Qed.

Lemma coerce_columns_lookup `{L : Lib} (l cs : list (string * column)) :
  mapM (fun kv => v <- coerce_column (snd kv) ;; Ok (fst kv, v)) l = Ok cs ->
  map fst cs = map fst l
  /\ forall c v', lookup c cs = Some v' ->
       exists v, lookup c l = Some v /\ coerce_column v = Ok v'.
Proof.
  revert cs. induction l as [|[k v] l IH]; intros cs H; cbn [mapM] in H.
  - inv_ok H. split; [reflexivity|]. intros c v' Hc. discriminate.
  - apply bind_Ok in H as (kv & Hkv & H).
    apply bind_Ok in Hkv as (w & Hw & Hkv). injection Hkv as <-.
    apply bind_Ok in H as (rest & Hrest & H). injection H as <-.
    destruct (IH _ Hrest) as [Hnames Hcols]. cbn [map fst snd] in *.
    split; [now rewrite Hnames|].
    intros c v' Hc. cbn [lookup] in *.
    destruct (String.eqb k c).
    + injection Hc as <-. eauto.
    + now apply Hcols.
Qed.

(** X2.  The matrix [rf_predict.py] hands to the scaler after the loop over
    the non-numeric columns: the rows and the column names are those of the
    matrix before, every cell is a float, and a missing value is left only
    in a column that the loop did not touch. *)
Theorem coerced_matrix_is_numeric `{L : Lib} (X X' : frame) :
  coerce_non_numeric X = Ok X' ->
  nrows X' = nrows X
  /\ columns X' = columns X
  /\ forall c v', lookup c (cols X') = Some v' ->
       forallb is_float v' = true
       /\ exists v, lookup c (cols X) = Some v
                    /\ length v' = length v
                    /\ (In NaN v' -> v' = v).
Proof.
  unfold coerce_non_numeric. intros H. inv_bind H. inv_ok H.
  apply coerce_columns_lookup in E as [Hnames Hcols].
  cbn [nrows cols]. split; [reflexivity|]. split; [exact Hnames|].
  intros c v' Hc. apply Hcols in Hc as (v & Hv & Hco).
  apply coerce_column_float in Hco as (Hf & Hlen & Hnan).
  split; [exact Hf|]. exists v. auto.
Qed.

Lemma coerced_matrix_is_numeric_witness :
  coerce_non_numeric (L := Samples.stub_lib)
    (Frame 2 [("seen", [Time 60; Time 120]); ("state", [Str "3.5"; NaN])])
  = Ok (Frame 2 [("seen", [Num 60; Num 120]); ("state", [Num 3.5; Num 0])])
  /\ columns (Frame 2 [("seen", [Num 60; Num 120]);
                       ("state", [Num 3.5; Num 0])])
     = columns (Frame 2 [("seen", [Time 60; Time 120]);
                         ("state", [Str "3.5"; NaN])]).
Proof.
  split; [vm_compute; reflexivity|].
  apply (coerced_matrix_is_numeric (L := Samples.stub_lib)).
  vm_compute. reflexivity.
Defined.

(** ** The feature array of [future_predict.py] *)

(** X3.  An entry of the feature array is a number whatever the current row
    holds under the feature name; it is missing in one case only, a
    sequence whose first element is missing. *)
Theorem feature_entry_is_a_number `{L : Lib} (row : frame)
  (feature : string) :
  (exists q, FuturePredict.feature_entry row feature = Num q)
  \/ (FuturePredict.feature_entry row feature = NaN
      /\ exists l rest,
           lookup feature (cols row) = Some (Seq (NaN :: l) :: rest)).
Proof.
  unfold FuturePredict.feature_entry.
  destruct (has_col feature row); [|left; eauto].
  unfold get_col. destruct (lookup feature (cols row)) as [v|];
    [|left; cbn; eauto].
  cbn [bind]. destruct v as [|value rest]; [left; cbn; eauto|].
  cbn [iloc nth_error bind].
  destruct value as [q| |s|t|l]; cbn; try (left; eauto; fail).
  destruct l as [|x l]; [left; eauto|].
  destruct x as [q| |s|t|l']; cbn; try (left; eauto; fail).
  - right. eauto.
  - destruct (parse_number s); left; eauto.
Qed.

(** ** The wrapper [predict_with_xgb] of [predict.py] *)

(** X4.  [predict_with_xgb] returns predictions only as the regressor's
    output on the scaler's output on the reconciled selection: the feature
    columns selected from the frame, then the names the scaler expects (the
    feature columns themselves when it has none) in their order, each with
    the selected column of that name or with zeros. *)
Theorem predict_with_xgb_pipeline (m : model) (sc : scaler) (df : frame)
  (feature_cols : target_cols) (y_pred : list Q) :
  Predict.predict_with_xgb (Some m) (Some sc) df feature_cols = Some y_pred ->
  exists X X_scaled,
    select (as_list feature_cols) df = Ok X
    /\ transform sc
         (OfFrame (spec_reconcile
                     match feature_names_in_ sc with
                     | Some names => names
                     | None => as_list feature_cols
                     end X)) = Ok X_scaled
    /\ predict m X_scaled = Ok y_pred.
Proof.
  unfold Predict.predict_with_xgb. intros H.
  destruct (select (as_list feature_cols) df) as [X|e] eqn:HX;
    [|discriminate].
  cbn [bind] in H. rewrite predict_reconcile_spec in H. cbn [bind] in H.
  match type of H with
  | context [transform sc ?i] => destruct (transform sc i) as [Xs|e] eqn:HT
  end; [|discriminate].
  cbn [bind] in H. destruct (predict m Xs) as [y|e] eqn:HP; [|discriminate].
  injection H as <-. eauto.
Qed.

Lemma predict_with_xgb_pipeline_witness :
  Predict.predict_with_xgb (Some (Samples.constant_model 5))
    (Some (Samples.stub_scaler ["load"])) Samples.plain_frame (One "cpu")
  = Some [5]
  /\ exists X X_scaled,
       select ["cpu"] Samples.plain_frame = Ok X
       /\ transform (Samples.stub_scaler ["load"])
            (OfFrame (spec_reconcile ["load"] X)) = Ok X_scaled
       /\ predict (Samples.constant_model 5) X_scaled = Ok [5].
Proof.
  split; [vm_compute; reflexivity|].
  apply (predict_with_xgb_pipeline (Samples.constant_model 5)
           (Samples.stub_scaler ["load"]) Samples.plain_frame (One "cpu")).
  vm_compute. reflexivity.
Defined.

Lemma select_cols_absent (names : list string) (c : string) l :
  In c names -> lookup c l = None ->
  exists e, select_cols names l = Raise e.
Proof.
  induction names as [|n names IH]; intros Hin Hc; [destruct Hin|].
  cbn [select_cols]. destruct (lookup n l) eqn:Hn.
  - destruct Hin as [->|Hin]; [congruence|].
    destruct (IH Hin Hc) as (e & ->). cbn [bind]. eauto.
  - eauto.
Qed.

(** X5.  A feature column the frame does not have makes [predict_with_xgb]
    return [None], whatever the scaler expects: the selection raises before
    the reconciler could add the column. *)
Theorem predict_with_xgb_absent_column (m : option model) (sc : option scaler)
  (df : frame) (feature_cols : target_cols) (c : string) :
  In c (as_list feature_cols) -> has_col c df = false ->
  Predict.predict_with_xgb m sc df feature_cols = None.
Proof.
  intros Hin Hc. unfold Predict.predict_with_xgb.
  destruct m as [m|]; [|reflexivity]. destruct sc as [sc|]; [|reflexivity].
  apply mem_lookup in Hc.
  destruct (select_cols_absent _ _ _ Hin Hc) as (e & He).
  unfold select. now rewrite He.
Qed.

Lemma predict_with_xgb_absent_column_witness :
  In "load" (as_list (Many ["cpu"; "load"]))
  /\ has_col "load" Samples.plain_frame = false
  /\ Predict.predict_with_xgb (Some (Samples.constant_model 5))
       (Some (Samples.stub_scaler ["load"])) Samples.plain_frame
       (Many ["cpu"; "load"]) = None.
Proof.
  split; [simpl; auto|]. split; [reflexivity|].
  apply (predict_with_xgb_absent_column _ _ _ _ "load");
    [simpl; auto | reflexivity].
Defined.

(** ** The feature matrix of [make_predictions] without feature names *)

Lemma mem_filter (p : string -> bool) (c : string) (l : list string) :
  mem c (filter p l) = p c && mem c l.
Proof.
  induction l as [|x l IH]; cbn [filter mem existsb].
  - now rewrite andb_false_r.
  - destruct (p x) eqn:Hx; cbn [existsb]; fold (mem c (filter p l));
      fold (mem c l); rewrite IH.
    + destruct (String.eqb_spec c x) as [->|]; [now rewrite Hx|reflexivity].
    + destruct (String.eqb_spec c x) as [->|];
        [now rewrite Hx | reflexivity].
Qed.

Lemma drop_filter_columns (p : string -> bool) (df : frame) :
  columns (drop (filter p (columns df)) df)
  = filter (fun c => negb (p c)) (columns df).
Proof.
  unfold drop, columns. cbn [cols].
  assert (forall names (l : list (string * column)),
            (forall kv, In kv l -> mem (fst kv) names = true) ->
            map fst (filter (fun kv => negb (mem (fst kv) (filter p names))) l)
            = filter (fun c => negb (p c)) (map fst l)) as Hgen.
  { intros names l. induction l as [|kv l IH]; intros Hall; [reflexivity|].
    cbn [filter map]. rewrite mem_filter, (Hall kv) by now left.
    rewrite andb_true_r. destruct (p (fst kv)); cbn [negb map];
      rewrite IH by (intros; apply Hall; now right); reflexivity. }
  apply Hgen. intros kv Hkv. apply mem_In. now apply in_map.
Qed.

(** X6.  When the scaler has no [feature_names_in_], the matrix
    [make_predictions] builds keeps, in their order, exactly the columns
    whose name is neither in [target_vars] nor starts with [time_]; so the
    column of [target_var] itself is a feature whenever [target_vars] does
    not list it. *)
Theorem unnamed_feature_matrix_columns `{L : Lib} (sc : scaler) (df : frame)
  (target_vars : list string) (X : frame) :
  feature_names_in_ sc = None ->
  RfPredict.feature_matrix sc df target_vars = Ok X ->
  nrows X = nrows df
  /\ columns X
     = filter (fun col => negb (mem col target_vars
                                || RfPredict.startswith "time_" col))
              (columns df)
  /\ forall target_var,
       has_col target_var df = true ->
       mem target_var target_vars = false ->
       RfPredict.startswith "time_" target_var = false ->
       has_col target_var X = true.
Proof.
  intros Hnames H. unfold RfPredict.feature_matrix in H. rewrite Hnames in H.
  cbn [bind] in H. unfold coerce_non_numeric in H. inv_bind H. inv_ok H.
  apply coerce_columns_lookup in E as [Hc _].
  fold (columns (drop (filter (fun col => mem col target_vars
                                          || RfPredict.startswith "time_" col)
                              (columns df)) df)) in Hc.
  rewrite drop_filter_columns in Hc. unfold columns at 1. cbn [nrows cols].
  split; [reflexivity|]. split; [exact Hc|].
  intros target_var Hhas Hmem Hpre. unfold has_col in *.
  unfold columns at 1. cbn [cols]. rewrite Hc.
  rewrite mem_filter, Hmem, Hpre, Hhas. reflexivity.
Qed.

Lemma unnamed_feature_matrix_columns_witness :
  feature_names_in_ Cases.unnamed_scaler = None
  /\ RfPredict.feature_matrix (L := Samples.stub_lib) Cases.unnamed_scaler
       Cases.record RfPredict.default_target_vars
     = Ok (Frame 1 [("cpu", [Num 3]); ("load", [Num 1])])
  /\ columns (Frame 1 [("cpu", [Num 3]); ("load", [Num 1])])
     = filter (fun col => negb (mem col RfPredict.default_target_vars
                                || RfPredict.startswith "time_" col))
              (columns Cases.record).
Proof.
  split; [reflexivity|]. split; [vm_compute; reflexivity|].
  apply (unnamed_feature_matrix_columns (L := Samples.stub_lib)
           Cases.unnamed_scaler Cases.record RfPredict.default_target_vars);
    vm_compute; reflexivity.
Defined.

(** ** The pattern tables of the forecaster *)

Lemma sum_scale (l : list Q) (m : Q) :
  sum (map (fun x => x / m) l) == sum l / m.
Proof.
  induction l as [|x l IH]; cbn [map sum fold_right].
  - unfold Qdiv. ring.
  - fold (sum (map (fun x => x / m) l)). fold (sum l). rewrite IH.
    unfold Qdiv. ring.
Qed.

(** X7.  [pattern / pattern.mean()]: the factors of a normalised pattern
    table keep the keys of the table and average to 1, when the mean of the
    table is not 0. *)
Theorem normalised_pattern_mean (p : RfPredict.pattern) :
  ~ mean (map snd p) == 0 ->
  map fst (RfPredict.normalise p) = map fst p
  /\ mean (map snd (RfPredict.normalise p)) == 1.
Proof.
  intros Hm. unfold RfPredict.normalise. rewrite !map_map. cbn [fst snd].
  split; [reflexivity|].
  unfold mean at 1. rewrite length_map.
  rewrite <- (map_map snd (fun x => x / mean (map snd p))), sum_scale.
  unfold mean in *. rewrite length_map in *.
  set (s := sum (map snd p)) in *. set (n := of_nat (length p)) in *.
  assert (~ n == 0) as Hn.
  { intros E. apply Hm. rewrite E. unfold Qdiv. change (/ 0) with 0. ring. }
  assert (~ s == 0) as Hs.
  { intros E. apply Hm. rewrite E. unfold Qdiv. ring. }
  field. split; assumption.
Qed.

Lemma normalised_pattern_mean_witness :
  ~ mean (map snd [(0, 10); (1, 30)]) == 0
  /\ mean (map snd (RfPredict.normalise [(0, 10); (1, 30)])) == 1.
Proof.
  split; [vm_compute; discriminate|].
  apply (normalised_pattern_mean [(0, 10); (1, 30)]).
  vm_compute. discriminate.
Defined.

(** ** The forecaster of [rf_predict.py] on a short history *)

Lemma foldM_In {A S : Type} (f : S -> A -> res S) (l : list A) (s s' : S)
  (a : A) :
  foldM f l s = Ok s' -> In a l -> exists s0 s1, f s0 a = Ok s1.
Proof.
  revert s. induction l as [|x l IH]; intros s H Hin; [destruct Hin|].
  cbn [foldM] in H. apply bind_Ok in H as (s1 & Hs1 & H).
  destruct Hin as [->|Hin]; eauto.
Qed.

Lemma index_neg_Ok {A : Type} (l : list A) (k : nat) (a : A) :
  index_neg l k = Ok a -> (1 <= k <= length l)%nat.
Proof.
  unfold index_neg. destruct k as [|k]; [discriminate|].
  destruct (Nat.leb_spec (S k) (length l)); [lia | discriminate].
Qed.

(** Before the first prediction the lag features are read off the history,
    the one with lag [lag] off its row [-lag]. *)
Lemma first_lag_needs_history `{L : Lib} (sd : Q) (hist : list Q)
  (target_var : string) (st st' : frame * rng) (lag : nat) :
  (2 <= lag)%nat ->
  RfPredict.update_lag sd hist [] 0 target_var st lag = Ok st' ->
  (lag <= length hist)%nat.
Proof.
  intros Hlag. unfold RfPredict.update_lag, RfPredict.lag_feature.
  destruct st as [fd g]. cbn [length].
  destruct (Nat.ltb_spec 0 lag) as [_|Ha]; [|lia].
  destruct (Nat.eqb_spec lag 1) as [Ha|_]; [lia|]. cbn [andb].
  rewrite Nat.sub_0_r. intros H.
  destruct (index_neg hist lag) as [v|e] eqn:Hv; [|discriminate].
  apply index_neg_Ok in Hv. lia.
Qed.

Lemma length_argsort (keys : column) : length (argsort keys) = length keys.
Proof.
  rewrite (Permutation_length (argsort_perm keys)). apply length_seq.
Qed.

(** Every column of the working frame has as many cells as the time column
    of the history. *)
Lemma working_frame_lengths `{L : Lib} (df w : frame) (tc : column) :
  lookup "time_dt" (cols df) = Some tc ->
  RfPredict.working_frame df "time_dt" = Ok w ->
  forall c v, lookup c (cols w) = Some v -> length v = length tc.
Proof.
  intros Htc H c v Hv. unfold RfPredict.working_frame in H.
  pose proof (lookup_Some_mem _ _ _ Htc) as Hhas.
  fold (columns df) in Hhas. fold (has_col "time_dt" df) in Hhas.
  rewrite Hhas in H. unfold get_col in H at 1. rewrite Htc in H.
  cbn [bind] in H. apply bind_Ok in H as (w0 & Hw0 & H).
  apply bind_Ok in Hw0 as (times & Htimes & Hw0). injection Hw0 as <-.
  assert (has_col "time_dt" (set_col "time_dt" times df) = true) as Hhas'.
  { unfold has_col, columns, set_col. cbn [cols].
    apply (lookup_Some_mem _ times). apply lookup_assign_same. }
  rewrite Hhas' in H. unfold sort_values in H.
  rewrite get_col_set_col_same in H. cbn [bind] in H. injection H as <-.
  cbn [cols] in Hv. rewrite lookup_map_cols in Hv.
  destruct (lookup c _); [|discriminate]. cbn in Hv. injection Hv as <-.
  unfold take. rewrite length_map, length_argsort.
  now apply mapM_length in Htimes.
Qed.

Lemma first_step_needs_history `{L : Lib} (m : model) (sc : scaler)
  (w : frame) (hist : list Q) (a : RfPredict.analysis)
  (target_var time_col : string) (st st' : RfPredict.loop_state) (ft : cell) :
  RfPredict.all_predictions st = [] ->
  RfPredict.step m sc w hist a target_var time_col st (0%nat, ft) = Ok st' ->
  (24 <= length hist)%nat.
Proof.
  intros Hp H. unfold RfPredict.step in H. rewrite Hp in H.
  apply bind_Ok in H as (fd & _ & H).
  apply bind_Ok in H as (fdg & Hlags & _).
  apply (foldM_In _ _ _ _ 24%nat) in Hlags as (s0 & s1 & Hlag);
    [|cbn; tauto].
  apply first_lag_needs_history in Hlag; [exact Hlag | lia].
Qed.

(** X8.  [predict_future_values] of [rf_predict.py] on a history whose time
    column has fewer than 24 cells, asked for at least one period: the run
    never returns predictions, because the first step reads the lag-24
    feature off row [-24] of the history; on a frame of two rows or more it
    ends in an exception. *)
Theorem short_history_never_completes `{L : Lib} (m : model) (sc : scaler)
  (df : frame) (n : nat) (target_var : string) (g : rng) (tc : column) :
  lookup "time_dt" (cols df) = Some tc ->
  (length tc < 24)%nat -> (1 <= n)%nat ->
  (forall r, RfPredict.predict_future_values (Some m) (Some sc) df n
               target_var g <> Ok (Some r))
  /\ ((2 <= nrows df)%nat ->
      exists e, RfPredict.predict_future_values (Some m) (Some sc) df n
                  target_var g = Raise e).
Proof.
  intros Htc Hshort Hn.
  assert (forall r, RfPredict.predict_future_values (Some m) (Some sc) df n
                      target_var g <> Ok (Some r)) as Hnever.
  { intros r H. unfold RfPredict.predict_future_values in H.
    apply bind_Ok in H as (o & H & Ho).
    destruct o as [[out st]|]; [clear Ho|discriminate].
    unfold RfPredict.forecast in H.
    apply bind_Ok in H as (w & Hw & H).
    apply bind_Ok in H as (created & Hcreated & H).
    destruct created as [future_df|]; [|discriminate].
    apply bind_Ok in H as (future_df' & Hfeat & H).
    apply bind_Ok in H as (hist & Hhist & H).
    apply bind_Ok in H as (a & _ & H).
    apply bind_Ok in H as (times & Htimes & H).
    apply bind_Ok in H as (st' & Hloop & _).
    apply create_future_timepoints_inv in Hcreated
      as (_ & _ & tc' & times' & _ & _ & ->).
    apply rf_create_time_features_time_col in Hfeat
      as (ftc & ftimes & Hftc & Hft & Hl & _); [|reflexivity].
    injection Hftc as <-. rewrite to_datetime_future_times in Hft.
    injection Hft as <-. unfold get_col in Htimes. rewrite Hl in Htimes.
    injection Htimes as <-.
    destruct n as [|n]; [lia|].
    cbn [seq map length combine foldM] in Hloop.
    apply bind_Ok in Hloop as (st1 & Hstep & _).
    apply first_step_needs_history in Hstep; [|reflexivity].
    unfold RfPredict.target_values in Hhist.
    apply bind_Ok in Hhist as (v & Hv & Hhist).
    apply mapM_length in Hhist. unfold get_col in Hv.
    destruct (lookup target_var (cols w)) as [v'|] eqn:Hlook;
      [|discriminate].
    injection Hv as <-.
    pose proof (working_frame_lengths _ _ _ Htc Hw _ _ Hlook). lia. }
  split; [exact Hnever|]. intros Hrows.
  destruct (RfPredict.predict_future_values (Some m) (Some sc) df n
              target_var g) as [[r|]|e] eqn:Hrun.
  - now destruct (Hnever r).
  - exfalso. unfold RfPredict.predict_future_values in Hrun.
    apply bind_Ok in Hrun as (o & H & Ho).
    destruct o as [p|]; [discriminate|]. clear Ho.
    unfold RfPredict.forecast in H.
    apply bind_Ok in H as (w & Hw & H).
    apply bind_Ok in H as (created & Hcreated & H).
    destruct created as [future_df|].
    + do 5 (apply bind_Ok in H as (? & _ & H)).
      apply bind_Ok in H as (? & _ & H). discriminate.
    + apply create_future_timepoints_None in Hcreated.
      apply working_frame_shape in Hw as [Hwn Hwc].
      rewrite Hwn, Hwc in Hcreated.
      pose proof (lookup_Some_mem _ _ _ Htc) as Hhas.
      fold (columns df) in Hhas. fold (has_col "time_dt" df) in Hhas.
      destruct Hcreated; [congruence | lia].
  - eauto.
Qed.

Lemma short_history_never_completes_witness :
  lookup "time_dt" (cols (Samples.series 23 3600 Samples.ramp))
  = Some (map (fun i => Time (inject_Z (Z.of_nat i * 3600))) (seq 0 23))
  /\ (length (map (fun i => Time (inject_Z (Z.of_nat i * 3600))) (seq 0 23))
      < 24)%nat
  /\ (1 <= 1)%nat
  /\ forall r,
       RfPredict.predict_future_values (L := Samples.stub_lib)
         (Some (Samples.constant_model 5))
         (Some (Samples.stub_scaler ["cpu_lag_1"]))
         (Samples.series 23 3600 Samples.ramp) 1 "cpu" tt
       <> Ok (Some r).
Proof.
  split; [reflexivity|]. split; [vm_compute; lia|]. split; [lia|].
  apply (short_history_never_completes (L := Samples.stub_lib)
           (Samples.constant_model 5) (Samples.stub_scaler ["cpu_lag_1"])
           (Samples.series 23 3600 Samples.ramp) 1 "cpu" tt
           (map (fun i => Time (inject_Z (Z.of_nat i * 3600))) (seq 0 23)));
    [reflexivity | vm_compute; lia | lia].
Defined.

(** ** The forecaster of [future_predict.py] *)

Lemma first_Ok {A : Type} (l : list A) (a : A) :
  first l = Ok a -> exists r, l = a :: r.
Proof. destruct l as [|x r]; [discriminate|]. intros H. inv_ok H. eauto. Qed.

(** What a step of the loop went through. *)
Lemma v2_step_chain `{L : Lib} (m : model) (sc : scaler)
  (expected : list string) (target_var time_col : string)
  (st st' : FuturePredict.loop_state) (ft : cell) :
  FuturePredict.step m sc expected target_var time_col st ft = Ok st' ->
  exists new_row w1 w2 w3 X_scaled pred ps,
    FuturePredict.copy_new_row (nrows (FuturePredict.working_df st)) time_col
      new_row (append_row time_col ft (FuturePredict.working_df st)) = Ok w1
    /\ create_lag_features w1 (One target_var) default_lags = Ok w2
    /\ create_rolling_features w2 (One target_var) default_windows = Ok w3
    /\ transform sc
         (OfArray [map (FuturePredict.feature_entry (last_row w3)) expected])
       = Ok X_scaled
    /\ predict m X_scaled = Ok (pred :: ps)
    /\ st' = {| FuturePredict.working_df :=
                  set_cell (nrows (FuturePredict.working_df st)) target_var
                           (Num pred) w3;
                FuturePredict.future_predictions :=
                  FuturePredict.future_predictions st ++ [pred] |}.
Proof.
  unfold FuturePredict.step. intros H.
  apply bind_Ok in H as (new_row & _ & H).
  apply bind_Ok in H as (w1 & Hw1 & H).
  apply bind_Ok in H as (w2 & Hw2 & H).
  apply bind_Ok in H as (w3 & Hw3 & H).
  apply bind_Ok in H as (X & HX & H).
  apply bind_Ok in H as (ps & Hps & H).
  apply bind_Ok in H as (pred & Hpred & H).
  apply first_Ok in Hpred as (r & ->). injection H as <-.
  exists new_row, w1, w2, w3, X, pred, r. auto 10.
Qed.

Lemma float_is_float `{L : Lib} (c x : cell) :
  FuturePredict.float c = Ok x -> is_float x = true.
Proof.
  destruct c as [q| |s|t|l]; cbn; try discriminate.
  - intros H. now inv_ok H.
  - intros H. now inv_ok H.
  - destruct (parse_number s); [|discriminate]. intros H. now inv_ok H.
Qed.

Lemma feature_entry_float `{L : Lib} (row : frame) (feature : string) :
  is_float (FuturePredict.feature_entry row feature) = true.
Proof.
  unfold FuturePredict.feature_entry.
  destruct (has_col feature row); [|reflexivity].
  match goal with |- is_float (match ?c with _ => _ end) = _ =>
    destruct c as [x|e] eqn:Hc end; [|reflexivity].
  apply bind_Ok in Hc as (v & _ & Hc). apply bind_Ok in Hc as (value & _ & Hc).
  unfold FuturePredict.convert_value in Hc.
  destruct value as [q| |s|t|l]; try (now inv_ok Hc);
    try (now apply float_is_float in Hc).
  destruct l as [|y l]; [now inv_ok Hc | now apply float_is_float in Hc].
Qed.

Lemma v2_loop_outputs `{L : Lib} (m : model) (sc : scaler)
  (expected : list string) (target_var time_col : string)
  (fts : list cell) (st st' : FuturePredict.loop_state) :
  foldM (FuturePredict.step m sc expected target_var time_col) fts st
  = Ok st' ->
  exists preds,
    FuturePredict.future_predictions st'
    = FuturePredict.future_predictions st ++ preds
    /\ length preds = length fts
    /\ Forall (fun p => exists row X_scaled ps,
                 length row = length expected
                 /\ forallb is_float row = true
                 /\ transform sc (OfArray [row]) = Ok X_scaled
                 /\ predict m X_scaled = Ok (p :: ps))
              preds.
Proof.
  revert st. induction fts as [|ft fts IH]; intros st H; cbn [foldM] in H.
  - inv_ok H. exists []. rewrite app_nil_r. repeat split. constructor.
  - apply bind_Ok in H as (st1 & Hstep & H).
    apply v2_step_chain in Hstep
      as (new_row & w1 & w2 & w3 & X & pred & ps & _ & _ & _ & HX & Hp & ->).
    apply IH in H as (preds & Hps & Hlen & Hall). cbn in Hps.
    exists (pred :: preds). rewrite Hps, <- app_assoc. cbn [app length].
    split; [reflexivity|]. split; [now rewrite Hlen|].
    constructor; [|exact Hall].
    exists (map (FuturePredict.feature_entry (last_row w3)) expected), X, ps.
    split; [apply length_map|]. split; [|auto].
    apply forallb_forall. intros c Hc. apply in_map_iff in Hc as (f & <- & _).
    apply feature_entry_float.
Qed.

(** X9.  A completed run of [predict_future_values] of
    [future_predict.py] returns the future frame with one value per row in
    the target column; each value is the regressor's first output on the
    scaler's output on a one-row array of floats, one per expected feature,
    and is emitted as it is: nothing clamps or adjusts it. *)
Theorem v2_predictions_are_model_outputs `{L : Lib} (m : model) (sc : scaler)
  (historical_df future_df : frame) (target_var : string) (out : frame) :
  FuturePredict.predict_future_values (Some m) (Some sc) historical_df
    future_df target_var = Ok (Some out) ->
  exists expected preds,
    (forall names, feature_names_in_ sc = Some names -> expected = names)
    /\ nrows out = nrows future_df
    /\ lookup target_var (cols out) = Some (map Num preds)
    /\ length preds = nrows future_df
    /\ Forall (fun p => exists row X_scaled ps,
                 length row = length expected
                 /\ forallb is_float row = true
                 /\ transform sc (OfArray [row]) = Ok X_scaled
                 /\ predict m X_scaled = Ok (p :: ps))
              preds.
Proof.
  unfold FuturePredict.predict_future_values. intros H.
  apply bind_Ok in H as (tc & _ & H).
  apply bind_Ok in H as (times & _ & H).
  apply bind_Ok in H as (fc & _ & H).
  apply bind_Ok in H as (ftimes & _ & H).
  apply bind_Ok in H as (dup & _ & H).
  apply bind_Ok in H as (w0 & _ & H).
  apply bind_Ok in H as (w1 & _ & H).
  apply bind_Ok in H as (w2 & _ & H).
  apply bind_Ok in H as (w3 & _ & H).
  apply bind_Ok in H as (w4 & _ & H).
  apply bind_Ok in H as (st & Hloop & H).
  apply bind_Ok in H as (result_df & Hset & H). injection H as <-.
  apply v2_loop_outputs in Hloop as (preds & Hps & _ & Hall).
  cbn [FuturePredict.future_predictions app] in Hps. rewrite Hps in Hset.
  unfold set_list in Hset.
  destruct (Nat.eqb_spec (length (map Num preds))
              (nrows (set_col "time_dt" ftimes future_df)))
    as [Hlen|]; [|discriminate].
  injection Hset as <-. rewrite length_map in Hlen. cbn [nrows set_col] in *.
  eexists _, preds. split; [|split; [reflexivity|split; [|split]]];
    [| apply lookup_assign_same | exact Hlen | exact Hall].
  intros names Hnames. now rewrite Hnames.
Qed.

Lemma v2_predictions_are_model_outputs_witness :
  FuturePredict.predict_future_values (L := Samples.stub_lib)
    (Some (Samples.constant_model 5))
    (Some (Samples.stub_scaler ["cpu_lag_1"]))
    Samples.day Cases.next_hours "cpu" = Ok (Some Cases.v2_day_run)
  /\ lookup "cpu" (cols Cases.v2_day_run) = Some [Num 5; Num 5]
  /\ exists (expected : list string) (preds : list Q),
       nrows Cases.v2_day_run = nrows Cases.next_hours
       /\ lookup "cpu" (cols Cases.v2_day_run) = Some (map Num preds)
       /\ length expected = 1%nat.
Proof.
  split; [vm_compute; reflexivity|]. split; [vm_compute; reflexivity|].
  destruct (v2_predictions_are_model_outputs (L := Samples.stub_lib)
              (Samples.constant_model 5) (Samples.stub_scaler ["cpu_lag_1"])
              Samples.day Cases.next_hours "cpu" Cases.v2_day_run)
    as (expected & preds & Hexp & Hn & Hcol & _);
    [vm_compute; reflexivity|].
  exists expected, preds. split; [exact Hn|]. split; [exact Hcol|].
  now rewrite (Hexp ["cpu_lag_1"] eq_refl).
Defined.

(** *** The prediction of a step is the lag-1 feature of the next *)

Lemma lookup_map_keyed (g : string -> column -> column) (c : string) l :
  lookup c (map (fun kv => (fst kv, g (fst kv) (snd kv))) l)
  = option_map (g c) (lookup c l).
Proof.
  induction l as [|[k v] l IH]; [reflexivity|].
  cbn [map lookup fst snd]. destruct (String.eqb_spec k c) as [->|];
    [reflexivity | exact IH].
Qed.

Lemma lookup_append_row (c time_col : string) (x : cell) (df : frame) :
  lookup c (cols (append_row time_col x df))
  = option_map (fun v => v ++ [if String.eqb c time_col then x else NaN])
               (lookup c (cols df)).
Proof.
  unfold append_row. cbn [cols].
  apply (lookup_map_keyed
           (fun k v => v ++ [if String.eqb k time_col then x else NaN])).
Qed.

Lemma lookup_set_cell (c c0 : string) (i : nat) (x : cell) (df : frame) :
  lookup c (cols (set_cell i c0 x df))
  = option_map (fun v => if String.eqb c c0 then set_nth i x v else v)
               (lookup c (cols df)).
Proof.
  unfold set_cell. cbn [cols].
  apply (lookup_map_keyed
           (fun k v => if String.eqb k c0 then set_nth i x v else v)).
Qed.

Lemma length_set_nth (i : nat) (x : cell) (v : column) :
  length (set_nth i x v) = length v.
Proof.
  revert i. induction v as [|y v IH]; intros [|i]; cbn; auto.
Qed.

Lemma nth_set_nth_same (i : nat) (x : cell) (v : column) :
  (i < length v)%nat -> nth i (set_nth i x v) NaN = x.
Proof.
  revert i. induction v as [|y v IH]; intros [|i] Hi; cbn in *;
    try lia; auto. apply IH. lia.
Qed.

Lemma nth_set_nth_other (i j : nat) (x : cell) (v : column) :
  i <> j -> nth j (set_nth i x v) NaN = nth j v NaN.
Proof.
  revert i j. induction v as [|y v IH]; intros [|i] [|j] Hij; cbn;
    try congruence; auto.
Qed.

(** Copying the time features into row [idx] leaves the rows, the length of
    every column and every cell of another row. *)
Lemma copy_new_row_inv `{L : Lib} (idx : nat) (time_col : string)
  (new_row w w' : frame) :
  FuturePredict.copy_new_row idx time_col new_row w = Ok w' ->
  nrows w' = nrows w
  /\ forall c v, lookup c (cols w) = Some v ->
       exists v', lookup c (cols w') = Some v'
                  /\ length v' = length v
                  /\ forall i, i <> idx -> nth i v' NaN = nth i v NaN.
Proof.
  unfold FuturePredict.copy_new_row. generalize (columns new_row) as names.
  intros names. revert w. induction names as [|n names IH]; intros w H;
    cbn [foldM] in H.
  - inv_ok H. split; [reflexivity|]. intros c v Hv. eauto.
  - apply bind_Ok in H as (w1 & Hw1 & H). apply IH in H as [Hn Hcols].
    assert (nrows w1 = nrows w
            /\ forall c v, lookup c (cols w) = Some v ->
                 exists v', lookup c (cols w1) = Some v'
                            /\ length v' = length v
                            /\ forall i, i <> idx ->
                                 nth i v' NaN = nth i v NaN) as [Hn1 Hc1].
    { destruct (has_col n w && negb (String.eqb n time_col)).
      - apply bind_Ok in Hw1 as (v0 & _ & Hw1).
        apply bind_Ok in Hw1 as (x & _ & Hw1). injection Hw1 as <-.
        split; [reflexivity|]. intros c v Hv.
        rewrite lookup_set_cell, Hv. cbn [option_map].
        destruct (String.eqb c n).
        + eexists. split; [reflexivity|]. split; [apply length_set_nth|].
          intros i Hi. apply nth_set_nth_other. congruence.
        + eauto.
      - injection Hw1 as <-. split; [reflexivity|]. eauto. }
    split; [congruence|]. intros c v Hv.
    apply Hc1 in Hv as (v1 & Hv1 & Hl1 & Hnth1).
    apply Hcols in Hv1 as (v' & Hv' & Hl' & Hnth').
    exists v'. split; [exact Hv'|]. split; [congruence|].
    intros i Hi. rewrite Hnth', Hnth1 by assumption. reflexivity.
Qed.

(** A completed run of the rolling engineer keeps the rows and every column
    that is not named like a rolling column. *)
Lemma create_rolling_features_inv `{L : Lib} (df df' : frame)
  (target : string) (windows : list nat) :
  create_rolling_features df (One target) windows = Ok df' ->
  nrows df' = nrows df
  /\ forall c, (forall s, c <> target +++ "_rolling_" +++ s) ->
       lookup c (cols df') = lookup c (cols df).
Proof.
  unfold create_rolling_features. cbn [as_list foldM]. intros H.
  apply bind_Ok in H as (df1 & H & E). injection E as <-.
  revert df H. induction windows as [|w windows IH]; intros df H;
    cbn [foldM] in H.
  - inv_ok H. auto.
  - apply bind_Ok in H as (df0 & Hw & H). apply IH in H as [Hn Hc].
    do 8 (apply bind_Ok in Hw as (? & _ & Hw)). injection Hw as <-.
    cbn [nrows set_col] in Hn. split; [exact Hn|].
    intros c Hneq. rewrite Hc by exact Hneq. unfold set_col. cbn [cols].
    rewrite !lookup_assign_other; [reflexivity|..].
    + exact (Hneq ("mean_" +++ str w)).
    + exact (Hneq ("std_" +++ str w)).
    + exact (Hneq ("min_" +++ str w)).
    + exact (Hneq ("max_" +++ str w)).
Qed.

Lemma create_lag_features_inv (df df' : frame) (target : string)
  (v : column) (lags : list nat) :
  lookup target (cols df) = Some v ->
  create_lag_features df (One target) lags = Ok df' ->
  nrows df' = nrows df
  /\ lookup target (cols df') = Some v
  /\ forall k, In k lags ->
       lookup (target +++ "_lag_" +++ str k) (cols df') = Some (shift k v).
Proof.
  intros Hv H. destruct (lag_loop target v lags df Hv)
    as (df0 & Hrun & Hn & Ht & Hlag & _).
  unfold create_lag_features in H. cbn [as_list foldM] in H.
  rewrite Hrun in H. cbn [bind] in H. inv_ok H. auto.
Qed.

Lemma lookup_last_row (c : string) (df : frame) :
  lookup c (cols (last_row df))
  = option_map (fun v => skipn (length v - 1) v) (lookup c (cols df)).
Proof.
  unfold last_row. cbn [cols].
  apply (lookup_map_cols (fun v => skipn (length v - 1) v)).
Qed.

Lemma skipn_last (v : column) :
  v <> [] -> skipn (length v - 1) v = [nth (length v - 1) v NaN].
Proof.
  intros Hv. destruct (exists_last Hv) as (r & x & ->).
  rewrite length_app. cbn [length]. replace (length r + 1 - 1)%nat
    with (length r) by lia.
  rewrite skipn_app, skipn_all, Nat.sub_diag. cbn [skipn app].
  now rewrite app_nth2, Nat.sub_diag by lia.
Qed.

Lemma last_nth_length (v : column) :
  v <> [] -> nth (length v - 1) v NaN = last v NaN.
Proof.
  intros Hv. destruct (exists_last Hv) as (r & x & ->).
  rewrite last_last, length_app. cbn [length].
  rewrite app_nth2 by lia.
  replace (length r + 1 - 1 - length r)%nat with 0%nat by lia. reflexivity.
Qed.

(** One step on a working frame whose target column [col] has one cell per
    row: the row the features are read from holds the last cell of [col] as
    the lag-1 feature, and the step leaves a target column one cell longer
    that ends in the prediction. *)
Lemma v2_step_target `{L : Lib} (m : model) (sc : scaler)
  (expected : list string) (target_var time_col : string)
  (st st' : FuturePredict.loop_state) (ft : cell) (col : column) :
  lookup target_var (cols (FuturePredict.working_df st)) = Some col ->
  length col = nrows (FuturePredict.working_df st) ->
  FuturePredict.step m sc expected target_var time_col st ft = Ok st' ->
  exists row X_scaled pred ps col',
    transform sc (OfArray [map (FuturePredict.feature_entry row) expected])
    = Ok X_scaled
    /\ predict m X_scaled = Ok (pred :: ps)
    /\ FuturePredict.future_predictions st'
       = FuturePredict.future_predictions st ++ [pred]
    /\ (col <> [] ->
        lookup (target_var +++ "_lag_" +++ str 1) (cols row)
        = Some [last col NaN])
    /\ lookup target_var (cols (FuturePredict.working_df st')) = Some col'
    /\ length col' = nrows (FuturePredict.working_df st')
    /\ col' <> []
    /\ last col' NaN = Num pred.
Proof.
  intros Hcol Hlen H.
  apply v2_step_chain in H
    as (new_row & w1 & w2 & w3 & X & pred & ps
        & Hw1 & Hw2 & Hw3 & HX & Hp & ->).
  set (w0 := FuturePredict.working_df st) in *.
  apply copy_new_row_inv in Hw1 as [Hn1 Hc1].
  destruct (Hc1 target_var
              (col ++ [if String.eqb target_var time_col then ft else NaN]))
    as (v1 & Hv1 & Hl1 & Hnth1).
  { rewrite lookup_append_row, Hcol. reflexivity. }
  rewrite length_app in Hl1. cbn [length] in Hl1. cbn [nrows append_row] in Hn1.
  destruct (create_lag_features_inv _ _ _ _ _ Hv1 Hw2) as (Hn2 & Ht2 & Hlag2).
  apply create_rolling_features_inv in Hw3 as [Hn3 Hc3].
  assert (lookup target_var (cols w3) = Some v1) as Ht3.
  { rewrite Hc3; [exact Ht2|]. intros s. name_neq. }
  assert (lookup (target_var +++ "_lag_" +++ str 1) (cols w3)
          = Some (shift 1 v1)) as Hlag3.
  { rewrite Hc3; [apply Hlag2; cbn; tauto|]. intros s. name_neq. }
  exists (last_row w3), X, pred, ps, (set_nth (nrows w0) (Num pred) v1).
  cbn [FuturePredict.working_df FuturePredict.future_predictions].
  split; [exact HX|]. split; [exact Hp|]. split; [reflexivity|].
  split; [|split; [|split; [|split]]].
  - intros Hne. rewrite lookup_last_row, Hlag3. cbn [option_map].
    assert (1 <= length col)%nat as Hpos
      by (destruct col; [congruence | cbn; lia]).
    rewrite skipn_last
      by (intros E; apply (f_equal (@length cell)) in E;
          rewrite shift_length in E; cbn in E; lia).
    rewrite shift_length, shift_nth by (rewrite Hl1; lia).
    rewrite Hl1. replace (length col + 1 - 1)%nat with (length col) by lia.
    destruct (Nat.ltb_spec (length col) 1) as [Hlt|_]; [lia|].
    rewrite Hnth1 by lia. rewrite app_nth1 by lia.
    now rewrite last_nth_length.
  - rewrite lookup_set_cell, Ht3. cbn [option_map].
    now rewrite String.eqb_refl.
  - rewrite length_set_nth. cbn [nrows set_cell]. lia.
  - intros E. apply (f_equal (@length cell)) in E.
    rewrite length_set_nth in E. cbn in E. lia.
  - rewrite <- last_nth_length
      by (intros E; apply (f_equal (@length cell)) in E;
          rewrite length_set_nth in E; cbn in E; lia).
    rewrite length_set_nth, Hl1.
    replace (length col + 1 - 1)%nat with (nrows w0) by lia.
    apply nth_set_nth_same. lia.
Qed.

Lemma feature_entry_Num `{L : Lib} (row : frame) (feature : string) (q : Q)
  (rest : column) :
  lookup feature (cols row) = Some (Num q :: rest) ->
  FuturePredict.feature_entry row feature = Num q.
Proof.
  intros Hf. unfold FuturePredict.feature_entry, has_col, columns, get_col.
  rewrite (lookup_Some_mem _ _ _ Hf), Hf. reflexivity.
Qed.

(** X10.  The recursion of [future_predict.py].  On a working frame whose
    target column has one cell per row, the features of a step are read
    from a row whose lag-1 feature is the last cell of the target column;
    the step writes its prediction there, so in the step that follows the
    lag-1 entry of the feature array is the prediction of the step
    before. *)
Theorem v2_prediction_is_next_lag_1 `{L : Lib} (m : model) (sc : scaler)
  (expected : list string) (target_var time_col : string)
  (st st1 st2 : FuturePredict.loop_state) (ft ft' : cell) (col : column) :
  lookup target_var (cols (FuturePredict.working_df st)) = Some col ->
  length col = nrows (FuturePredict.working_df st) ->
  FuturePredict.step m sc expected target_var time_col st ft = Ok st1 ->
  FuturePredict.step m sc expected target_var time_col st1 ft' = Ok st2 ->
  exists pred1 pred2 row X_scaled ps,
    FuturePredict.future_predictions st1
    = FuturePredict.future_predictions st ++ [pred1]
    /\ FuturePredict.future_predictions st2
       = FuturePredict.future_predictions st1 ++ [pred2]
    /\ FuturePredict.feature_entry row (target_var +++ "_lag_" +++ str 1)
       = Num pred1
    /\ transform sc (OfArray [map (FuturePredict.feature_entry row) expected])
       = Ok X_scaled
    /\ predict m X_scaled = Ok (pred2 :: ps).
Proof.
  intros Hcol Hlen H1 H2.
  destruct (v2_step_target _ _ _ _ _ _ _ _ _ Hcol Hlen H1)
    as (row1 & X1 & pred1 & ps1 & col1
        & _ & _ & Hp1 & _ & Hcol1 & Hlen1 & Hne1 & Hlast1).
  destruct (v2_step_target _ _ _ _ _ _ _ _ _ Hcol1 Hlen1 H2)
    as (row2 & X2 & pred2 & ps2 & col2
        & HX2 & Hpred2 & Hp2 & Hlag & _).
  exists pred1, pred2, row2, X2, ps2. repeat split; try assumption.
  apply (feature_entry_Num _ _ _ []). rewrite Hlag by exact Hne1.
  now rewrite Hlast1.
Qed.

Lemma v2_prediction_is_next_lag_1_witness :
  lookup "cpu" (cols (FuturePredict.working_df Cases.start)) = Some [Num 3]
  /\ length [Num 3] = nrows (FuturePredict.working_df Cases.start)
  /\ FuturePredict.step (L := Samples.stub_lib) (Samples.constant_model 5)
       (Samples.stub_scaler ["cpu_lag_1"]) ["cpu_lag_1"] "cpu" "time_dt"
       Cases.start (Time 3600) = Ok Cases.after_one
  /\ FuturePredict.step (L := Samples.stub_lib) (Samples.constant_model 5)
       (Samples.stub_scaler ["cpu_lag_1"]) ["cpu_lag_1"] "cpu" "time_dt"
       Cases.after_one (Time 7200) = Ok Cases.after_two
  /\ exists pred1 pred2 row X_scaled ps,
       FuturePredict.future_predictions Cases.after_one
       = FuturePredict.future_predictions Cases.start ++ [pred1]
       /\ FuturePredict.future_predictions Cases.after_two
          = FuturePredict.future_predictions Cases.after_one ++ [pred2]
       /\ FuturePredict.feature_entry (L := Samples.stub_lib) row
            ("cpu" +++ "_lag_" +++ str 1) = Num pred1
       /\ transform (Samples.stub_scaler ["cpu_lag_1"])
            (OfArray [map (FuturePredict.feature_entry
                             (L := Samples.stub_lib) row) ["cpu_lag_1"]])
          = Ok X_scaled
       /\ predict (Samples.constant_model 5) X_scaled = Ok (pred2 :: ps).
Proof.
  split; [reflexivity|]. split; [reflexivity|].
  split; [vm_compute; reflexivity|]. split; [vm_compute; reflexivity|].
  apply (v2_prediction_is_next_lag_1 (L := Samples.stub_lib)
           (Samples.constant_model 5) (Samples.stub_scaler ["cpu_lag_1"])
           ["cpu_lag_1"] "cpu" "time_dt" Cases.start Cases.after_one
           Cases.after_two (Time 3600) (Time 7200) [Num 3]);
    vm_compute; reflexivity.
Defined.

(** ** The calendar engineers *)

Lemma lookup_app (c : string) (l1 l2 : list (string * column)) :
  lookup c (l1 ++ l2)
  = match lookup c l1 with Some v => Some v | None => lookup c l2 end.
Proof.
  induction l1 as [|[k v] l1 IH]; [reflexivity|].
  cbn [app lookup]. destruct (String.eqb k c); [reflexivity | exact IH].
Qed.

Lemma occurs_day_part (part : string) (hours : column) :
  existsb (fun c => cell_eqb c (Str part))
          (map (fun h => Str (day_part_of h)) hours)
  = existsb (fun h => String.eqb (day_part_of h) part) hours.
Proof.
  induction hours as [|h hours IH]; [reflexivity|].
  cbn [map existsb cell_eqb]. now rewrite IH.
Qed.

Lemma dummy_day_part (part : string) (hours : column) :
  map (fun c => Num (if cell_eqb c (Str part) then 1 else 0))
      (map (fun h => Str (day_part_of h)) hours)
  = indicators part hours.
Proof. unfold indicators. rewrite map_map. reflexivity. Qed.

Ltac frame_norm :=
  repeat match goal with
         | H : context [get_col _ _] |- _ =>
             unfold get_col in H; cbn [cols] in H
         | H : context [lookup _ (_ ++ _)] |- _ => rewrite lookup_app in H
         | H : context [lookup _ (filter _ _)] |- _ =>
             rewrite lookup_filter in H by reflexivity
         | H : context [lookup _ (assign _ _ _)] |- _ =>
             progress lookup_norm_in H
         | H : context [match Some _ with Some _ => _ | None => _ end] |- _ =>
             progress cbv beta iota in H
         | H : Some _ = Some _ |- _ => injection H as <-
         | H : Ok _ = Ok _ |- _ => injection H as <-
         | H : mapM apply_get_day_part _ = Ok _ |- _ =>
             apply apply_get_day_part_inv in H; subst
         end.

(** X11.  The calendar engineer of [future_predict.py] on a frame that has
    the time column and no indicator column yet: the indicator column of a
    day part is in the result exactly when some row of the batch falls in
    that day part, and then it is the indicator of the day part over the
    hour column. *)
Theorem v2_day_part_columns_follow_the_batch `{L : Lib} (df df' : frame) :
  has_col "time_dt" df = true ->
  FuturePredict.create_time_features df "time_dt" = Ok df' ->
  exists hours,
    lookup "hour_of_day" (cols df') = Some hours
    /\ forall part, In part day_parts ->
         has_col ("day_part_" +++ part) df = false ->
         lookup ("day_part_" +++ part) (cols df')
         = if existsb (fun h => String.eqb (day_part_of h) part) hours
           then Some (indicators part hours)
           else None.
Proof.
  unfold FuturePredict.create_time_features. intros Hc H. rewrite Hc in H.
  simpl in H. inv_bind H. inv_bind H.
  unfold time_fields in E. do 7 inv_bind E.
  unfold FuturePredict.get_dummies_day_part in E0. inv_bind E0. inv_ok E0.
  unfold cyclical_features in H. do 3 inv_bind H.
  derive_all. cbn [String.append] in *. unfold set_col, drop in *.
  cbn [cols nrows] in *.
  frame_norm.
  eexists. split.
  - lookup_norm. rewrite lookup_app, lookup_filter by reflexivity.
    lookup_norm. reflexivity.
  - rewrite !occurs_day_part.
    intros part Hpart Hfresh. apply mem_lookup in Hfresh.
    destruct Hpart as [<-|[<-|[<-|[<-|[]]]]]; cbn [String.append] in *;
      lookup_norm; rewrite lookup_app, lookup_filter by reflexivity;
      lookup_norm; rewrite Hfresh;
      repeat match goal with
             | |- context [existsb ?f ?l] => destruct (existsb f l)
             end;
      cbn [map lookup]; cbn; rewrite ?dummy_day_part; reflexivity.
Qed.

Lemma v2_day_part_columns_follow_the_batch_witness :
  has_col "time_dt" Cases.nine = true
  /\ FuturePredict.create_time_features (L := Samples.stub_lib) Cases.nine
       "time_dt" = Ok Cases.nine_features
  /\ exists hours,
       lookup "hour_of_day" (cols Cases.nine_features) = Some hours
       /\ forall part, In part day_parts ->
            has_col ("day_part_" +++ part) Cases.nine = false ->
            lookup ("day_part_" +++ part) (cols Cases.nine_features)
            = if existsb (fun h => String.eqb (day_part_of h) part) hours
              then Some (indicators part hours)
              else None.
Proof.
  split; [reflexivity|]. split; [vm_compute; reflexivity|].
  apply (v2_day_part_columns_follow_the_batch (L := Samples.stub_lib)
           Cases.nine Cases.nine_features);
    [reflexivity | vm_compute; reflexivity].
Defined.

(** *** The columns of the calendar engineer of [rf_predict.py] *)

Lemma mem_app (c : string) (l1 l2 : list string) :
  mem c (l1 ++ l2) = mem c l1 || mem c l2.
Proof. apply existsb_app. Qed.

Lemma map_fst_assign (c : string) (v : column) l :
  map fst (assign c v l) = assign_name (map fst l) c.
Proof.
  unfold assign_name.
  induction l as [|[k w] l IH]; [reflexivity|].
  cbn [assign map fst mem existsb]. rewrite (String.eqb_sym c k).
  destruct (String.eqb k c); [reflexivity|].
  cbn [map fst orb]. fold (mem c (map fst l)). rewrite IH.
  now destruct (mem c (map fst l)).
Qed.

Lemma map_fst_filter (p : string -> bool) (l : list (string * column)) :
  map fst (filter (fun kv => p (fst kv)) l) = filter p (map fst l).
Proof.
  induction l as [|kv l IH]; [reflexivity|].
  cbn [filter map]. destruct (p (fst kv)); cbn [map]; now rewrite IH.
Qed.

Lemma filter_absent (c : string) (l : list string) :
  mem c l = false -> filter (fun x => negb (mem x [c])) l = l.
Proof.
  induction l as [|x l IH]; [reflexivity|].
  cbn [mem existsb filter].
  destruct (String.eqb_spec c x) as [->|Hne]; [discriminate|].
  cbn [orb]. destruct (String.eqb_spec x c) as [->|_]; [congruence|].
  intros H. cbn [orb negb]. f_equal. now apply IH.
Qed.

(** The column names a run of the engineer leaves, from the names it
    found. *)
Lemma rf_create_time_features_names `{L : Lib} (df df' : frame) :
  has_col "time_dt" df = true ->
  RfPredict.create_time_features df "time_dt" = Ok df' ->
  nrows df' = nrows df /\ columns df' = calendar_columns (columns df).
Proof.
  unfold RfPredict.create_time_features. intros Hc H. rewrite Hc in H.
  simpl in H. inv_bind H. inv_bind H.
  unfold time_fields in E. do 7 inv_bind E.
  unfold day_parts, foldM, RfPredict.one_hot in E0. do 4 inv_bind E0.
  inv_ok E0.
  unfold cyclical_features in H. do 3 inv_bind H.
  derive_all. cbn [String.append] in *. unfold set_col, drop, columns.
  cbn [cols nrows]. split; [reflexivity|].
  rewrite !map_fst_assign.
  rewrite (map_fst_filter (fun x => negb (mem x ["day_part"]))).
  rewrite !map_fst_assign. unfold calendar_columns. cbn [fold_left].
  reflexivity.
Qed.

Lemma fold_assign_old (l names : list string) :
  (forall c, In c l -> mem c names = true) ->
  fold_left assign_name l names = names.
Proof.
  induction l as [|c l IH]; intros Hall; [reflexivity|].
  cbn [fold_left]. unfold assign_name at 2.
  rewrite (Hall c) by now left. apply IH. intros; apply Hall; now right.
Qed.

Lemma fold_assign_fresh (l names : list string) :
  NoDup l -> (forall c, In c l -> mem c names = false) ->
  fold_left assign_name l names = names ++ l.
Proof.
  revert names. induction l as [|c l IH]; intros names Hnd Hall.
  - now rewrite app_nil_r.
  - cbn [fold_left]. unfold assign_name at 2.
    rewrite (Hall c) by now left. inversion Hnd as [|? ? Hc Hnd']; subst.
    rewrite IH; [now rewrite <- app_assoc | exact Hnd' |].
    intros c' Hc'. rewrite mem_app, (Hall c') by now right.
    cbn [mem existsb]. destruct (String.eqb_spec c' c) as [->|]; [|reflexivity].
    contradiction.
Qed.

Lemma mem_fold_assign (c : string) (l names : list string) :
  mem c (fold_left assign_name l names) = mem c names || mem c l.
Proof.
  revert names. induction l as [|x l IH]; intros names.
  - cbn. now rewrite orb_false_r.
  - cbn [fold_left]. rewrite IH. unfold assign_name.
    cbn [mem existsb]. fold (mem c l).
    destruct (mem x names) eqn:Hx.
    + destruct (String.eqb_spec c x) as [->|]; [|reflexivity].
      now rewrite Hx.
    + rewrite mem_app. cbn [mem existsb]. now rewrite orb_false_r, orb_assoc.
Qed.

Lemma mem_calendar_columns (c : string) (names : list string) :
  mem c (calendar_columns names)
  = negb (mem c ["day_part"])
    && (mem c names
        || mem c ["time_dt"; "hour_of_day"; "day_of_week"; "day_of_month";
                  "month"; "is_weekend"; "day_part"; "day_part_morning";
                  "day_part_afternoon"; "day_part_evening"; "day_part_night"])
    || mem c ["hour_sin"; "hour_cos"; "day_sin"; "day_cos"].
Proof.
  unfold calendar_columns.
  now rewrite mem_fold_assign, mem_filter, mem_fold_assign.
Qed.

Lemma calendar_columns_fresh (names : list string) :
  mem "time_dt" names = true ->
  (forall c, In c ("day_part" :: calendar_names) -> mem c names = false) ->
  calendar_columns names = names ++ calendar_names.
Proof.
  intros Htime Hfresh. unfold calendar_columns.
  assert (fold_left assign_name
            ["time_dt"; "hour_of_day"; "day_of_week"; "day_of_month";
             "month"; "is_weekend"; "day_part"; "day_part_morning";
             "day_part_afternoon"; "day_part_evening"; "day_part_night"]
            names
          = names ++ ["hour_of_day"; "day_of_week"; "day_of_month"; "month";
                      "is_weekend"; "day_part"; "day_part_morning";
                      "day_part_afternoon"; "day_part_evening";
                      "day_part_night"]) as ->.
  { transitivity
      (fold_left assign_name
         ["hour_of_day"; "day_of_week"; "day_of_month"; "month";
          "is_weekend"; "day_part"; "day_part_morning"; "day_part_afternoon";
          "day_part_evening"; "day_part_night"]
         (assign_name names "time_dt")); [reflexivity|].
    replace (assign_name names "time_dt") with names
      by (unfold assign_name; now rewrite Htime).
    apply fold_assign_fresh.
    - repeat constructor; cbn; intuition discriminate.
    - intros c Hc. apply Hfresh. unfold calendar_names. cbn in *. tauto. }
  rewrite filter_app, filter_absent by (apply Hfresh; now left).
  cbn [filter mem existsb String.eqb Ascii.eqb Bool.eqb orb negb andb].
  rewrite fold_assign_fresh.
  - now rewrite <- app_assoc.
  - repeat constructor; cbn; intuition discriminate.
  - intros c Hc. rewrite mem_app, Hfresh.
    + cbn in Hc. destruct Hc as [<-|[<-|[<-|[<-|[]]]]]; reflexivity.
    + unfold calendar_names. cbn in *. tauto.
Qed.

Lemma calendar_columns_stable (names : list string) :
  mem "time_dt" names = true ->
  calendar_columns (calendar_columns names) = calendar_columns names.
Proof.
  intros Htime. set (names' := calendar_columns names).
  assert (forall c, In c ("time_dt" :: calendar_names) -> mem c names' = true)
    as Hold.
  { intros c Hc. unfold names'. rewrite mem_calendar_columns.
    cbn in Hc.
    repeat (destruct Hc as [<-|Hc];
            [first [ reflexivity
                   | rewrite Htime; reflexivity
                   | cbn; now rewrite orb_true_r ]|]).
    destruct Hc. }
  assert (mem "day_part" names' = false) as Hnew.
  { unfold names'. rewrite mem_calendar_columns. reflexivity. }
  unfold calendar_columns at 1.
  change ["time_dt"; "hour_of_day"; "day_of_week"; "day_of_month"; "month";
          "is_weekend"; "day_part"; "day_part_morning"; "day_part_afternoon";
          "day_part_evening"; "day_part_night"]
    with (["time_dt"; "hour_of_day"; "day_of_week"; "day_of_month"; "month";
           "is_weekend"]
          ++ ["day_part"]
          ++ ["day_part_morning"; "day_part_afternoon"; "day_part_evening";
              "day_part_night"]).
  rewrite !fold_left_app.
  rewrite (fold_assign_old _ names')
    by (intros c Hc; apply Hold; unfold calendar_names; cbn in *; tauto).
  change (fold_left assign_name ["day_part"] names')
    with (assign_name names' "day_part").
  replace (assign_name names' "day_part") with (names' ++ ["day_part"])
    by (unfold assign_name; now rewrite Hnew).
  rewrite (fold_assign_old _ (names' ++ ["day_part"]))
    by (intros c Hc; rewrite mem_app, Hold;
        [reflexivity | unfold calendar_names; cbn in *; tauto]).
  rewrite filter_app, filter_absent by exact Hnew.
  cbn [filter mem existsb String.eqb Ascii.eqb Bool.eqb orb negb andb].
  rewrite app_nil_r. apply fold_assign_old.
  intros c Hc. apply Hold. unfold calendar_names. cbn in *. tauto.
Qed.

(** X12.  The calendar engineer of [rf_predict.py] on a frame that has the
    time column keeps the rows; on a frame that has none of the derived
    names it appends the thirteen calendar columns in the order of
    [calendar_names], without the helper column [day_part]; and applied to
    its own result, as the forecaster does to [future_data] at every step,
    it leaves the column names as they are. *)
Theorem rf_calendar_columns `{L : Lib} (df df' : frame) :
  has_col "time_dt" df = true ->
  RfPredict.create_time_features df "time_dt" = Ok df' ->
  nrows df' = nrows df
  /\ has_col "day_part" df' = false
  /\ (forall c, In c calendar_names -> has_col c df' = true)
  /\ ((forall c, In c ("day_part" :: calendar_names) -> has_col c df = false)
      -> columns df' = columns df ++ calendar_names)
  /\ forall df'',
       RfPredict.create_time_features df' "time_dt" = Ok df'' ->
       columns df'' = columns df'.
Proof.
  intros Hc H. apply rf_create_time_features_names in H as [Hn Hnames];
    [|exact Hc].
  unfold has_col in *. rewrite Hnames.
  split; [exact Hn|]. split; [|split; [|split]].
  - rewrite mem_calendar_columns. reflexivity.
  - intros c Hin. rewrite mem_calendar_columns. cbn in Hin.
    repeat (destruct Hin as [<-|Hin];
            [first [reflexivity | cbn; now rewrite orb_true_r]|]).
    destruct Hin.
  - intros Hfresh. now apply calendar_columns_fresh.
  - intros df'' H2.
    assert (mem "time_dt" (columns df') = true) as Hc'.
    { rewrite Hnames, mem_calendar_columns, Hc. reflexivity. }
    apply rf_create_time_features_names in H2 as [_ Hnames2]; [|exact Hc'].
    rewrite Hnames2, Hnames. now apply calendar_columns_stable.
Qed.

Lemma rf_calendar_columns_witness :
  has_col "time_dt" Cases.record = true
  /\ RfPredict.create_time_features (L := Samples.stub_lib) Cases.record
       "time_dt" = Ok Cases.record_features
  /\ (forall c, In c ("day_part" :: calendar_names) ->
                has_col c Cases.record = false)
  /\ nrows Cases.record_features = nrows Cases.record
  /\ columns Cases.record_features = columns Cases.record ++ calendar_names.
Proof.
  split; [reflexivity|]. split; [vm_compute; reflexivity|].
  assert (forall c, In c ("day_part" :: calendar_names) ->
                    has_col c Cases.record = false) as Hfresh.
  { intros c Hc. cbn in Hc.
    repeat (destruct Hc as [<-|Hc]; [reflexivity|]). destruct Hc. }
  split; [exact Hfresh|].
  destruct (rf_calendar_columns (L := Samples.stub_lib) Cases.record
              Cases.record_features) as (Hn & _ & _ & Hcols & _);
    [reflexivity | vm_compute; reflexivity |].
  split; [exact Hn | exact (Hcols Hfresh)].
Defined.

(** ** The future time points *)

(** X13.  [create_future_timepoints] on a frame of two rows or more whose
    time column holds the timestamps [ts], in the order of the rows: the
    [k]-th future time point is the latest timestamp plus [k] times the
    average interval, and the average interval depends on the first and
    the last row only: it is the last timestamp minus the first over the
    number of intervals.  So when the first row is later than the last, as
    in a history stored latest first, every future time point lies before
    the latest timestamp of the history. *)
Theorem future_interval_from_first_and_last_row `{L : Lib} (df : frame)
  (n : nat) (ts : list Q) :
  get_col "time_dt" df = Ok (map Time ts) ->
  (2 <= length ts)%nat -> (1 < nrows df)%nat ->
  RfPredict.create_future_timepoints df n "time_dt"
  = Ok (Some (Frame n [("time_dt",
                        map (fun k => Time (maximum ts
                                            + of_nat k
                                              * mean (consecutive_diffs ts)))
                            (seq 1 n))]))
  /\ mean (consecutive_diffs ts)
     == (last ts 0 - hd 0 ts) / of_nat (length ts - 1)
  /\ (last ts 0 < hd 0 ts ->
      forall k, (1 <= k)%nat ->
        maximum ts + of_nat k * mean (consecutive_diffs ts) < maximum ts).
Proof.
  intros Htc Hlen Hrows.
  assert (mean (consecutive_diffs ts)
          == (last ts 0 - hd 0 ts) / of_nat (length ts - 1)) as Hmean.
  { destruct ts as [|a r]; cbn [length] in *; [lia|].
    unfold mean. rewrite sum_consecutive_diffs, length_consecutive_diffs.
    cbn [hd]. now rewrite Nat.sub_succ, Nat.sub_0_r. }
  split; [|split; [exact Hmean|]].
  - unfold RfPredict.create_future_timepoints.
    assert (has_col "time_dt" df = true) as ->.
    { unfold get_col in Htc.
      destruct (lookup "time_dt" (cols df)) as [v|] eqn:Hv; [|discriminate].
      exact (lookup_Some_mem _ _ _ Hv). }
    destruct (Nat.leb_spec (nrows df) 1) as [Hle|_]; [lia|].
    cbn [negb orb]. rewrite Htc. cbn [bind]. rewrite to_datetime_Time.
    cbn [bind].
    rewrite timestamps_Time, mean_observed_diff by assumption.
    rewrite last_observed_Some by (intros ->; cbn in Hlen; lia).
    do 3 f_equal. f_equal. f_equal.
    rewrite <- seq_shift, map_map. apply map_ext. intros i.
    unfold RfPredict.future_time. now rewrite Nat.add_1_r.
  - intros Hdesc k Hk. rewrite Hmean.
    assert (0 < of_nat k) as Hpos by (apply of_nat_pos; lia).
    assert (0 < of_nat (length ts - 1)) as Hden by (apply of_nat_pos; lia).
    assert ((last ts 0 - hd 0 ts) / of_nat (length ts - 1) < 0) as Hneg.
    { apply Qlt_shift_div_r; [exact Hden | lra]. }
    nra.
Qed.

Lemma future_interval_from_first_and_last_row_witness :
  get_col "time_dt" Cases.latest_first_frame
  = Ok (map Time Cases.latest_first)
  /\ (2 <= length Cases.latest_first)%nat
  /\ (1 < nrows Cases.latest_first_frame)%nat
  /\ last Cases.latest_first 0 < hd 0 Cases.latest_first
  /\ maximum Cases.latest_first
     + of_nat 1 * mean (consecutive_diffs Cases.latest_first)
     < maximum Cases.latest_first.
Proof.
  split; [reflexivity|]. split; [cbn; lia|]. split; [cbn; lia|].
  split; [vm_compute; reflexivity|].
  destruct (future_interval_from_first_and_last_row (L := Samples.stub_lib)
              Cases.latest_first_frame 1 Cases.latest_first)
    as (_ & _ & Hpast); [reflexivity | cbn; lia | cbn; lia |].
  apply Hpast; [vm_compute; reflexivity | lia].
Defined.

(** ** The lag features of the forecaster of [rf_predict.py] *)

(** X14.  In the loop of [predict_future_values] the index [i] is the
    number of predictions made so far, so the loop is the one that reads
    [i] off [all_predictions]; and with that index a lag feature is, plus a
    draw of scale 0.3 times the standard deviation of the differences, the
    prediction made [lag] steps before or, while fewer than [lag]
    predictions exist, the historical value of row [-(lag - i)].  The
    branch for lag 1 that draws with scale 0.5 and the fallback to the
    first prediction are never taken. *)
Theorem lag_features_in_the_loop `{L : Lib} (m : model) (sc : scaler)
  (w : frame) (hist : list Q) (a : RfPredict.analysis)
  (target_var time_col : string) :
  (forall times st,
     foldM (RfPredict.step m sc w hist a target_var time_col)
           (combine (seq (length (RfPredict.all_predictions st))
                         (length times)) times) st
     = foldM (fun st ft =>
                RfPredict.step m sc w hist a target_var time_col st
                  (length (RfPredict.all_predictions st), ft))
             times st)
  /\ forall sd preds lag g,
       RfPredict.lag_feature sd hist preds (length preds) lag g
       = (value <- (if (length preds <? lag)%nat
                    then index_neg hist (lag - length preds)
                    else index_neg preds lag) ;;
          Ok (value + fst (random_normal 0 (sd * 0.3) g),
              snd (random_normal 0 (sd * 0.3) g))).
Proof.
  split.
  - induction times as [|ft times IH]; intros st; [reflexivity|].
    cbn [length seq combine foldM].
    destruct (RfPredict.step m sc w hist a target_var time_col st
                (length (RfPredict.all_predictions st), ft))
      as [st1|e] eqn:Hstep; [|reflexivity].
    cbn [bind]. rewrite <- IH.
    apply step_inv in Hstep as (t & _ & Hp & _).
    rewrite Hp, length_app. cbn [length]. now rewrite Nat.add_1_r.
  - intros sd preds lag g. unfold RfPredict.lag_feature.
    destruct (random_normal 0 (sd * 0.3) g) as [variation g'] eqn:Hdraw.
    cbn [fst snd].
    destruct (Nat.ltb_spec (length preds) lag) as [Hlt|Hge].
    + destruct (Nat.eqb_spec lag 1) as [->|Hne].
      * destruct preds; [reflexivity | cbn in Hlt; lia].
      * cbn [andb]. destruct (Nat.ltb_spec (length preds) lag); [|lia].
        reflexivity.
    + reflexivity.
Qed.

(** ** [create_utilization_features] of [predict.py] *)

Lemma utilization_ratio_other (usage request ratio : string)
  (df df' : frame) :
  PredictFeatures.utilization_ratio usage request ratio df = Ok df' ->
  nrows df' = nrows df
  /\ forall c, c <> ratio -> lookup c (cols df') = lookup c (cols df).
Proof.
  unfold PredictFeatures.utilization_ratio. intros H.
  destruct (has_col request df && has_col usage df).
  - do 4 (apply bind_Ok in H as (? & _ & H)). injection H as <-.
    cbn [nrows set_col cols]. split; [reflexivity|]. intros c Hc.
    now rewrite !lookup_assign_other.
  - inv_ok H. auto.
Qed.

(** X15.  [create_utilization_features] on a frame that has the CPU usage
    and the CPU request: the rows stay, and the CPU utilization ratio is
    missing in a row whose usage or request is missing, whose request is 0,
    or whose quotient of usage by request is too large for a double, and
    otherwise the quotient where that is at most 1, and 1 where it is more.
    No ratio exceeds 1 and none is infinite. *)
Theorem cpu_utilization_ratio_is_capped (df df' : frame) (u r : column) :
  lookup "average_usage_cpu" (cols df) = Some u ->
  lookup "resource_request_cpu" (cols df) = Some r ->
  PredictFeatures.create_utilization_features df = Ok df' ->
  exists xs ys ratio,
    numeric u = Ok xs /\ numeric r = Ok ys
    /\ nrows df' = nrows df
    /\ lookup "cpu_utilization_ratio" (cols df') = Some ratio
    /\ length ratio = Nat.min (length xs) (length ys)
    /\ (forall i x y,
          nth_error xs i = Some x -> nth_error ys i = Some y ->
          match x, y with
          | Some a, Some b =>
              if Qeq_bool b 0 || PredictFeatures.overflows (a / b)
              then nth_error ratio i = Some NaN
              else exists z, nth_error ratio i = Some (Num z)
                             /\ z <= 1
                             /\ (a / b <= 1 -> z = a / b)
                             /\ (1 < a / b -> z = 1)
          | _, _ => nth_error ratio i = Some NaN
          end)
    /\ Forall (fun c => match c with
                        | Num z => z <= 1
                        | NaN => True
                        | _ => False
                        end) ratio.
Proof.
  intros Hu Hr H. unfold PredictFeatures.create_utilization_features in H.
  apply bind_Ok in H as (df1 & H1 & H).
  apply bind_Ok in H as (df2 & H2 & H).
  apply utilization_ratio_other in H2 as [Hn2 Hc2].
  assert (nrows df' = nrows df2
          /\ lookup "cpu_utilization_ratio" (cols df')
             = lookup "cpu_utilization_ratio" (cols df2)) as [Hn3 Hc3].
  { destruct (has_col "cpu_utilization_ratio" df2
              && has_col "memory_utilization_ratio" df2).
    - do 3 (apply bind_Ok in H as (? & _ & H)). injection H as <-.
      cbn [nrows set_col cols]. split; [reflexivity|].
      now rewrite lookup_assign_other.
    - inv_ok H. auto. }
  rewrite Hc3, Hc2 by discriminate. rewrite Hn3, Hn2. clear H Hn3 Hc3 Hn2 Hc2.
  unfold PredictFeatures.utilization_ratio in H1.
  unfold has_col, columns in H1.
  rewrite (lookup_Some_mem _ _ _ Hu), (lookup_Some_mem _ _ _ Hr) in H1.
  cbn [andb] in H1. unfold get_col at 1 2 in H1. rewrite Hu, Hr in H1.
  cbn [bind] in H1. unfold PredictFeatures.series_div in H1.
  destruct (numeric u) as [xs|e]; [|discriminate].
  destruct (numeric r) as [ys|e]; [|discriminate].
  cbn [bind] in H1. rewrite get_col_set_col_same in H1. cbn [bind] in H1.
  injection H1 as <-. cbn [nrows set_col cols].
  exists xs, ys. eexists. split; [reflexivity|]. split; [reflexivity|].
  split; [reflexivity|]. split; [apply lookup_assign_same|].
  rewrite !map_map. split; [|split].
  - now rewrite length_map, length_combine.
  - intros i x y Hx Hy.
    assert (nth_error (combine xs ys) i = Some (x, y)) as Hxy.
    { clear - Hx Hy. revert ys i Hx Hy.
      induction xs as [|x0 xs IH]; intros [|y0 ys] [|i] Hx Hy;
        cbn in *; try discriminate.
      - now inv_ok Hx; inv_ok Hy.
      - now apply IH. }
    rewrite nth_error_map, Hxy. cbn [option_map fst snd].
    unfold PredictFeatures.divide.
    destruct x as [a|], y as [b|]; try reflexivity.
    destruct (Qeq_bool b 0); cbn [orb].
    + destruct (Qeq_bool a 0); [reflexivity|].
      now destruct (Qle_bool 0 a).
    + destruct (PredictFeatures.overflows (a / b)).
      * now destruct (Qle_bool 0 (a / b)).
      * cbn [PredictFeatures.replace_inf PredictFeatures.clip_upper].
        destruct (Qle_bool (a / b) 1) eqn:Hle.
        -- apply Qle_bool_iff in Hle. eexists. split; [reflexivity|].
           split; [exact Hle|]. split; [reflexivity|]. intros Hgt. lra.
        -- eexists. split; [reflexivity|]. split; [lra|].
           split; [|reflexivity]. intros Hle'. apply Qle_bool_iff in Hle'.
           congruence.
  - apply Forall_forall. intros c Hc. apply in_map_iff in Hc as ([x y] & <- & _).
    cbn [fst snd]. unfold PredictFeatures.divide.
    destruct x as [a|], y as [b|]; try exact I.
    destruct (Qeq_bool b 0).
    + destruct (Qeq_bool a 0); [exact I|]. now destruct (Qle_bool 0 a).
    + destruct (PredictFeatures.overflows (a / b)).
      * now destruct (Qle_bool 0 (a / b)).
      * cbn [PredictFeatures.replace_inf PredictFeatures.clip_upper].
        destruct (Qle_bool (a / b) 1) eqn:Hle; [|lra].
        now apply Qle_bool_iff in Hle.
Qed.

Lemma cpu_utilization_ratio_is_capped_witness :
  lookup "average_usage_cpu" (cols Cases.usage_frame) = Some Cases.usage
  /\ lookup "resource_request_cpu" (cols Cases.usage_frame)
     = Some Cases.request
  /\ PredictFeatures.create_utilization_features Cases.usage_frame
     = Ok Cases.usage_features
  /\ exists ratio,
       lookup "cpu_utilization_ratio" (cols Cases.usage_features) = Some ratio
       /\ nth_error ratio 4 = Some NaN
       /\ Forall (fun c => match c with
                           | Num z => z <= 1
                           | NaN => True
                           | _ => False
                           end) ratio.
Proof.
  split; [reflexivity|]. split; [reflexivity|].
  split; [vm_compute; reflexivity|].
  destruct (cpu_utilization_ratio_is_capped Cases.usage_frame
              Cases.usage_features Cases.usage Cases.request)
    as (xs & ys & ratio & Hxs & Hys & _ & Hratio & _ & Hrows & Hcap);
    [reflexivity | reflexivity | vm_compute; reflexivity |].
  exists ratio. split; [exact Hratio|]. split; [|exact Hcap].
  vm_compute in Hxs. vm_compute in Hys.
  injection Hxs as <-. injection Hys as <-.
  exact (Hrows 4%nat (Some 1) (Some (/ (10 ^ 310))) eq_refl eq_refl).
Defined.

(** ** [load_model] of [rf_predict.py] *)

(** X16.  [load_model] returns a model and a scaler together or neither;
    a target name that mentions memory, in any letter case, gets the memory
    model and the memory scaler, also when it mentions the CPU; a name that
    mentions neither gets nothing. *)
Theorem load_model_pairs (load_model_file : string -> res model)
  (load_scaler_file : string -> res scaler) (target_var model_dir : string) :
  (fst (RfLoad.load_model load_model_file load_scaler_file target_var
          model_dir) = None
   <-> snd (RfLoad.load_model load_model_file load_scaler_file target_var
              model_dir) = None)
  /\ (RfLoad.contains "memory" (RfLoad.lower target_var) = true ->
      forall m sc,
        RfLoad.load_model load_model_file load_scaler_file target_var
          model_dir = (Some m, Some sc) ->
        load_model_file (RfLoad.path_join model_dir "rf_memory_model.pkl")
        = Ok m
        /\ load_scaler_file
             (RfLoad.path_join model_dir "rf_memory_scaler.pkl") = Ok sc)
  /\ (RfLoad.contains "memory" (RfLoad.lower target_var) = false ->
      RfLoad.contains "cpu" (RfLoad.lower target_var) = false ->
      RfLoad.load_model load_model_file load_scaler_file target_var model_dir
      = (None, None)).
Proof.
  unfold RfLoad.load_model.
  destruct (RfLoad.contains "memory" (RfLoad.lower target_var)).
  - destruct (load_model_file _) as [m|e] eqn:Hm; cbn [bind].
    + destruct (load_scaler_file _) as [sc|e] eqn:Hs; cbn [bind fst snd].
      * split; [split; discriminate|]. split; [|discriminate].
        intros _ m' sc' E. injection E as <- <-. auto.
      * split; [tauto|]. split; discriminate.
    + cbn [fst snd]. split; [tauto|]. split; discriminate.
  - destruct (RfLoad.contains "cpu" (RfLoad.lower target_var)).
    + destruct (load_model_file _) as [m|e]; cbn [bind].
      * destruct (load_scaler_file _) as [sc|e]; cbn [bind fst snd];
          (split; [first [tauto | split; discriminate]|]);
          split; discriminate.
      * cbn [fst snd]. split; [tauto|]. split; discriminate.
    + cbn [fst snd]. split; [tauto|]. split; [discriminate | reflexivity].
Qed.

Lemma load_model_pairs_witness :
  RfLoad.contains "memory" (RfLoad.lower "CPU_and_Memory") = true
  /\ RfLoad.load_model Cases.memory_store Cases.scaler_store
       "CPU_and_Memory" "../models"
     = (Some (Samples.constant_model 5),
        Some (Samples.stub_scaler ["cpu_lag_1"]))
  /\ Cases.memory_store (RfLoad.path_join "../models" "rf_memory_model.pkl")
     = Ok (Samples.constant_model 5).
Proof.
  split; [reflexivity|]. split; [reflexivity|].
  destruct (load_model_pairs Cases.memory_store Cases.scaler_store
              "CPU_and_Memory" "../models") as (_ & Hmem & _).
  apply (Hmem eq_refl (Samples.constant_model 5)
           (Samples.stub_scaler ["cpu_lag_1"]) eq_refl).
Defined.

(** ** The lag engineer of [predict.py] *)

(** X17.  [create_lag_features] of [predict.py] iterates over
    [target_cols] as it is given.  Given one name as a string it takes each
    character for a column name, and raises [KeyError] on the first
    character when the frame has no column of that name, whether or not it
    has the column the string names; given a list it is the engineer of
    the other two scripts. *)
Theorem predict_lag_engineer_iterates_characters (df : frame) (c : ascii)
  (rest : string) (lag : nat) (lags : list nat) :
  has_col (String c EmptyString) df = false ->
  PredictFeatures.create_lag_features df (One (String c rest)) (lag :: lags)
  = Raise (KeyError (String c EmptyString))
  /\ forall names periods,
       PredictFeatures.create_lag_features df (Many names) periods
       = create_lag_features df (Many names) periods.
Proof.
  intros Hc. split; [|reflexivity].
  unfold PredictFeatures.create_lag_features.
  cbn [PredictFeatures.iterate list_ascii_of_string map foldM].
  now rewrite (has_col_false_get_col _ _ Hc).
Qed.

Lemma predict_lag_engineer_iterates_characters_witness :
  has_col "c" Samples.plain_frame = false
  /\ has_col "cpu" Samples.plain_frame = true
  /\ PredictFeatures.create_lag_features Samples.plain_frame (One "cpu")
       [1%nat] = Raise (KeyError "c")
  /\ is_ok (create_lag_features Samples.plain_frame (One "cpu") [1%nat])
     = true.
Proof.
  split; [reflexivity|]. split; [reflexivity|]. split; [|reflexivity].
  apply (predict_lag_engineer_iterates_characters Samples.plain_frame
           "c"%char "pu" 1 []).
  reflexivity.
Defined.

(** ** The rolling window of the forecaster of [rf_predict.py] *)

Lemma index_neg_nth (l : list Q) (k : nat) :
  (1 <= k <= length l)%nat ->
  index_neg l k = Ok (nth (length l - k) l 0).
Proof.
  intros Hk. unfold index_neg. destruct k as [|k]; [lia|].
  destruct (Nat.leb_spec (S k) (length l)); [|lia].
  destruct (nth_error l (length l - S k)) as [a|] eqn:Hn.
  - now rewrite (nth_error_nth _ _ _ Hn).
  - apply nth_error_None in Hn. lia.
Qed.

Lemma value_to_avg_recent (hist preds : list Q) (j : nat) :
  (j + 1 < length hist + length preds)%nat ->
  RfPredict.value_to_avg (length hist) hist preds j
  = Ok (nth j (rev (hist ++ preds)) 0).
Proof.
  intros Hj. unfold RfPredict.value_to_avg.
  rewrite rev_nth by (rewrite length_app; lia). rewrite length_app.
  destruct (Nat.ltb_spec j (length preds)) as [Hlt|Hge].
  - rewrite index_neg_nth by lia. rewrite app_nth2 by lia.
    do 2 f_equal. lia.
  - destruct (Nat.ltb_spec 0 (j + 1 - length preds)); [|lia].
    destruct (Nat.ltb_spec (j + 1 - length preds) (length hist)); [|lia].
    cbn [andb]. rewrite index_neg_nth by lia. rewrite app_nth1 by lia.
    do 2 f_equal. lia.
Qed.

Lemma map_nth_firstn (l : list Q) (w : nat) :
  (w <= length l)%nat -> map (fun j => nth j l 0) (seq 0 w) = firstn w l.
Proof.
  revert w. induction l as [|x l IH]; intros [|w] Hw; cbn [length] in Hw;
    try reflexivity; try lia.
  cbn [seq map firstn nth]. f_equal.
  rewrite <- seq_shift, map_map. apply IH. lia.
Qed.

(** X18.  The values a rolling feature of the forecaster is computed from,
    when the working frame has one row per historical value: for a window
    shorter than the history and the predictions together they are the
    last [window] values of the history followed by the predictions, latest
    first.  The oldest historical value is never read: where the window
    would reach it, the first prediction stands in or, before any
    prediction, the latest historical value. *)
Theorem rolling_window_in_the_loop (hist preds : list Q) (window : nat) :
  (window < length hist + length preds)%nat ->
  mapM (RfPredict.value_to_avg (length hist) hist preds) (seq 0 window)
  = Ok (firstn window (rev (hist ++ preds)))
  /\ ((1 <= length hist)%nat ->
      RfPredict.value_to_avg (length hist) hist preds
        (length hist + length preds - 1)
      = Ok match preds with
           | p :: _ => p
           | [] => last hist 0
           end).
Proof.
  intros Hw. split.
  - rewrite (mapM_total _ (fun j => nth j (rev (hist ++ preds)) 0)).
    + f_equal. apply map_nth_firstn. rewrite length_rev, length_app. lia.
    + intros j Hj. apply in_seq in Hj. apply value_to_avg_recent. lia.
  - intros Hn. unfold RfPredict.value_to_avg.
    destruct (Nat.ltb_spec (length hist + length preds - 1) (length preds));
      [lia|].
    replace (length hist + length preds - 1 + 1 - length preds)%nat
      with (length hist) by lia.
    rewrite Nat.ltb_irrefl, andb_false_r.
    destruct preds as [|p preds]; [|reflexivity].
    rewrite index_neg_nth by lia. f_equal.
    destruct hist as [|h hist]; [cbn in Hn; lia|].
    destruct (@exists_last _ (h :: hist)) as (r & x & E); [discriminate|].
    rewrite E, last_last, length_app. cbn [length].
    rewrite app_nth2 by lia.
    replace (length r + 1 - 1 - length r)%nat with 0%nat by lia. reflexivity.
Qed.

Lemma rolling_window_in_the_loop_witness :
  (3 < length Cases.history + length Cases.made)%nat
  /\ mapM (RfPredict.value_to_avg (length Cases.history) Cases.history
                                  Cases.made)
          (seq 0 3)
     = Ok [50; 40; 30]
  /\ RfPredict.value_to_avg (length Cases.history) Cases.history Cases.made 4
     = Ok 40.
Proof.
  split; [cbn; lia|].
  destruct (rolling_window_in_the_loop Cases.history Cases.made 3)
    as [Hrecent Holdest]; [cbn; lia|].
  split; [exact Hrecent | apply Holdest; cbn; lia].
Defined.
